(** * Key agreement of zcrypto's TLS stack (tls/key_agreement.go)

    A shallow embedding of the client and server sides of the RSA, DHE and
    ECDHE key agreements of [tls/key_agreement.go], of the signed
    authentication of the ServerKeyExchange parameters, of the hash
    helpers, of the TLS 1.2 hash picker and of the curve registry, over the
    curve interface of [ecdh/ecdh.go], followed by the properties proved
    about them.  The embedded operations are
    - [rsaKeyAgreement], [dheKeyAgreement] and [ecdheKeyAgreement]:
      [generateServerKeyExchange], [processClientKeyExchange],
      [processServerKeyExchange], [generateClientKeyExchange];
    - [signedKeyAgreement] and [nilKeyAgreementAuthentication]:
      [signParameters], [verifyParameters];
    - [md5Hash], [sha1Hash], [md5SHA1Hash], [sha224Hash], [sha256Hash],
      [sha384Hash], [sha512Hash] and [hashForServerKeyExchange];
    - [pickTLS12HashForSignature] and [curveForCurveID].

    Conventions of the embedding:
    - a Go [[]byte] is a [list byte], and [len] gives its length as a Go
      [int];
    - a [*big.Int] is an [option Z] ([None] is the nil pointer);
    - a Go [(value, error)] return is a [result]; a bare [error] return is an
      [option error] ([None] is nil); a run-time panic is the [Panic] outcome;
    - a method with a pointer receiver takes the state and returns the new
      state beside its result;
    - the reader returned by [config.rand()] is a finite stream of bytes that
      is threaded through the operations;
    - the primitives of Go's standard library that the file calls
      ([rsa.DecryptPKCS1v15SessionKey], [rsa.EncryptPKCS1v15], [rand.Int]) and
      the curve implementations of package [ecdh] are members of the class
      [CryptoLib]; the hash functions, the signature primitives, the ASN.1
      coding of a signature and [rsa.GenerateKey] are members of the class
      [SignatureLib]; the interface [keyAgreementAuthentication] is a
      class. *)

From Stdlib Require Import ZArith List String Ascii Bool Lia.
From Stdlib Require Zdivisibility Zpow_facts.
From coqutil Require Import Byte.
Import ListNotations.

Local Open Scope string_scope.
Local Open Scope list_scope.
Local Open Scope Z_scope.

(** ** Bytes, slices and integers *)

Definition bytes := list byte.

(** [len(s)] as a Go [int]. *)
Definition len {T : Type} (s : list T) : Z := Z.of_nat (List.length s).

(** [s[i]] for an index the caller has already checked. *)
Definition at_ (s : bytes) (i : nat) : byte := nth i s Byte.x00.

(** [int(b)] for a byte [b]. *)
Definition int (b : byte) : Z := byte.unsigned b.

(** [s[:n]] and [s[n:]] for [0 <= n <= len(s)]. *)
Definition slice_to {T : Type} (s : list T) (n : Z) : list T := firstn (Z.to_nat n) s.
Definition slice_from {T : Type} (s : list T) (n : Z) : list T := skipn (Z.to_nat n) s.

(** [(int(k[0]) << 8) | int(k[1])]: the 16-bit big-endian length prefix. *)
Definition be16 (k : bytes) : Z := Z.lor (Z.shiftl (int (at_ k 0)) 8) (int (at_ k 1)).

(** [byte(n >> 8), byte(n)]: the two bytes written in front of a field. *)
Definition put16 (n : Z) : bytes := [byte.of_Z (Z.shiftr n 8); byte.of_Z n].

(** ** math/big *)

(** [new(big.Int).SetBytes(b)]: [b] read as a big-endian unsigned integer. *)
Definition big_SetBytes (b : bytes) : Z :=
  fold_left (fun acc x => acc * 256 + int x) b 0.

(** The bytes of a non-negative [z], most significant first, pushed in front
    of [acc]; [fuel] bounds the number of bytes. *)
Fixpoint natBytes (fuel : nat) (z : Z) (acc : bytes) : bytes :=
  match fuel with
  | O => acc
  | S f => if z =? 0 then acc else natBytes f (z / 256) (byte.of_Z z :: acc)
  end.

(** [x.Bytes()]: the absolute value of [x] as a big-endian byte slice; the
    slice of zero is empty. *)
Definition big_Bytes (x : Z) : bytes :=
  natBytes (S (Z.to_nat (Z.log2 (Z.abs x)))) (Z.abs x) [].

(** [x.Sign()]. *)
Definition big_Sign (x : Z) : Z := Z.sgn x.

(** [new(big.Int).Exp(x, y, m)] for [y >= 0]: [x**y mod |m|], and [x**y]
    when [m] is zero.  (The callers below only pass exponents drawn by
    [rand.Int], which are never negative.) *)
Definition big_Exp (x y m : Z) : Z :=
  if m =? 0 then x ^ y else (x ^ y) mod (Z.abs m).

(** ** strings *)

(** [strings.Split(s, ",")]. *)
Fixpoint strings_Split_comma (s : string) : list string :=
  match s with
  | EmptyString => [EmptyString]
  | String c rest =>
      if Ascii.eqb c ","%char then EmptyString :: strings_Split_comma rest
      else match strings_Split_comma rest with
           | hd :: tl => String c hd :: tl
           | [] => [String c EmptyString]
           end
  end.

(** ** Errors and outcomes *)

Inductive error : Type :=
| errClientKeyExchange            (* "tls: invalid ClientKeyExchange message" *)
| errServerKeyExchange            (* "tls: invalid ServerKeyExchange message" *)
| errUnexpectedServerKeyExchange  (* "tls: unexpected ServerKeyExchange message" *)
| errors_New (msg : string)       (* errors.New(msg) at the place of the failure *)
| io_EOF
| io_ErrUnexpectedEOF
| lib_error (msg : string).       (* an error value made by a library primitive *)

Inductive result (T : Type) : Type :=
| Ok (v : T)
| Err (e : error)
| Panic (msg : string).
Arguments Ok {T} v.
Arguments Err {T} e.
Arguments Panic {T} msg.

(** ** The random source *)

(** The [io.Reader] behind [config.rand()]: the bytes it will still deliver. *)
Definition RandReader := bytes.

(** [io.ReadFull(r, buf)] for a buffer of [n] bytes: the [n] bytes read, or
    [io.EOF] / [io.ErrUnexpectedEOF] when the reader ends first. *)
Definition io_ReadFull (r : RandReader) (n : nat) : RandReader * result bytes :=
  if (n <=? List.length r)%nat then (skipn n r, Ok (firstn n r))
  else ([], Err (match r with [] => io_EOF | _ => io_ErrUnexpectedEOF end)).

(** ** Messages, configuration and certificates

    The declarations of these types live in other files of package [tls];
    the records below carry the fields that key_agreement.go reads or
    writes. *)

Definition CurveID := Z.  (* uint16 *)

(** [signatureAndHash{signature, hash}], in the order in which
    [verifyParameters] builds the literal [signatureAndHash{ka.sigType,
    tls12HashId}]. *)
Record signatureAndHash : Type := {
  signature : Z;   (* uint8 *)
  hash : Z         (* uint8 *)
}.

Record rsa_PublicKey : Type := { rsa_N : Z; rsa_E : Z }.
Record rsa_PrivateKey : Type := { rsa_pub : rsa_PublicKey; rsa_D : Z }.

(** The dynamic type found behind [Certificate.PrivateKey]. *)
Inductive crypto_PrivateKey : Type :=
| RSAPrivateKey (k : rsa_PrivateKey)
| ECDSAPrivateKey (d : Z).

(** The dynamic type found behind [x509.Certificate.PublicKey]. *)
Inductive crypto_PublicKey : Type :=
| RSAPublicKey (k : rsa_PublicKey)
| AugmentedECDSA (x y : Z)
| DSAPublicKey (y : Z).

Record Certificate : Type := { PrivateKey : crypto_PrivateKey }.
Record x509_Certificate : Type := { PublicKey : crypto_PublicKey }.

Record Config : Type := {
  KexConfig : string;
  InsecureSkipVerify : bool;
  curvePreferences : list CurveID;            (* the value of config.curvePreferences() *)
  signatureAndHashesForServer : list signatureAndHash;
  signatureAndHashesForClient : list signatureAndHash;
  ExportRSAKey : option rsa_PrivateKey
}.

Record clientHelloMsg : Type := {
  vers : Z;                                   (* uint16 *)
  ch_random : bytes;
  supportedCurves : list CurveID;
  signatureAndHashes : list signatureAndHash
}.

Record serverHelloMsg : Type := { sh_random : bytes }.

Record serverKeyExchangeMsg : Type := { key : bytes; digest : bytes }.

Record clientKeyExchangeMsg : Type := { ciphertext : bytes }.

Definition VersionSSL30 : Z := 0x0300.
Definition VersionTLS10 : Z := 0x0301.
Definition VersionTLS11 : Z := 0x0302.
Definition VersionTLS12 : Z := 0x0303.

(** ** Package ecdh *)

Record ECDHPublicKey : Type := { X : option Z; Y : option Z }.
Record ECDHPrivateKey : Type := { D : bytes }.

(** The interface [ecdh.Curve]; every method returns what the Go method
    returns, pointers being options. *)
Record Curve : Type := {
  GenerateKey : RandReader ->
                RandReader * (option ECDHPrivateKey * option ECDHPublicKey * option error);
  Marshal : option ECDHPublicKey -> bool -> bytes;
  Unmarshal : bytes -> option ECDHPublicKey * bool;
  GenerateSharedSecret : option ECDHPrivateKey -> option ECDHPublicKey ->
                         bytes * option error
}.

(** The curves that [curveForCurveID] can hand out. *)
Inductive NamedCurve : Type :=
| T163k1 | T163r1 | T163r2
| P160r1 | P160k1 | P160r2
| P192r1 | P192k1
| P224k1 | P224r1
| P256k1 | P256r1
| P384r1 | P521r1
| BrainpoolP256r1 | BrainpoolP384r1 | BrainpoolP512r1
| X25519 | X448.

(** ** Library primitives and the authentication interface *)

Class CryptoLib : Type := {
  (** [rsa.DecryptPKCS1v15SessionKey(rand, priv, ciphertext, key)]: the
      reader afterwards, the contents of [key] afterwards, and the error. *)
  rsa_DecryptPKCS1v15SessionKey :
    RandReader -> rsa_PrivateKey -> bytes -> bytes -> RandReader * bytes * option error;
  (** [rsa.EncryptPKCS1v15(rand, pub, msg)]. *)
  rsa_EncryptPKCS1v15 :
    RandReader -> rsa_PublicKey -> bytes -> RandReader * result bytes;
  (** [rand.Int(rand, max)]: panics when [max <= 0]. *)
  rand_Int : RandReader -> Z -> RandReader * result Z;
  (** [ecdh.T163k1()], ..., [ecdh.X448()]. *)
  ecdh_curve : NamedCurve -> Curve
}.

(** [keyAgreementAuthentication]: both methods may update the receiver. *)
Class keyAgreementAuthentication (A : Type) : Type := {
  signParameters :
    A -> Config -> Certificate -> clientHelloMsg -> serverHelloMsg -> bytes ->
    RandReader -> A * RandReader * result serverKeyExchangeMsg;
  verifyParameters :
    A -> Config -> clientHelloMsg -> serverHelloMsg -> x509_Certificate ->
    bytes -> bytes -> A * (bytes * option error)
}.

(** [nilKeyAgreementAuthentication]. *)
Inductive nilKeyAgreementAuthentication : Type := nilAuth.

#[global] Instance nil_auth : keyAgreementAuthentication nilKeyAgreementAuthentication := {
  signParameters ka config cert clientHello hello params r :=
    (ka, r, Ok {| key := params; digest := [] |});
  verifyParameters ka config clientHello serverHello cert params sig :=
    (ka, ([], None))
}.

(** ** Constants declared in other files of the package *)

(** Modelled from the spec: the hash and signature identifiers are constants
    of common.go; section 6 of the specification gives their values. *)
Definition hashMD5 : Z := 1.
Definition hashSHA1 : Z := 2.
Definition hashSHA224 : Z := 3.
Definition hashSHA256 : Z := 4.
Definition hashSHA384 : Z := 5.
Definition hashSHA512 : Z := 6.
Definition signatureRSA : Z := 1.
Definition signatureDSA : Z := 2.
Definition signatureECDSA : Z := 3.

(** Modelled from the spec: the [CurveID] constants are declared in
    common.go; section 4.3 of the specification says that a [CurveID] is the
    IANA named-group identifier, so each constant has its IANA value. *)
Definition CurveT163k1 : CurveID := 1.
Definition CurveT163r1 : CurveID := 2.
Definition CurveT163r2 : CurveID := 3.
Definition CurveP160k1 : CurveID := 15.
Definition CurveP160r1 : CurveID := 16.
Definition CurveP160r2 : CurveID := 17.
Definition CurveP192k1 : CurveID := 18.
Definition CurveP192r1 : CurveID := 19.
Definition CurveP224k1 : CurveID := 20.
Definition CurveP224r1 : CurveID := 21.
Definition CurveP256k1 : CurveID := 22.
Definition CurveP256r1 : CurveID := 23.
Definition CurveP384r1 : CurveID := 24.
Definition CurveP521r1 : CurveID := 25.
Definition CurveBrainpoolP256r1 : CurveID := 26.
Definition CurveBrainpoolP384r1 : CurveID := 27.
Definition CurveBrainpoolP512r1 : CurveID := 28.
Definition Curve25519 : CurveID := 29.
Definition Curve448 : CurveID := 30.

(** ** Hash negotiation for TLS 1.2 *)

Definition signatureAndHash_eqb (a b : signatureAndHash) : bool :=
  (signature a =? signature b) && (hash a =? hash b).

(** Modelled from the spec: [isSupportedSignatureAndHash] is a helper of
    common.go; section 4.2 of the specification uses it as the test that the
    [(sig, hash)] pair is present in the given list. *)
Fixpoint isSupportedSignatureAndHash (sigHash : signatureAndHash)
    (sigHashes : list signatureAndHash) : bool :=
  match sigHashes with
  | [] => false
  | s :: rest =>
      if signatureAndHash_eqb s sigHash then true
      else isSupportedSignatureAndHash sigHash rest
  end.

(** The [for _, sigAndHash := range clientList] loop of
    [pickTLS12HashForSignature]. *)
Fixpoint pickTLS12HashForSignature_loop (sigType : Z)
    (clientList serverList : list signatureAndHash) : result Z :=
  match clientList with
  | [] => Err (errors_New "tls: client doesn't support any common hash functions")
  | sigAndHash :: rest =>
      if negb (signature sigAndHash =? sigType) then
        pickTLS12HashForSignature_loop sigType rest serverList   (* continue *)
      else if isSupportedSignatureAndHash sigAndHash serverList then
        Ok (hash sigAndHash)
      else pickTLS12HashForSignature_loop sigType rest serverList
  end.

Definition pickTLS12HashForSignature (sigType : Z)
    (clientList serverList : list signatureAndHash) : result Z :=
  if len clientList =? 0 then Ok hashSHA1
  else pickTLS12HashForSignature_loop sigType clientList serverList.

(** ** The curve registry *)

Definition curveForCurveID (id : CurveID) : option NamedCurve * bool :=
  if id =? CurveT163k1 then (Some T163k1, true)
  else if id =? CurveT163r1 then (Some T163r1, true)
  else if id =? CurveT163r2 then (Some T163r2, true)
  else if id =? CurveP160r1 then (Some P160r1, true)
  else if id =? CurveP160k1 then (Some P160k1, true)
  else if id =? CurveP160r2 then (Some P160r2, true)
  else if id =? CurveP192r1 then (Some P192r1, true)
  else if id =? CurveP192k1 then (Some P192k1, true)
  else if id =? CurveP224k1 then (Some P224k1, true)
  else if id =? CurveP224r1 then (Some P224r1, true)
  else if id =? CurveP256k1 then (Some P256k1, true)
  else if id =? CurveP256r1 then (Some P256r1, true)
  else if id =? CurveP384r1 then (Some P384r1, true)
  else if id =? CurveP521r1 then (Some P521r1, true)
  else if id =? CurveBrainpoolP256r1 then (Some BrainpoolP256r1, true)
  else if id =? CurveBrainpoolP384r1 then (Some BrainpoolP384r1, true)
  else if id =? CurveBrainpoolP512r1 then (Some BrainpoolP512r1, true)
  else if id =? Curve25519 then (Some X25519, true)
  else if id =? Curve448 then (Some X448, true)
  else (None, false).

(** ** Hashes and signatures

    The hash functions and the signature primitives of Go's standard
    library that the signed authentication calls, and [rsa.GenerateKey]. *)

(** The values of [crypto.Hash] that key_agreement.go names; [NoHash] is
    [crypto.Hash(0)]. *)
Inductive crypto_Hash : Type :=
| NoHash | crypto_MD5 | crypto_SHA1 | crypto_SHA224 | crypto_SHA256
| crypto_SHA384 | crypto_SHA512 | crypto_MD5SHA1.

Class SignatureLib : Type := {
  (** The digest of the bytes written to [md5.New()], [sha1.New()],
      [crypto.SHA224.New()], [sha256.New()], [crypto.SHA384.New()] and
      [sha512.New()]. *)
  md5_Sum : bytes -> bytes;
  sha1_Sum : bytes -> bytes;
  sha224_Sum : bytes -> bytes;
  sha256_Sum : bytes -> bytes;
  sha384_Sum : bytes -> bytes;
  sha512_Sum : bytes -> bytes;
  (** [ecdsa.Sign(rand, priv, digest)]: [r] and [s]. *)
  ecdsa_Sign : RandReader -> Z -> bytes -> RandReader * result (Z * Z);
  (** [asn1.Marshal(ecdsaSignature{r, s})]. *)
  asn1_Marshal : Z -> Z -> bytes * option error;
  (** [asn1.Unmarshal(sig, &signature)]: the fields [R] and [S] of the
      signature and the error. *)
  asn1_Unmarshal : bytes -> Z * Z * option error;
  (** [rsa.SignPKCS1v15(rand, priv, hashFunc, digest)]. *)
  rsa_SignPKCS1v15 :
    RandReader -> rsa_PrivateKey -> crypto_Hash -> bytes -> RandReader * result bytes;
  (** [rsa.VerifyPKCS1v15(pub, hashFunc, digest, sig)]. *)
  rsa_VerifyPKCS1v15 : rsa_PublicKey -> crypto_Hash -> bytes -> bytes -> option error;
  (** [ecdsa.Verify(pub, digest, r, s)] for the point [(x, y)]. *)
  ecdsa_Verify : Z * Z -> bytes -> Z -> Z -> bool;
  (** [dsa.Verify(pub, digest, r, s)]. *)
  dsa_Verify : Z -> bytes -> Z -> Z -> bool;
  (** [rsa.GenerateKey(rand, bits)]. *)
  rsa_GenerateKey : RandReader -> Z -> RandReader * result rsa_PrivateKey
}.

(** [err.Error()]. *)
Definition error_string (e : error) : string :=
  match e with
  | errClientKeyExchange => "tls: invalid ClientKeyExchange message"
  | errServerKeyExchange => "tls: invalid ServerKeyExchange message"
  | errUnexpectedServerKeyExchange => "tls: unexpected ServerKeyExchange message"
  | errors_New msg => msg
  | io_EOF => "EOF"
  | io_ErrUnexpectedEOF => "unexpected EOF"
  | lib_error msg => msg
  end.

(** [copy(dst[off:], src)] on a buffer [dst]: as many bytes as fit. *)
Definition copy_at (dst : bytes) (off : nat) (src : bytes) : bytes :=
  firstn off dst ++
  firstn (List.length dst - off) src ++
  skipn (off + List.length src) dst.

Section Hashes.
Context `{SignatureLib}.

(** A hash object written with each slice in turn holds their
    concatenation. *)
Definition md5Hash (slices : list bytes) : bytes := md5_Sum (List.concat slices).
Definition sha1Hash (slices : list bytes) : bytes := sha1_Sum (List.concat slices).
Definition sha224Hash (slices : list bytes) : bytes := sha224_Sum (List.concat slices).
Definition sha256Hash (slices : list bytes) : bytes := sha256_Sum (List.concat slices).
Definition sha384Hash (slices : list bytes) : bytes := sha384_Sum (List.concat slices).
Definition sha512Hash (slices : list bytes) : bytes := sha512_Sum (List.concat slices).

(** [md5.Size] and [sha1.Size]. *)
Definition md5_Size : nat := 16.
Definition sha1_Size : nat := 20.

Definition md5SHA1Hash (slices : list bytes) : bytes :=
  let md5sha1 := repeat Byte.x00 (md5_Size + sha1_Size) in
  let md5sha1 := copy_at md5sha1 0 (md5_Sum (List.concat slices)) in
  copy_at md5sha1 md5_Size (sha1Hash slices).

(** The digest, the hash function and the error, as the source returns
    them. *)
Definition hashForServerKeyExchange (sigType hashFunc : Z) (version : Z)
    (slices : list bytes) : bytes * crypto_Hash * option error :=
  if VersionTLS12 <=? version then
    if hashFunc =? hashSHA512 then (sha512Hash slices, crypto_SHA512, None)
    else if hashFunc =? hashSHA384 then (sha384Hash slices, crypto_SHA384, None)
    else if hashFunc =? hashSHA256 then (sha256Hash slices, crypto_SHA256, None)
    else if hashFunc =? hashSHA224 then (sha224Hash slices, crypto_SHA224, None)
    else if hashFunc =? hashSHA1 then (sha1Hash slices, crypto_SHA1, None)
    else if hashFunc =? hashMD5 then (md5Hash slices, crypto_MD5, None)
    else ([], NoHash, Some (errors_New "tls: unknown hash function used by peer"))
  else if (sigType =? signatureECDSA) || (sigType =? signatureDSA) then
    (sha1Hash slices, crypto_SHA1, None)
  else (md5SHA1Hash slices, crypto_MD5SHA1, None).

End Hashes.

(** ** Signed parameter authentication *)

Module signedKeyAgreement.

Record t : Type := mk {
  version : Z;         (* uint16 *)
  sigType : Z;         (* uint8 *)
  raw : bytes;
  valid : bool;
  sh : signatureAndHash
}.

Section Operations.
Context `{SignatureLib}.

Definition with_hash (ka : t) (h : Z) : t :=
  mk (version ka) (sigType ka) (raw ka) (valid ka)
     {| signature := signature (sh ka); hash := h |}.
Definition with_signature (ka : t) (s : Z) : t :=
  mk (version ka) (sigType ka) (raw ka) (valid ka)
     {| signature := s; hash := hash (sh ka) |}.
Definition with_raw (ka : t) (r : bytes) : t :=
  mk (version ka) (sigType ka) r (valid ka) (sh ka).
Definition with_valid (ka : t) (v : bool) : t :=
  mk (version ka) (sigType ka) (raw ka) v (sh ka).

(** The end of [signParameters], from [skx := new(serverKeyExchangeMsg)]
    on. *)
Definition finishSign (ka : t) (params digest : bytes) (tls12HashId : Z) (sig : bytes)
    : t * serverKeyExchangeMsg :=
  let sigAndHash :=
    if VersionTLS12 <=? version ka
    then [byte.of_Z tls12HashId; byte.of_Z (sigType ka)] else [] in
  let skx := {| key := params ++ sigAndHash ++ put16 (len sig) ++ sig;
                digest := digest |} in
  let ka := with_raw ka sig in
  let ka := with_valid ka true in
  (ka, skx).

(** [signParameters] from [ka.sh.signature = ka.sigType] on. *)
Definition signWith (ka : t) (cert : Certificate) (clientHello : clientHelloMsg)
    (hello : serverHelloMsg) (params : bytes) (tls12HashId : Z) (rnd : RandReader)
    : t * RandReader * result serverKeyExchangeMsg :=
  let ka := with_signature ka (sigType ka) in
  match hashForServerKeyExchange (sigType ka) tls12HashId (version ka)
          [ch_random clientHello; sh_random hello; params] with
  | (_, _, Some err) => (ka, rnd, Err err)
  | (digest, hashFunc, None) =>
      if sigType ka =? signatureECDSA then
        match PrivateKey cert with
        | ECDSAPrivateKey privKey =>
            match ecdsa_Sign rnd privKey digest with
            | (rnd, Err err) =>
                (ka, rnd, Err (errors_New ("failed to sign ECDHE parameters: " ++
                                            error_string err)))
            | (rnd, Panic msg) => (ka, rnd, Panic msg)
            | (rnd, Ok (r, s)) =>
                (* the error of [asn1.Marshal] is not looked at *)
                let '(sig, _) := asn1_Marshal r s in
                let '(ka, skx) := finishSign ka params digest tls12HashId sig in
                (ka, rnd, Ok skx)
            end
        | _ => (ka, rnd,
                Err (errors_New "ECDHE ECDSA requires an ECDSA server private key"))
        end
      else if sigType ka =? signatureRSA then
        match PrivateKey cert with
        | RSAPrivateKey privKey =>
            match rsa_SignPKCS1v15 rnd privKey hashFunc digest with
            | (rnd, Err err) =>
                (ka, rnd, Err (errors_New ("failed to sign ECDHE parameters: " ++
                                            error_string err)))
            | (rnd, Panic msg) => (ka, rnd, Panic msg)
            | (rnd, Ok sig) =>
                let '(ka, skx) := finishSign ka params digest tls12HashId sig in
                (ka, rnd, Ok skx)
            end
        | _ => (ka, rnd,
                Err (errors_New "ECDHE RSA requires a RSA server private key"))
        end
      else (ka, rnd, Err (errors_New "unknown ECDHE signature algorithm"))
  end.

Definition signParameters (ka : t) (config : Config) (cert : Certificate)
    (clientHello : clientHelloMsg) (hello : serverHelloMsg) (params : bytes)
    (rnd : RandReader) : t * RandReader * result serverKeyExchangeMsg :=
  if VersionTLS12 <=? version ka then
    match pickTLS12HashForSignature (sigType ka) (signatureAndHashes clientHello)
            (signatureAndHashesForServer config) with
    | Err err => (ka, rnd, Err err)
    | Panic msg => (ka, rnd, Panic msg)
    | Ok tls12HashId =>
        let ka := with_hash ka tls12HashId in
        signWith ka cert clientHello hello params tls12HashId rnd
    end
  else signWith ka cert clientHello hello params 0 rnd.

(** The [switch] of [verifyParameters]: the check of the signature for
    each signature type. *)
Definition checkSignature (ka : t) (cert : x509_Certificate) (hashFunc : crypto_Hash)
    (digest sig : bytes) : option error :=
  if sigType ka =? signatureECDSA then
    match PublicKey cert with
    | AugmentedECDSA x y =>
        match asn1_Unmarshal sig with
        | (_, _, Some err) => Some err
        | (r, s, None) =>
            if (big_Sign r <=? 0) || (big_Sign s <=? 0) then
              Some (errors_New "ECDSA signature contained zero or negative values")
            else if negb (ecdsa_Verify (x, y) digest r s) then
              Some (errors_New "ECDSA verification failure")
            else None
        end
    | _ => Some (errors_New
                   "ECDHE ECDSA: could not covert cert.PublicKey to x509.AugmentedECDSA")
    end
  else if sigType ka =? signatureRSA then
    match PublicKey cert with
    | RSAPublicKey pubKey => rsa_VerifyPKCS1v15 pubKey hashFunc digest sig
    | _ => Some (errors_New "ECDHE RSA requires a RSA server public key")
    end
  else if sigType ka =? signatureDSA then
    match PublicKey cert with
    | DSAPublicKey pubKey =>
        match asn1_Unmarshal sig with
        | (_, _, Some err) => Some err
        | (r, s, None) =>
            if (big_Sign r <=? 0) || (big_Sign s <=? 0) then
              Some (errors_New "DSA signature contained zero or negative values")
            else if negb (dsa_Verify pubKey digest r s) then
              Some (errors_New "DSA verification failure")
            else None
        end
    | _ => Some (errors_New "DSS ciphers require a DSA server public key")
    end
  else Some (errors_New "unknown ECDHE signature algorithm").

(** [verifyParameters] from [sigLen := int(sig[0])<<8 | int(sig[1])] on. *)
Definition verifyFramed (ka : t) (clientHello : clientHelloMsg)
    (serverHello : serverHelloMsg) (cert : x509_Certificate) (params : bytes)
    (tls12HashId : Z) (sig : bytes) : t * (bytes * option error) :=
  let sigLen := be16 sig in
  if negb (sigLen + 2 =? len sig) then (ka, ([], Some errServerKeyExchange))
  else
    let sig := slice_from sig 2 in
    let ka := with_raw ka sig in
    match hashForServerKeyExchange (sigType ka) tls12HashId (version ka)
            [ch_random clientHello; sh_random serverHello; params] with
    | (_, _, Some err) => (ka, ([], Some err))
    | (digest, hashFunc, None) =>
        match checkSignature ka cert hashFunc digest sig with
        | Some err => (ka, ([], Some err))
        | None => (with_valid ka true, (digest, None))
        end
    end.

Definition verifyParameters (ka : t) (config : Config) (clientHello : clientHelloMsg)
    (serverHello : serverHelloMsg) (cert : x509_Certificate) (params sig : bytes)
    : t * (bytes * option error) :=
  if len sig <? 2 then (ka, ([], Some errServerKeyExchange))
  else if VersionTLS12 <=? version ka then
    (* handle SignatureAndHashAlgorithm *)
    let sigAndHash := slice_to sig 2 in
    let sig := slice_from sig 2 in
    let tls12HashId := int (at_ sigAndHash 0) in
    let ka := with_hash ka tls12HashId in
    let ka := with_signature ka (int (at_ sigAndHash 1)) in
    if negb (int (at_ sigAndHash 1) =? sigType ka) then
      (ka, ([], Some errServerKeyExchange))
    else if len sig <? 2 then (ka, ([], Some errServerKeyExchange))
    else if negb (isSupportedSignatureAndHash
                    {| signature := sigType ka; hash := tls12HashId |}
                    (signatureAndHashesForClient config)) then
      (ka, ([], Some (errors_New "tls: unsupported hash function for ServerKeyExchange")))
    else verifyFramed ka clientHello serverHello cert params tls12HashId sig
  else verifyFramed ka clientHello serverHello cert params 0 sig.

End Operations.
End signedKeyAgreement.

(** [signedKeyAgreement] implements [keyAgreementAuthentication]. *)
#[global] Instance signed_auth `{SignatureLib}
  : keyAgreementAuthentication signedKeyAgreement.t := {
  signParameters := signedKeyAgreement.signParameters;
  verifyParameters := signedKeyAgreement.verifyParameters
}.

(** ** RSA key agreement *)

Module rsaKeyAgreement.

Record t (A : Type) : Type := mk {
  auth : A;
  version : Z;              (* uint16 *)
  clientVersion : Z;        (* uint16 *)
  ephemeral : bool;
  privateKey : option rsa_PrivateKey;
  publicKey : option rsa_PublicKey;
  verifyError : option error
}.
Arguments mk {A}.
Arguments auth {A}.
Arguments version {A}.
Arguments clientVersion {A}.
Arguments ephemeral {A}.
Arguments privateKey {A}.
Arguments publicKey {A}.
Arguments verifyError {A}.

Section Operations.
Context {A : Type} `{keyAgreementAuthentication A} `{CryptoLib}.

Definition with_publicKey (ka : t A) (k : option rsa_PublicKey) : t A :=
  mk (auth ka) (version ka) (clientVersion ka) (ephemeral ka) (privateKey ka) k
     (verifyError ka).

Definition with_verify (ka : t A) (a : A) (e : option error) : t A :=
  mk a (version ka) (clientVersion ka) (ephemeral ka) (privateKey ka) (publicKey ka) e.

Definition processClientKeyExchange (ka : t A) (rnd : RandReader) (config : Config)
    (cert : Certificate) (ckx : clientKeyExchangeMsg) : RandReader * result bytes :=
  let preMasterSecret := repeat Byte.x00 48 in
  match io_ReadFull rnd 46 with
  | (rnd, Err err) => (rnd, Err err)
  | (rnd, Panic msg) => (rnd, Panic msg)
  | (rnd, Ok random) =>
      let preMasterSecret := slice_to preMasterSecret 2 ++ random in
      if len (ciphertext ckx) <? 2 then (rnd, Err errClientKeyExchange)
      else
        let checked :=
          if negb (version ka =? VersionSSL30) then
            let ciphertextLen := be16 (ciphertext ckx) in
            if negb (ciphertextLen =? len (ciphertext ckx) - 2) then None
            else Some (slice_from (ciphertext ckx) 2)
          else Some (ciphertext ckx) in
        match checked with
        | None => (rnd, Err errClientKeyExchange)
        | Some ciphertext =>
            let key :=
              match privateKey ka with
              | Some k => Ok k
              | None =>
                  match PrivateKey cert with
                  | RSAPrivateKey k => Ok k
                  | _ => Panic "interface conversion: not *rsa.PrivateKey"
                  end
              end in
            match key with
            | Err err => (rnd, Err err)
            | Panic msg => (rnd, Panic msg)
            | Ok key =>
                match rsa_DecryptPKCS1v15SessionKey rnd key ciphertext preMasterSecret with
                | (rnd, _, Some err) => (rnd, Err err)
                | (rnd, preMasterSecret, None) => (rnd, Ok preMasterSecret)
                end
            end
        end
  end.

(** The [for _, b := range rawExponent] loop. *)
Definition readExponent (rawExponent : bytes) : Z :=
  fold_left (fun exponent b => Z.lor (Z.shiftl exponent 8) (int b)) rawExponent 0.

Definition processServerKeyExchange (ka : t A) (config : Config)
    (clientHello : clientHelloMsg) (serverHello : serverHelloMsg)
    (cert : x509_Certificate) (skx : serverKeyExchangeMsg)
    : t A * serverKeyExchangeMsg * option error :=
  if negb (ephemeral ka) then (ka, skx, None)
  else
    let k := key skx in
    if len k <? 2 then (ka, skx, Some errServerKeyExchange)
    else
      let modulusLen := be16 k in
      let k := slice_from k 2 in
      if len k <? modulusLen then (ka, skx, Some errServerKeyExchange)
      else
        let modulus := big_SetBytes (slice_to k modulusLen) in
        let k := slice_from k modulusLen in
        if len k <? 2 then (ka, skx, Some errServerKeyExchange)
        else
          let exponentLength := be16 k in
          let k := slice_from k 2 in
          if (len k <? exponentLength) || (4 <? exponentLength)
          then (ka, skx, Some errServerKeyExchange)
          else
            let rawExponent := slice_to k exponentLength in
            let exponent := readExponent rawExponent in
            let ka := with_publicKey ka (Some {| rsa_N := modulus; rsa_E := exponent |}) in
            let paramsLen := 2 + exponentLength + 2 + modulusLen in
            let serverRSAParams := slice_to (key skx) paramsLen in
            let sig := slice_from (key skx) paramsLen in
            let '(a, (dig, verr)) :=
              verifyParameters (auth ka) config clientHello serverHello cert
                               serverRSAParams sig in
            let skx := {| key := key skx; digest := dig |} in
            let ka := with_verify ka a verr in
            if InsecureSkipVerify config then (ka, skx, None)
            else (ka, skx, verifyError ka).

Definition generateClientKeyExchange (ka : t A) (rnd : RandReader) (config : Config)
    (clientHello : clientHelloMsg) (cert : x509_Certificate)
    : RandReader * result (bytes * clientKeyExchangeMsg) :=
  let preMasterSecret :=
    [byte.of_Z (Z.shiftr (vers clientHello) 8); byte.of_Z (vers clientHello)] in
  match io_ReadFull rnd 46 with
  | (rnd, Err err) => (rnd, Err err)
  | (rnd, Panic msg) => (rnd, Panic msg)
  | (rnd, Ok random) =>
      let preMasterSecret := preMasterSecret ++ random in
      let publicKey :=
        match publicKey ka with
        | Some k => Some k
        | None =>
            match PublicKey cert with
            | RSAPublicKey k => Some k
            | _ => None
            end
        end in
      match publicKey with
      | None => (rnd, Err errClientKeyExchange)
      | Some publicKey =>
          match rsa_EncryptPKCS1v15 rnd publicKey preMasterSecret with
          | (rnd, Err err) => (rnd, Err err)
          | (rnd, Panic msg) => (rnd, Panic msg)
          | (rnd, Ok encrypted) =>
              let ckx :=
                if negb (version ka =? VersionSSL30) then
                  {| ciphertext := put16 (len encrypted) ++ encrypted |}
                else {| ciphertext := encrypted |} in
              (rnd, Ok (preMasterSecret, ckx))
          end
      end
  end.

End Operations.

Section ServerKeyExchange.
Context {A : Type} `{keyAgreementAuthentication A} `{SignatureLib}.

Definition with_clientVersion (ka : t A) (v : Z) : t A :=
  mk (auth ka) (version ka) v (ephemeral ka) (privateKey ka) (publicKey ka)
     (verifyError ka).

Definition with_privateKey (ka : t A) (k : option rsa_PrivateKey) : t A :=
  mk (auth ka) (version ka) (clientVersion ka) (ephemeral ka) k (publicKey ka)
     (verifyError ka).

Definition with_auth (ka : t A) (a : A) : t A :=
  mk a (version ka) (clientVersion ka) (ephemeral ka) (privateKey ka) (publicKey ka)
     (verifyError ka).

(** The byte array that [generateServerKeyExchange] builds from the
    modulus and the exponent. *)
Definition serverRSAParams (modulus exponent : bytes) : bytes :=
  put16 (len modulus) ++ modulus ++ put16 (len exponent) ++ exponent.

(** The result is [Ok None] where the source returns [nil, nil]. *)
Definition generateServerKeyExchange (ka : t A) (rnd : RandReader) (config : Config)
    (cert : Certificate) (clientHello : clientHelloMsg) (hello : serverHelloMsg)
    : t A * RandReader * result (option serverKeyExchangeMsg) :=
  let ka := with_clientVersion ka (vers clientHello) in
  if negb (ephemeral ka) then (ka, rnd, Ok None)
  else
    (* Generate an ephemeral RSA key or use the one in the config *)
    let generated :=
      match ExportRSAKey config with
      | Some key => (rnd, Ok key)
      | None => rsa_GenerateKey rnd 512
      end in
    match generated with
    | (rnd, Err err) => (ka, rnd, Err err)
    | (rnd, Panic msg) => (ka, rnd, Panic msg)
    | (rnd, Ok key) =>
        let ka := with_privateKey ka (Some key) in
        let modulus := big_Bytes (rsa_N (rsa_pub key)) in
        let exponent := big_Bytes (rsa_E (rsa_pub key)) in
        let '(a, rnd, r) :=
          signParameters (auth ka) config cert clientHello hello
            (serverRSAParams modulus exponent) rnd in
        (with_auth ka a, rnd,
         match r with
         | Ok skx => Ok (Some skx)
         | Err err => Err err
         | Panic msg => Panic msg
         end)
    end.

End ServerKeyExchange.
End rsaKeyAgreement.

(** ** Finite-field Diffie-Hellman key agreement *)

(** [x.Cmp(y)]. *)
Definition big_Cmp (x y : Z) : Z :=
  match x ?= y with Lt => -1 | Eq => 0 | Gt => 1 end.

Module dheKeyAgreement.

Record t (A : Type) : Type := mk {
  auth : A;
  p : option Z;
  g : option Z;
  yTheirs : option Z;
  yOurs : option Z;
  xOurs : option Z;
  yServer : option Z;
  yClient : option Z;
  verifyError : option error
}.
Arguments mk {A}.
Arguments auth {A}.
Arguments p {A}.
Arguments g {A}.
Arguments yTheirs {A}.
Arguments yOurs {A}.
Arguments xOurs {A}.
Arguments yServer {A}.
Arguments yClient {A}.
Arguments verifyError {A}.

Section Operations.
Context {A : Type} `{keyAgreementAuthentication A} `{CryptoLib}.

Definition with_p (ka : t A) (v : option Z) : t A :=
  mk (auth ka) v (g ka) (yTheirs ka) (yOurs ka) (xOurs ka) (yServer ka) (yClient ka)
     (verifyError ka).
Definition with_g (ka : t A) (v : option Z) : t A :=
  mk (auth ka) (p ka) v (yTheirs ka) (yOurs ka) (xOurs ka) (yServer ka) (yClient ka)
     (verifyError ka).
Definition with_yTheirs (ka : t A) (v : option Z) : t A :=
  mk (auth ka) (p ka) (g ka) v (yOurs ka) (xOurs ka) (yServer ka) (yClient ka)
     (verifyError ka).
Definition with_yOurs (ka : t A) (v : option Z) : t A :=
  mk (auth ka) (p ka) (g ka) (yTheirs ka) v (xOurs ka) (yServer ka) (yClient ka)
     (verifyError ka).
Definition with_xOurs (ka : t A) (v : option Z) : t A :=
  mk (auth ka) (p ka) (g ka) (yTheirs ka) (yOurs ka) v (yServer ka) (yClient ka)
     (verifyError ka).
Definition with_yServer (ka : t A) (v : option Z) : t A :=
  mk (auth ka) (p ka) (g ka) (yTheirs ka) (yOurs ka) (xOurs ka) v (yClient ka)
     (verifyError ka).
Definition with_yClient (ka : t A) (v : option Z) : t A :=
  mk (auth ka) (p ka) (g ka) (yTheirs ka) (yOurs ka) (xOurs ka) (yServer ka) v
     (verifyError ka).
Definition with_verify (ka : t A) (a : A) (e : option error) : t A :=
  mk a (p ka) (g ka) (yTheirs ka) (yOurs ka) (xOurs ka) (yServer ka) (yClient ka) e.

Definition processClientKeyExchange (ka : t A) (config : Config) (cert : Certificate)
    (ckx : clientKeyExchangeMsg) : t A * result bytes :=
  if len (ciphertext ckx) <? 2 then (ka, Err errClientKeyExchange)
  else
    let yLen := be16 (ciphertext ckx) in
    if negb (yLen =? len (ciphertext ckx) - 2) then (ka, Err errClientKeyExchange)
    else
      let yTheirs := big_SetBytes (slice_from (ciphertext ckx) 2) in
      let ka := with_yClient ka (Some yTheirs) in
      if big_Sign yTheirs <=? 0 then (ka, Err errClientKeyExchange)
      else
        match p ka with
        | None => (ka, Panic "nil pointer dereference")      (* yTheirs.Cmp(nil) *)
        | Some p =>
            if 0 <=? big_Cmp yTheirs p then (ka, Err errClientKeyExchange)
            else
              match xOurs ka with
              | None => (ka, Panic "nil pointer dereference")  (* Exp(_, nil, _) *)
              | Some xOurs => (ka, Ok (big_Bytes (big_Exp yTheirs xOurs p)))
              end
        end.

Definition processServerKeyExchange (ka : t A) (config : Config)
    (clientHello : clientHelloMsg) (serverHello : serverHelloMsg)
    (cert : x509_Certificate) (skx : serverKeyExchangeMsg)
    : t A * serverKeyExchangeMsg * option error :=
  (* Read dh_p *)
  let k := key skx in
  if len k <? 2 then (ka, skx, Some errServerKeyExchange)
  else
    let pLen := be16 k in
    let k := slice_from k 2 in
    if len k <? pLen then (ka, skx, Some errServerKeyExchange)
    else
      let vp := big_SetBytes (slice_to k pLen) in
      let ka := with_p ka (Some vp) in
      let k := slice_from k pLen in
      (* Read dh_g *)
      if len k <? 2 then (ka, skx, Some errServerKeyExchange)
      else
        let gLen := be16 k in
        let k := slice_from k 2 in
        if len k <? gLen then (ka, skx, Some errServerKeyExchange)
        else
          let ka := with_g ka (Some (big_SetBytes (slice_to k gLen))) in
          let k := slice_from k gLen in
          (* Read dh_Ys *)
          if len k <? 2 then (ka, skx, Some errServerKeyExchange)
          else
            let yLen := be16 k in
            let k := slice_from k 2 in
            if len k <? yLen then (ka, skx, Some errServerKeyExchange)
            else
              let vy := big_SetBytes (slice_to k yLen) in
              let ka := with_yTheirs ka (Some vy) in
              let ka := with_yServer ka (Some vy) in
              let k := slice_from k yLen in
              if (big_Sign vy <=? 0) || (0 <=? big_Cmp vy vp)
              then (ka, skx, Some errServerKeyExchange)
              else
                let sig := k in
                let serverDHParams := slice_to (key skx) (len (key skx) - len sig) in
                let '(a, (dig, verr)) :=
                  verifyParameters (auth ka) config clientHello serverHello cert
                                   serverDHParams sig in
                let skx := {| key := key skx; digest := dig |} in
                let ka := with_verify ka a verr in
                if InsecureSkipVerify config then (ka, skx, None)
                else (ka, skx, verifyError ka).

(** The [for !done] loop of the "g3", "g5" and "g7" cases: draw [h], set
    [gen = h**e mod p], stop when [gen] is not 1.  [None] when [fuel]
    iterations were not enough. *)
Fixpoint sampleGenerator (fuel : nat) (rnd : RandReader) (vp e : Z)
    : option (RandReader * result Z) :=
  match fuel with
  | O => None
  | S fuel =>
      match rand_Int rnd vp with
      | (rnd, Panic msg) => Some (rnd, Panic msg)
      | (rnd, Err _) => Some (rnd, Panic "nil pointer dereference")  (* gen.Exp(nil, _, _) *)
      | (rnd, Ok h) =>
          let gen := big_Exp h e vp in
          if negb (big_Cmp gen 1 =? 0) then Some (rnd, Ok gen)
          else sampleGenerator fuel rnd vp e
      end
  end.

(** The body shared by the cases "g3", "g5" and "g7" ([k] is 3, 5 or 7):
    the generator, or the error "order not divisible by k". *)
Definition smallOrderElement (fuel : nat) (rnd : RandReader) (vp k : Z) (msg : string)
    : option (RandReader * result Z) :=
  let pm1 := vp - 1 in
  let pm1dk := pm1 / k in
  let rem := pm1 mod k in
  if big_Cmp rem 0 =? 0 then sampleGenerator fuel rnd vp pm1dk
  else Some (rnd, Err (errors_New msg)).

(** The statements after the [switch]: record the values and build the
    message. *)
Definition finishClientKeyExchange (ka : t A) (yOurs xOurs : Z) (preMasterSecret : bytes)
    : t A * result (bytes * clientKeyExchangeMsg) :=
  let ka := with_yOurs ka (Some yOurs) in
  let ka := with_xOurs ka (Some xOurs) in
  let ka := with_yClient ka (Some yOurs) in
  let yBytes := big_Bytes yOurs in
  (ka, Ok (preMasterSecret, {| ciphertext := put16 (len yBytes) ++ yBytes |})).

Definition generateClientKeyExchange (fuel : nat) (ka : t A) (rnd : RandReader)
    (config : Config) (clientHello : clientHelloMsg) (cert : x509_Certificate)
    : option (t A * RandReader * result (bytes * clientKeyExchangeMsg)) :=
  match p ka, g ka, yTheirs ka with
  | Some vp, Some vg, Some vy =>
      let static (yOurs : Z) :=
        let '(ka, r) := finishClientKeyExchange ka yOurs 0 (big_Bytes yOurs) in
        Some (ka, rnd, r) in
      let small (k : Z) (msg : string) :=
        match smallOrderElement fuel rnd vp k msg with
        | None => None
        | Some (rnd, Panic m) => Some (ka, rnd, Panic m)
        | Some (rnd, Err err) => Some (ka, rnd, Err err)
        | Some (rnd, Ok gen) =>
            let '(ka, r) := finishClientKeyExchange ka gen 0 (big_Bytes gen) in
            Some (ka, rnd, r)
        end in
      if String.eqb (KexConfig config) "0" then static 0
      else if String.eqb (KexConfig config) "1" then static 1
      else if String.eqb (KexConfig config) "pm1" then static (vp - 1)
      else if String.eqb (KexConfig config) "g3" then small 3 "order not divisible by 3"
      else if String.eqb (KexConfig config) "g5" then small 5 "order not divisible by 5"
      else if String.eqb (KexConfig config) "g7" then small 7 "order not divisible by 7"
      else (* default *)
        match rand_Int rnd vp with
        | (rnd, Panic m) => Some (ka, rnd, Panic m)
        | (rnd, Err _) => Some (ka, rnd, Panic "nil pointer dereference")
        | (rnd, Ok xOurs) =>
            let preMasterSecret := big_Bytes (big_Exp vy xOurs vp) in
            let yOurs := big_Exp vg xOurs vp in
            let '(ka, r) := finishClientKeyExchange ka yOurs xOurs preMasterSecret in
            Some (ka, rnd, r)
        end
  | _, _, _ =>
      Some (ka, rnd, Err (errors_New "missing ServerKeyExchange message"))
  end.

(** The 2048-bit MODP group with 256-bit prime order subgroup of RFC 5114,
    section 2.3, as [generateServerKeyExchange] spells it. *)
Definition group_p : Z :=
  0x87A8E61DB4B6663CFFBBD19C651959998CEEF608660DD0F25D2CEED4435E3B00E00DF8F1D61957D4FAF7DF4561B2AA3016C3D91134096FAA3BF4296D830E9A7C209E0C6497517ABD5A8A9D306BCF67ED91F9E6725B4758C022E0B1EF4275BF7B6C5BFC11D45F9088B941F54EB1E59BB8BC39A0BF12307F5C4FDB70C581B23F76B63ACAE1CAA6B7902D52526735488A0EF13C6D9A51BFA4AB3AD8347796524D8EF6A167B5A41825D967E144E5140564251CCACB83E6B486F6B3CA3F7971506026C0B857F689962856DED4010ABD0BE621C3A3960A54E710C375F26375D7014103A4B54330C198AF126116D2276E11715F693877FAD7EF09CADB094AE91E1A1597.
Definition group_g : Z :=
  0x3FB32C9B73134D0B2E77506660EDBD484CA7B18F21EF205407F4793A1A0BA12510DBC15077BE463FFF4FED4AAC0BB555BE3A6C1B0C6B47B1BC3773BF7E8C6F62901228F8C28CBB18A55AE31341000A650196F931C77A57F2DDF463E5E9EC144B777DE62AAAB8A8628AC376D282D6ED3864E67982428EBC831D14348F6F2F9193B5045AF2767164E1DFC967C1FB3F2E55A4BD1BFFE83B9C80D052B985D182EA0ADB2A3B7313D3FE14C8484B1E052588B9B7D2BBD2DF016199ECD06E1557CD0915B3353BBB64E0EC377FD028370DF92B52C7891428CDC67EB6184B523D1DB246C32F63078490F00EF8D647D148D47954515E2327CFEF98C582664B4C0F6CC41659.
Definition group_q : Z :=
  0x8CF83642A709A097B447997640129DA299B1A47D1EB3750BA308B0FE64F5FBD3.

Definition with_auth (ka : t A) (a : A) : t A :=
  mk a (p ka) (g ka) (yTheirs ka) (yOurs ka) (xOurs ka) (yServer ka) (yClient ka)
     (verifyError ka).

(** The bytes appended to [serverDHParams]: the three length-prefixed
    integers. *)
Definition serverDHParams (vp vg vy : Z) : bytes :=
  let pBytes := big_Bytes vp in
  let gBytes := big_Bytes vg in
  let yBytes := big_Bytes vy in
  put16 (len pBytes) ++ pBytes ++ put16 (len gBytes) ++ gBytes ++
  put16 (len yBytes) ++ yBytes.

Definition generateServerKeyExchange (ka : t A) (rnd : RandReader) (config : Config)
    (cert : Certificate) (clientHello : clientHelloMsg) (hello : serverHelloMsg)
    : t A * RandReader * result serverKeyExchangeMsg :=
  let ka := with_p ka (Some group_p) in
  let ka := with_g ka (Some group_g) in
  let q := group_q in
  match rand_Int rnd q with
  | (rnd, Panic msg) => (ka, rnd, Panic msg)
  | (rnd, Err err) => (with_xOurs ka None, rnd, Err err)
  | (rnd, Ok x) =>
      let ka := with_xOurs ka (Some x) in
      let yOurs := big_Exp group_g x group_p in
      let ka := with_yOurs ka (Some yOurs) in
      let ka := with_yServer ka (Some yOurs) in
      let '(a, rnd, r) :=
        signParameters (auth ka) config cert clientHello hello
                       (serverDHParams group_p group_g yOurs) rnd in
      (with_auth ka a, rnd, r)
  end.

End Operations.
End dheKeyAgreement.

(** ** Elliptic-curve Diffie-Hellman key agreement *)

Module ecdheKeyAgreement.

Record t (A : Type) : Type := mk {
  auth : A;
  privateKey : option ECDHPrivateKey;
  serverPublicKey : option ECDHPublicKey;
  clientPublicKey : option ECDHPublicKey;
  curve : option NamedCurve;
  verifyError : option error;
  curveID : CurveID;
  clientPrivKey : bytes;
  serverPrivKey : bytes;
  clientX : option Z;
  clientY : option Z
}.
Arguments mk {A}.
Arguments auth {A}.
Arguments privateKey {A}.
Arguments serverPublicKey {A}.
Arguments clientPublicKey {A}.
Arguments curve {A}.
Arguments verifyError {A}.
Arguments curveID {A}.
Arguments clientPrivKey {A}.
Arguments serverPrivKey {A}.
Arguments clientX {A}.
Arguments clientY {A}.

(** The local variables that the option loop of [generateClientKeyExchange]
    updates, together with [ka.curveID]. *)
Record kexOptions : Type := mkOptions {
  compress : bool;
  staticKex : bool;
  mx : option Z;
  my : option Z;
  optCurveID : CurveID
}.

Definition setX (o : kexOptions) (x : Z) (id : CurveID) : kexOptions :=
  mkOptions (compress o) true (Some x) (my o) id.
Definition setXY (o : kexOptions) (x y : Z) (id : CurveID) : kexOptions :=
  mkOptions (compress o) true (Some x) (Some y) id.

(** One iteration of [for _, option := range kexConfig]; [None] is the
    [default] case, which panics. *)
Definition applyOption (opt : string) (o : kexOptions) : option kexOptions :=
  if String.eqb opt "COMPRESS" then
    Some (mkOptions true (staticKex o) (mx o) (my o) (optCurveID o))
  else if String.eqb opt "X25519_INVALID_S2" then Some (setX o 0 Curve25519)
  else if String.eqb opt "X25519_INVALID_S4" then Some (setX o 1 Curve25519)
  else if String.eqb opt "X25519_INVALID_S8" then
    Some (setX o 39382357235489614581723060781553021112529911719440698176882885853963445705823
               Curve25519)
  else if String.eqb opt "X25519_TWIST_S4" then
    Some (setX o 40037414119260815170158213804056845813451397265373646178320500467079007173856
               Curve25519)
  else if String.eqb opt "256_ECP_INVALID_S5" then
    Some (setXY o 86765160823711241075790919525606906052464424178558764461827806608937748883041
                  62096069626295534024197897036720226401219594482857127378802405572766226928611
                  CurveP256r1)
  else if String.eqb opt "256_ECP_TWIST_S5" then
    Some (setXY o 65000580346672419638629453770715906531917592959616632823634978442784087859381
                  101434952638835666830672287755036482040135206184891409299575619037815517987306
                  CurveP256r1)
  else if String.eqb opt "256_ECP_TWIST_S5_SHARED" then
    Some (setXY o 75610932410248387784210576211184530780201393864652054865721797292564276389325
                  17016988387429062713000967549338170748423683329322284176365945285736516510233
                  CurveP256r1)
  else if String.eqb opt "224_ECP_INVALID_S13" then
    Some (setXY o 1234919426772886915432358412587735557527373236174597031415308881584
                  218592750580712164156183367176268299828628545379017213517316023994
                  CurveP224r1)
  else if String.eqb opt "224_ECP_TWIST_S11" then
    Some (setXY o 21219928721835262216070635629075256199931199995500865785214182108232
                  2486431965114139990348241493232938533843075669604960787364227498903
                  CurveP224r1)
  else if String.eqb opt "" then Some o
  else None.

(** The option loop: the variables after the last option, or the variables
    at the option that panicked. *)
Fixpoint scanOptions (kexConfig : list string) (o : kexOptions) : kexOptions * bool :=
  match kexConfig with
  | [] => (o, true)
  | opt :: rest =>
      match applyOption opt o with
      | Some o => scanOptions rest o
      | None => (o, false)
      end
  end.

(** The inner and the outer loop of the curve selection of
    [generateServerKeyExchange]. *)
Fixpoint matchCandidate (candidate : CurveID) (supported : list CurveID) : option CurveID :=
  match supported with
  | [] => None
  | c :: rest => if candidate =? c then Some c else matchCandidate candidate rest
  end.

Fixpoint selectCurve (preferredCurves supported : list CurveID) : CurveID :=
  match preferredCurves with
  | [] => 0                                  (* var curveid CurveID *)
  | candidate :: rest =>
      match matchCandidate candidate supported with
      | Some c => c                          (* break NextCandidate *)
      | None => selectCurve rest supported
      end
  end.

Section Operations.
Context {A : Type} `{keyAgreementAuthentication A} `{CryptoLib}.

Definition with_curveID (ka : t A) (v : CurveID) : t A :=
  mk (auth ka) (privateKey ka) (serverPublicKey ka) (clientPublicKey ka) (curve ka)
     (verifyError ka) v (clientPrivKey ka) (serverPrivKey ka) (clientX ka) (clientY ka).
Definition with_curve (ka : t A) (v : option NamedCurve) : t A :=
  mk (auth ka) (privateKey ka) (serverPublicKey ka) (clientPublicKey ka) v
     (verifyError ka) (curveID ka) (clientPrivKey ka) (serverPrivKey ka) (clientX ka)
     (clientY ka).
Definition with_privateKey (ka : t A) (v : option ECDHPrivateKey) : t A :=
  mk (auth ka) v (serverPublicKey ka) (clientPublicKey ka) (curve ka)
     (verifyError ka) (curveID ka) (clientPrivKey ka) (serverPrivKey ka) (clientX ka)
     (clientY ka).
Definition with_serverPublicKey (ka : t A) (v : option ECDHPublicKey) : t A :=
  mk (auth ka) (privateKey ka) v (clientPublicKey ka) (curve ka)
     (verifyError ka) (curveID ka) (clientPrivKey ka) (serverPrivKey ka) (clientX ka)
     (clientY ka).
Definition with_clientPublicKey (ka : t A) (v : option ECDHPublicKey) : t A :=
  mk (auth ka) (privateKey ka) (serverPublicKey ka) v (curve ka)
     (verifyError ka) (curveID ka) (clientPrivKey ka) (serverPrivKey ka) (clientX ka)
     (clientY ka).
Definition with_serverPrivKey (ka : t A) (v : bytes) : t A :=
  mk (auth ka) (privateKey ka) (serverPublicKey ka) (clientPublicKey ka) (curve ka)
     (verifyError ka) (curveID ka) (clientPrivKey ka) v (clientX ka) (clientY ka).
Definition with_auth (ka : t A) (a : A) : t A :=
  mk a (privateKey ka) (serverPublicKey ka) (clientPublicKey ka) (curve ka)
     (verifyError ka) (curveID ka) (clientPrivKey ka) (serverPrivKey ka) (clientX ka)
     (clientY ka).
Definition with_verify (ka : t A) (a : A) (e : option error) : t A :=
  mk a (privateKey ka) (serverPublicKey ka) (clientPublicKey ka) (curve ka)
     e (curveID ka) (clientPrivKey ka) (serverPrivKey ka) (clientX ka) (clientY ka).

Definition generateServerKeyExchange (ka : t A) (rnd : RandReader) (config : Config)
    (cert : Certificate) (clientHello : clientHelloMsg) (hello : serverHelloMsg)
    : t A * RandReader * result serverKeyExchangeMsg :=
  let preferredCurves := curvePreferences config in
  let curveid := selectCurve preferredCurves (supportedCurves clientHello) in
  if curveid =? 0 then
    (ka, rnd, Err (errors_New "tls: no supported elliptic curves offered"))
  else
    let ka := with_curveID ka curveid in
    let '(c, ok) := curveForCurveID curveid in
    let ka := with_curve ka c in
    match c, ok with
    | Some c, true =>
        let '(rnd, (priv, pub, err)) := GenerateKey (ecdh_curve c) rnd in
        let ka := with_privateKey ka priv in
        match err with
        | Some err => (ka, rnd, Err err)
        | None =>
            let ecdhePublic := Marshal (ecdh_curve c) pub false in
            match priv with
            | None => (ka, rnd, Panic "nil pointer dereference")   (* ka.privateKey.D *)
            | Some priv =>
                let ka := with_serverPrivKey ka (D priv) in
                let serverECDHParams :=
                  [byte.of_Z 3; byte.of_Z (Z.shiftr curveid 8); byte.of_Z curveid;
                   byte.of_Z (len ecdhePublic)] ++ ecdhePublic in
                let '(a, rnd, r) :=
                  signParameters (auth ka) config cert clientHello hello
                                 serverECDHParams rnd in
                (with_auth ka a, rnd, r)
            end
        end
    | _, _ =>
        (ka, rnd, Err (errors_New "tls: preferredCurves includes unsupported curve"))
    end.

Definition processServerKeyExchange (ka : t A) (config : Config)
    (clientHello : clientHelloMsg) (serverHello : serverHelloMsg)
    (cert : x509_Certificate) (skx : serverKeyExchangeMsg)
    : t A * serverKeyExchangeMsg * option error :=
  let k := key skx in
  if len k <? 4 then (ka, skx, Some errServerKeyExchange)
  else if negb (int (at_ k 0) =? 3) then
    (ka, skx, Some (errors_New "tls: server selected unsupported curve"))
  else
    let ka := with_curveID ka (Z.lor (Z.shiftl (int (at_ k 1)) 8) (int (at_ k 2))) in
    let '(c, ok) := curveForCurveID (curveID ka) in
    let ka := with_curve ka c in
    match c, ok with
    | Some c, true =>
        let publicLen := int (at_ k 3) in
        if len k <? publicLen + 4 then (ka, skx, Some errServerKeyExchange)
        else
          let '(pub, ok) :=
            Unmarshal (ecdh_curve c) (slice_from (slice_to k (4 + publicLen)) 4) in
          let ka := with_serverPublicKey ka pub in
          if negb ok then (ka, skx, Some errServerKeyExchange)
          else
            let serverECDHParams := slice_to k (4 + publicLen) in
            let sig := slice_from k (4 + publicLen) in
            let '(a, (dig, verr)) :=
              verifyParameters (auth ka) config clientHello serverHello cert
                               serverECDHParams sig in
            let skx := {| key := key skx; digest := dig |} in
            let ka := with_verify ka a verr in
            if InsecureSkipVerify config then (ka, skx, None)
            else (ka, skx, verifyError ka)
    | _, _ => (ka, skx, Some (errors_New "tls: server selected unsupported curve"))
    end.

Definition generateClientKeyExchange (ka : t A) (rnd : RandReader) (config : Config)
    (clientHello : clientHelloMsg) (cert : x509_Certificate)
    : t A * RandReader * result (bytes * clientKeyExchangeMsg) :=
  match curve ka with
  | None => (ka, rnd, Err (errors_New "missing ServerKeyExchange message"))
  | Some c =>
      let kexConfig := strings_Split_comma (KexConfig config) in
      let '(o, recognized) :=
        scanOptions kexConfig (mkOptions false false None None (curveID ka)) in
      let ka := with_curveID ka (optCurveID o) in
      if negb recognized then (ka, rnd, Panic "unrecognized tls-kex-config option")
      else
        let finish (ka : t A) (rnd : RandReader) (preMasterSecret : bytes) :=
          match curve ka with
          | None => (ka, rnd, Panic "nil pointer dereference")   (* ka.curve.Marshal *)
          | Some c =>
              let serialized :=
                Marshal (ecdh_curve c) (clientPublicKey ka) (compress o) in
              (ka, rnd,
               Ok (preMasterSecret,
                   {| ciphertext := byte.of_Z (len serialized) :: serialized |}))
          end in
        if staticKex o then
          let ka := with_curve ka (fst (curveForCurveID (curveID ka))) in
          let ka := with_privateKey ka None in
          let ka := with_clientPublicKey ka (Some {| X := mx o; Y := my o |}) in
          match mx o with
          | None => (ka, rnd, Panic "nil pointer dereference")   (* mx.Bytes() *)
          | Some x => finish ka rnd (big_Bytes x)
          end
        else
          let '(rnd, (priv, pub, err)) := GenerateKey (ecdh_curve c) rnd in
          let ka := with_privateKey ka priv in
          let ka := with_clientPublicKey ka pub in
          match err with
          | Some err => (ka, rnd, Err err)
          | None =>
              let '(preMasterSecret, err) :=
                GenerateSharedSecret (ecdh_curve c) (privateKey ka) (serverPublicKey ka) in
              match err with
              | Some err => (ka, rnd, Err err)
              | None => finish ka rnd preMasterSecret
              end
          end
  end.

Definition with_clientXY (ka : t A) (x y : option Z) : t A :=
  mk (auth ka) (privateKey ka) (serverPublicKey ka) (clientPublicKey ka) (curve ka)
     (verifyError ka) (curveID ka) (clientPrivKey ka) (serverPrivKey ka) x y.

Definition processClientKeyExchange (ka : t A) (config : Config) (cert : Certificate)
    (ckx : clientKeyExchangeMsg) : t A * result bytes :=
  if (len (ciphertext ckx) =? 0) ||
     negb (int (at_ (ciphertext ckx) 0) =? len (ciphertext ckx) - 1)
  then (ka, Err errClientKeyExchange)
  else
    match curve ka with
    | None => (ka, Panic "nil pointer dereference")          (* ka.curve.Unmarshal *)
    | Some c =>
        let '(publicKey, ok) := Unmarshal (ecdh_curve c) (slice_from (ciphertext ckx) 1) in
        if negb ok then (ka, Err errClientKeyExchange)
        else
          match publicKey with
          | None => (ka, Panic "nil pointer dereference")    (* publicKey.X *)
          | Some pk =>
              let ka := with_clientXY ka (X pk) (Y pk) in
              let '(preMasterSecret, err) :=
                GenerateSharedSecret (ecdh_curve c) (privateKey ka) publicKey in
              match err with
              | Some err => (ka, Err err)
              | None => (ka, Ok preMasterSecret)
              end
          end
    end.

End Operations.
End ecdheKeyAgreement.

(** ** Wire-format vocabulary of the statements *)

(** One field of a ServerKeyExchange or ClientKeyExchange message: a 16-bit
    big-endian length [n], then [n] bytes read as a big-endian integer.  The
    result is the integer and the bytes after the field, or [None] when the
    message ends inside the field. *)
Definition readBigInt (k : bytes) : option (Z * bytes) :=
  match k with
  | hi :: lo :: rest =>
      let n := int hi * 256 + int lo in
      if n <=? len rest then Some (big_SetBytes (slice_to rest n), slice_from rest n)
      else None
  | _ => None
  end.

(** What is wrong with the parameters of a DHE ServerKeyExchange message,
    with the fields read before the defect. *)
Inductive skxDefect : Type :=
| truncated_p
| truncated_g (vp : Z)
| truncated_y (vp vg : Z)
| y_out_of_range (vp vg vy : Z).

Definition dheDefect (k : bytes) : option skxDefect :=
  match readBigInt k with
  | None => Some truncated_p
  | Some (vp, k) =>
      match readBigInt k with
      | None => Some (truncated_g vp)
      | Some (vg, k) =>
          match readBigInt k with
          | None => Some (truncated_y vp vg)
          | Some (vy, _) =>
              if (vy <=? 0) || (vp <=? vy) then Some (y_out_of_range vp vg vy)
              else None
          end
      end
  end.

(** The fields of the state that the parser has stored when it meets the
    defect. *)
Definition dheAfterDefect {A : Type} (ka : dheKeyAgreement.t A) (d : skxDefect)
    : dheKeyAgreement.t A :=
  match d with
  | truncated_p => ka
  | truncated_g vp => dheKeyAgreement.with_p ka (Some vp)
  | truncated_y vp vg =>
      dheKeyAgreement.with_g (dheKeyAgreement.with_p ka (Some vp)) (Some vg)
  | y_out_of_range vp vg vy =>
      dheKeyAgreement.with_yServer
        (dheKeyAgreement.with_yTheirs
           (dheKeyAgreement.with_g (dheKeyAgreement.with_p ka (Some vp)) (Some vg))
           (Some vy))
        (Some vy)
  end.

(** The parameters of a well-formed DHE ServerKeyExchange: [p], [g], [y]
    and the bytes after them (the signature part). *)
Definition dheParams (k : bytes) : option (Z * Z * Z * bytes) :=
  match readBigInt k with
  | Some (vp, k) =>
      match readBigInt k with
      | Some (vg, k) =>
          match readBigInt k with
          | Some (vy, sig) => Some (vp, vg, vy, sig)
          | None => None
          end
      | None => None
      end
  | None => None
  end.

(** The parameters of a well-formed export-RSA ServerKeyExchange: the
    modulus, the exponent (a field of at most four bytes) and the length of
    the parameters. *)
Definition rsaParams (k : bytes) : option (Z * Z * Z) :=
  match k with
  | hi :: lo :: rest =>
      let n := int hi * 256 + int lo in
      if n <=? len rest then
        match slice_from rest n with
        | ehi :: elo :: erest =>
            let m := int ehi * 256 + int elo in
            if (m <=? len erest) && (m <=? 4) then
              Some (big_SetBytes (slice_to rest n), big_SetBytes (slice_to erest m),
                    2 + m + 2 + n)
            else None
        | _ => None
        end
      else None
  | _ => None
  end.

(** The parameters of a well-formed ECDHE ServerKeyExchange for the curve
    implementations [impl]: the curve identifier, the curve, the server's
    point and the length of the point. *)
Definition ecdheParams (impl : NamedCurve -> Curve) (k : bytes)
    : option (CurveID * NamedCurve * option ECDHPublicKey * Z) :=
  match k with
  | ty :: c1 :: c2 :: n :: rest =>
      if int ty =? 3 then
        match curveForCurveID (int c1 * 256 + int c2) with
        | (Some c, true) =>
            if int n <=? len rest then
              match Unmarshal (impl c) (slice_to rest (int n)) with
              | (pub, true) => Some (int c1 * 256 + int c2, c, pub, int n)
              | _ => None
              end
            else None
        | _ => None
        end
      else None
  | _ => None
  end.

(** The parameters that the ECDHE server signs for the curve [id] and the
    marshalled point [pub] (RFC 4492, section 5.4): the bytes that
    [generateServerKeyExchange] writes into [serverECDHParams]. *)
Definition serverECDHParams (id : CurveID) (pub : bytes) : bytes :=
  [byte.of_Z 3; byte.of_Z (Z.shiftr id 8); byte.of_Z id; byte.of_Z (len pub)] ++ pub.

Definition errUnsupportedCurve : error :=
  errors_New "tls: server selected unsupported curve".

(** The error that [processServerKeyExchange] returns once the signature
    has been checked with result [verr]. *)
Definition surfaced (config : Config) (verr : option error) : option error :=
  if InsecureSkipVerify config then None else verr.

(** The RSA ClientKeyExchange checks: at least two bytes and, except in
    SSL 3.0, a length prefix equal to the length of the rest. *)
Definition rsaWireOk (version : Z) (ct : bytes) : Prop :=
  2 <= len ct /\ (version <> VersionSSL30 -> be16 ct = len ct - 2).

(** The ciphertext handed to the decryption: without the prefix, except in
    SSL 3.0. *)
Definition rsaBody (version : Z) (ct : bytes) : bytes :=
  if version =? VersionSSL30 then ct else slice_from ct 2.

(** The values of [Config.KexConfig] that the DHE client knows, and the
    options that the ECDHE client knows. *)
Definition dheTokens : list string := ["0"; "1"; "pm1"; "g3"; "g5"; "g7"].

Definition ecdheTokens : list string :=
  ["COMPRESS"; "X25519_INVALID_S2"; "X25519_INVALID_S4"; "X25519_INVALID_S8";
   "X25519_TWIST_S4"; "256_ECP_INVALID_S5"; "256_ECP_TWIST_S5";
   "256_ECP_TWIST_S5_SHARED"; "224_ECP_INVALID_S13"; "224_ECP_TWIST_S11"; ""].

(** The options that leave the payload alone. *)
Definition neutral (opt : string) : Prop := opt = "COMPRESS" \/ opt = "".

(** The X coordinate that a static-payload option sets. *)
Definition payloadX (opt : string) : option Z :=
  match ecdheKeyAgreement.applyOption opt
          (ecdheKeyAgreement.mkOptions false false None None 0) with
  | Some o => if ecdheKeyAgreement.staticKex o then ecdheKeyAgreement.mx o else None
  | None => None
  end.

(** A client entry that the hash picker may choose: its signature is the
    one required and the pair is in the server's list. *)
Definition pickable (sigType : Z) (serverList : list signatureAndHash)
    (sh : signatureAndHash) : Prop :=
  signature sh = sigType /\ In sh serverList.

Definition errNoCommonHash : error :=
  errors_New "tls: client doesn't support any common hash functions".

Definition errNoCurves : error :=
  errors_New "tls: no supported elliptic curves offered".

(** [c] is the first entry of [preferredCurves] that [supported] contains. *)
Definition firstCommon (preferredCurves supported : list CurveID) (c : CurveID) : Prop :=
  exists before after,
    preferredCurves = before ++ c :: after /\
    (forall x, In x before -> ~ In x supported) /\
    In c supported.

(** The TLS 1.2 hash identifier that [signedKeyAgreement.signParameters]
    works with: the one [pickTLS12HashForSignature] returns from TLS 1.2 on,
    and the zero value of the variable below. *)
Definition chosenHash (ka : signedKeyAgreement.t) (config : Config)
    (clientHello : clientHelloMsg) (tls12HashId : Z) : Prop :=
  if VersionTLS12 <=? signedKeyAgreement.version ka
  then pickTLS12HashForSignature (signedKeyAgreement.sigType ka)
         (signatureAndHashes clientHello) (signatureAndHashesForServer config) =
       Ok tls12HashId
  else tls12HashId = 0.

(** The two bytes in front of the signature from TLS 1.2 on. *)
Definition sigAndHashBytes (version sigType tls12HashId : Z) : bytes :=
  if VersionTLS12 <=? version then [byte.of_Z tls12HashId; byte.of_Z sigType] else [].

(** The state that a successful [signedKeyAgreement.signParameters]
    leaves. *)
Definition signedState (ka : signedKeyAgreement.t) (tls12HashId : Z) (sig : bytes)
    : signedKeyAgreement.t :=
  signedKeyAgreement.mk (signedKeyAgreement.version ka) (signedKeyAgreement.sigType ka)
    sig true
    {| signature := signedKeyAgreement.sigType ka;
       hash := if VersionTLS12 <=? signedKeyAgreement.version ka then tls12HashId
               else hash (signedKeyAgreement.sh ka) |}.

(** The key that [rsaKeyAgreement.generateServerKeyExchange] works with:
    the one of the configuration, or a fresh one of 512 bits. *)
Definition exportKey `{SignatureLib} (config : Config) (rnd : RandReader)
    : RandReader * result rsa_PrivateKey :=
  match ExportRSAKey config with
  | Some key => (rnd, Ok key)
  | None => rsa_GenerateKey rnd 512
  end.

(** ** A small instance of the library primitives

    Used to run the operations on concrete inputs.  [rand.Int] follows the
    rejection sampling of crypto/rand; the RSA decryption follows
    crypto/rsa (range check of the ciphertext, exponentiation, check of the
    padding and conditional copy of the key) without blinding; the RSA
    encryption reproduces the length check and the padded block of
    crypto/rsa; the curve is a stand-in whose points are marshalled as the
    big-endian bytes of X. *)

Module Sample.

Definition modulusSize (n : Z) : Z := len (big_Bytes n).

(** [rsa.ErrDecryption]. *)
Definition ErrDecryption : error := lib_error "crypto/rsa: decryption error".

(** The offset of the first zero byte of [em], counted from [i]: the loop
    of [decryptPKCS1v15] that looks for the end of the padding. *)
Fixpoint firstZero (em : bytes) (i : Z) : option Z :=
  match em with
  | [] => None
  | b :: rest => if int b =? 0 then Some i else firstZero rest (i + 1)
  end.

(** [rsa.DecryptPKCS1v15SessionKey], without blinding (the reader is left
    as it is).  It reports [ErrDecryption] when the modulus is too short
    for the key or when the ciphertext, read as a number, is not below the
    modulus.  Otherwise the block [c^D mod N], filled to the size of the
    modulus, is checked for the form 00 02 PS 00 M with at least eight
    bytes of PS and with [len(M) = len(key)]: when the check passes [M] is
    copied into [key], when it fails [key] is left as it was, and in both
    cases no error is reported. *)
Definition DecryptPKCS1v15SessionKey (rnd : RandReader) (priv : rsa_PrivateKey)
    (ct key : bytes) : RandReader * bytes * option error :=
  let n := rsa_N (rsa_pub priv) in
  let k := modulusSize n in
  if k - (len key + 3 + 8) <? 0 then (rnd, key, Some ErrDecryption)
  else
    let c := big_SetBytes ct in
    if n <=? c then (rnd, key, Some ErrDecryption)
    else
      let m := big_Exp c (rsa_D priv) n in
      let em := repeat Byte.x00 (Z.to_nat (k - len (big_Bytes m))) ++ big_Bytes m in
      let firstByteIsZero := int (at_ em 0) =? 0 in
      let secondByteIsTwo := int (at_ em 1) =? 2 in
      let valid :=
        match firstZero (slice_from em 2) 2 with
        | Some index =>
            firstByteIsZero && secondByteIsTwo && (2 + 8 <=? index) &&
            (len em - (index + 1) =? len key)
        | None => false
        end in
      (rnd, if valid then slice_from em (len em - len key) else key, None).

Definition EncryptPKCS1v15 (rnd : RandReader) (pub : rsa_PublicKey) (msg : bytes)
    : RandReader * result bytes :=
  let k := modulusSize (rsa_N pub) in
  if k - 11 <? len msg
  then (rnd, Err (lib_error "crypto/rsa: message too long for RSA public key size"))
  else
    match io_ReadFull rnd (Z.to_nat (k - len msg - 3)) with
    | (rnd, Ok ps) => (rnd, Ok (byte.of_Z 0 :: byte.of_Z 2 :: ps ++ byte.of_Z 0 :: msg))
    | (rnd, Err e) => (rnd, Err e)
    | (rnd, Panic m) => (rnd, Panic m)
    end.

Fixpoint IntLoop (fuel : nat) (rnd : RandReader) (k : nat) (b max : Z)
    : RandReader * result Z :=
  match fuel with
  | O => (rnd, Err io_EOF)
  | S fuel =>
      match io_ReadFull rnd k with
      | (rnd, Ok (b0 :: rest)) =>
          let b0 := byte.of_Z (Z.land (int b0) (Z.shiftl 1 b - 1)) in
          let n := big_SetBytes (b0 :: rest) in
          if n <? max then (rnd, Ok n) else IntLoop fuel rnd k b max
      | (rnd, Ok []) => (rnd, Ok 0)
      | (rnd, Err e) => (rnd, Err e)
      | (rnd, Panic m) => (rnd, Panic m)
      end
  end.

Definition Int (rnd : RandReader) (max : Z) : RandReader * result Z :=
  if max <=? 0 then (rnd, Panic "crypto/rand: argument to Int is <= 0")
  else
    let n := max - 1 in
    let bitLen := if n =? 0 then 0 else Z.log2 n + 1 in
    if bitLen =? 0 then (rnd, Ok 0)
    else
      let k := (bitLen + 7) / 8 in
      let b := if bitLen mod 8 =? 0 then 8 else bitLen mod 8 in
      IntLoop (S (List.length rnd)) rnd (Z.to_nat k) b max.

Definition curve : Curve := {|
  GenerateKey rnd :=
    match io_ReadFull rnd 1 with
    | (rnd, Ok d) =>
        (rnd, (Some {| D := d |}, Some {| X := Some (big_SetBytes d); Y := None |}, None))
    | (rnd, Err e) => (rnd, (None, None, Some e))
    | (rnd, Panic _) => (rnd, (None, None, Some io_EOF))
    end;
  Marshal pub _ :=
    match pub with
    | Some {| X := Some x |} => big_Bytes x
    | _ => []
    end;
  Unmarshal b := (Some {| X := Some (big_SetBytes b); Y := None |}, true);
  GenerateSharedSecret priv pub :=
    match priv, pub with
    | Some d, Some {| X := Some x |} => (big_Bytes (x * big_SetBytes (D d)), None)
    | _, _ => ([], Some (lib_error "ecdh: missing key"))
    end
|}.

#[global] Instance lib : CryptoLib := {
  rsa_DecryptPKCS1v15SessionKey := DecryptPKCS1v15SessionKey;
  rsa_EncryptPKCS1v15 := EncryptPKCS1v15;
  rand_Int := Int;
  ecdh_curve := fun _ => curve
}.

Definition config (kex : string) (skip : bool) : Config := {|
  KexConfig := kex;
  InsecureSkipVerify := skip;
  curvePreferences := [CurveP256r1; Curve25519];
  signatureAndHashesForServer := [];
  signatureAndHashesForClient := [];
  ExportRSAKey := None
|}.

Definition hello : clientHelloMsg := {|
  vers := VersionTLS12;
  ch_random := [];
  supportedCurves := [Curve25519; CurveP256r1];
  signatureAndHashes := []
|}.

Definition serverHello : serverHelloMsg := {| sh_random := [] |}.

Definition rsaKey : rsa_PrivateKey :=
  {| rsa_pub := {| rsa_N := 2 ^ 511 + 111; rsa_E := 65537 |}; rsa_D := 3 |}.

Definition serverCert : Certificate := {| PrivateKey := RSAPrivateKey rsaKey |}.
Definition peerCert : x509_Certificate := {| PublicKey := RSAPublicKey (rsa_pub rsaKey) |}.

(** The bytes [0, 1, ..., n-1]. *)
Definition counter (n : nat) : bytes := map (fun i => byte.of_Z (Z.of_nat i)) (seq 0 n).


(** States in which no operation has run yet. *)
Definition rsa0 (version : Z) (ephemeral : bool) : rsaKeyAgreement.t nilKeyAgreementAuthentication :=
  rsaKeyAgreement.mk nilAuth version 0 ephemeral None None None.
Definition dhe0 : dheKeyAgreement.t nilKeyAgreementAuthentication :=
  dheKeyAgreement.mk nilAuth None None None None None None None None.
Definition ecdhe0 : ecdheKeyAgreement.t nilKeyAgreementAuthentication :=
  ecdheKeyAgreement.mk nilAuth None None None None None 0 [] [] None None.


(** An authentication whose verification always fails, as a bad signature
    does. *)
Inductive rejectingAuthentication : Type := rejecting.

Definition errVerification : error := lib_error "crypto/rsa: verification error".

#[global] Instance rejecting_auth : keyAgreementAuthentication rejectingAuthentication := {
  signParameters ka config cert clientHello hello params r :=
    (ka, r, Ok {| key := params; digest := [] |});
  verifyParameters ka config clientHello serverHello cert params sig :=
    (ka, ([], Some errVerification))
}.


(** Stand-ins for the hashes and the signatures, with the output sizes of
    the real ones. *)
Definition sized (n : nat) (b : bytes) : bytes := firstn n (b ++ repeat Byte.x00 n).

Definition bytes_eqb (a b : bytes) : bool :=
  (len a =? len b) && forallb (fun p => int (fst p) =? int (snd p)) (combine a b).

Definition pkcs1v15Pad (pub : rsa_PublicKey) (digest : bytes) : bytes :=
  let k := modulusSize (rsa_N pub) in
  byte.of_Z 0 :: byte.of_Z 1 ::
  repeat Byte.xff (Z.to_nat (k - len digest - 3)) ++ byte.of_Z 0 :: digest.

Definition SignPKCS1v15 (rnd : RandReader) (priv : rsa_PrivateKey) (h : crypto_Hash)
    (digest : bytes) : RandReader * result bytes :=
  if modulusSize (rsa_N (rsa_pub priv)) <? len digest + 11
  then (rnd, Err (lib_error "crypto/rsa: message too long for RSA public key size"))
  else (rnd, Ok (pkcs1v15Pad (rsa_pub priv) digest)).

Definition VerifyPKCS1v15 (pub : rsa_PublicKey) (h : crypto_Hash) (digest sig : bytes)
    : option error :=
  if bytes_eqb sig (pkcs1v15Pad pub digest) then None
  else Some (lib_error "crypto/rsa: verification error").

Definition Sign (rnd : RandReader) (priv : Z) (digest : bytes)
    : RandReader * result (Z * Z) :=
  match io_ReadFull rnd 1 with
  | (rnd, Ok k) => (rnd, Ok (1 + big_SetBytes k, 1 + priv + big_SetBytes digest))
  | (rnd, Err e) => (rnd, Err e)
  | (rnd, Panic m) => (rnd, Panic m)
  end.

Definition Verify (pub : Z) (digest : bytes) (r s : Z) : bool :=
  s =? 1 + pub + big_SetBytes digest.

Definition Marshal (r s : Z) : bytes * option error :=
  (byte.of_Z (len (big_Bytes r)) :: big_Bytes r ++ big_Bytes s, None).

Definition Unmarshal (b : bytes) : Z * Z * option error :=
  if len b =? 0 then (0, 0, Some (lib_error "asn1: syntax error: sequence truncated"))
  else
    let n := int (at_ b 0) in
    (big_SetBytes (slice_to (slice_from b 1) n),
     big_SetBytes (slice_from (slice_from b 1) n), None).

#[global] Instance siglib : SignatureLib := {
  md5_Sum := sized 16;
  sha1_Sum := sized 20;
  sha224_Sum := sized 28;
  sha256_Sum := sized 32;
  sha384_Sum := sized 48;
  sha512_Sum := sized 64;
  ecdsa_Sign := Sign;
  asn1_Marshal := Marshal;
  asn1_Unmarshal := Unmarshal;
  rsa_SignPKCS1v15 := SignPKCS1v15;
  rsa_VerifyPKCS1v15 := VerifyPKCS1v15;
  ecdsa_Verify := fun pub => Verify (fst pub);
  dsa_Verify := Verify;
  rsa_GenerateKey := fun rnd bits =>
    match io_ReadFull rnd 1 with
    | (rnd, Ok _) => (rnd, Ok rsaKey)
    | (rnd, Err e) => (rnd, Err e)
    | (rnd, Panic m) => (rnd, Panic m)
    end
}.

(** A library whose [asn1.Marshal] fails. *)
Definition failingMarshal : SignatureLib := {|
  md5_Sum := sized 16;
  sha1_Sum := sized 20;
  sha224_Sum := sized 28;
  sha256_Sum := sized 32;
  sha384_Sum := sized 48;
  sha512_Sum := sized 64;
  ecdsa_Sign := Sign;
  asn1_Marshal := fun _ _ => ([], Some (lib_error "asn1: structure error"));
  asn1_Unmarshal := Unmarshal;
  rsa_SignPKCS1v15 := SignPKCS1v15;
  rsa_VerifyPKCS1v15 := VerifyPKCS1v15;
  ecdsa_Verify := fun pub => Verify (fst pub);
  dsa_Verify := Verify;
  rsa_GenerateKey := fun rnd bits => (rnd, Err io_EOF)
|}.

(** A TLS 1.2 configuration and ClientHello that share the RSA and ECDSA
    signatures with SHA-256. *)
Definition config12 : Config := {|
  KexConfig := "";
  InsecureSkipVerify := false;
  curvePreferences := [CurveP256r1; Curve25519];
  signatureAndHashesForServer :=
    [ {| signature := signatureRSA; hash := hashSHA256 |};
      {| signature := signatureECDSA; hash := hashSHA256 |} ];
  signatureAndHashesForClient :=
    [ {| signature := signatureRSA; hash := hashSHA256 |};
      {| signature := signatureECDSA; hash := hashSHA256 |} ];
  ExportRSAKey := None
|}.

Definition hello12 : clientHelloMsg := {|
  vers := VersionTLS12;
  ch_random := counter 32;
  supportedCurves := [Curve25519; CurveP256r1];
  signatureAndHashes :=
    [ {| signature := signatureECDSA; hash := hashSHA256 |};
      {| signature := signatureRSA; hash := hashSHA256 |} ]
|}.

Definition serverHello12 : serverHelloMsg := {| sh_random := rev (counter 32) |}.

Definition ecdsaCert : Certificate := {| PrivateKey := ECDSAPrivateKey 7 |}.
Definition ecdsaPeerCert : x509_Certificate := {| PublicKey := AugmentedECDSA 7 0 |}.

Definition signed0 (version sigType : Z) : signedKeyAgreement.t :=
  signedKeyAgreement.mk version sigType [] false {| signature := 0; hash := 0 |}.

(** The outcome of signing five bytes with the RSA key under TLS 1.2, and
    of signing ECDHE parameters with the ECDSA key. *)
Definition signedRun : signedKeyAgreement.t * RandReader * serverKeyExchangeMsg :=
  Eval vm_compute in
    match signedKeyAgreement.signParameters (signed0 VersionTLS12 signatureRSA)
            config12 serverCert hello12 serverHello12 (counter 5) [] with
    | (ka, rnd, Ok skx) => (ka, rnd, skx)
    | (ka, rnd, _) => (ka, rnd, {| key := []; digest := [] |})
    end.

Definition ecdheSignedRun : signedKeyAgreement.t * RandReader * serverKeyExchangeMsg :=
  Eval vm_compute in
    match signedKeyAgreement.signParameters (signed0 VersionTLS12 signatureECDSA)
            config12 ecdsaCert hello12 serverHello12
            (serverECDHParams CurveP256r1 [Byte.x07]) [Byte.x09] with
    | (ka, rnd, Ok skx) => (ka, rnd, skx)
    | (ka, rnd, _) => (ka, rnd, {| key := []; digest := [] |})
    end.

Definition ecdheSigned0 : ecdheKeyAgreement.t signedKeyAgreement.t :=
  ecdheKeyAgreement.mk (signed0 VersionTLS12 signatureECDSA)
    None None None None None 0 [] [] None None.

End Sample.

(** * Properties *)

(** ** Bytes and big integers *)

Lemma int_range (b : byte) : 0 <= int b < 256.
Proof. unfold int. pose proof (byte.unsigned_range b). lia. Qed.

Lemma int_of_Z (z : Z) : int (byte.of_Z z) = z mod 256.
Proof. unfold int. rewrite byte.unsigned_of_Z. reflexivity. Qed.

Lemma lor_shiftl8 (x y : Z) :
  0 <= x -> 0 <= y < 256 -> Z.lor (Z.shiftl x 8) y = x * 256 + y.
Proof.
  intros Hx Hy.
  rewrite Z.shiftl_mul_pow2 by lia. change (2 ^ 8) with 256.
  rewrite <- Z.lxor_lor, <- Z.add_nocarry_lxor; try reflexivity.
  all: apply Z.bits_inj'; intros n Hn; rewrite Z.land_spec, Z.bits_0.
  all: destruct (Z.ltb_spec n 8).
  all: try (replace (x * 256) with (x * 2 ^ 8) by reflexivity;
            rewrite Z.mul_pow2_bits_low by lia; reflexivity).
  all: destruct (Z.eq_dec y 0) as [->|]; [rewrite Z.bits_0; apply andb_false_r|].
  all: rewrite (Z.bits_above_log2 y n); [apply andb_false_r|lia|].
  all: apply Z.log2_lt_pow2; try lia.
  all: apply Z.lt_le_trans with (2 ^ 8); [simpl; lia|apply Z.pow_le_mono_r; lia].
Qed.

Lemma be16_cons (hi lo : byte) (rest : bytes) :
  be16 (hi :: lo :: rest) = int hi * 256 + int lo.
Proof.
  unfold be16, at_. simpl nth. apply lor_shiftl8; [apply int_range | apply int_range].
Qed.

Lemma be16_range (k : bytes) : 0 <= be16 k < 65536.
Proof.
  unfold be16. rewrite lor_shiftl8 by (try apply int_range; apply int_range).
  pose proof (int_range (at_ k 0)). pose proof (int_range (at_ k 1)). lia.
Qed.

Lemma len_nonneg {T : Type} (s : list T) : 0 <= len s.
Proof. unfold len. lia. Qed.

Lemma len_cons {T : Type} (x : T) (s : list T) : len (x :: s) = len s + 1.
Proof. unfold len. simpl List.length. lia. Qed.

Lemma len_app {T : Type} (s1 s2 : list T) : len (s1 ++ s2) = len s1 + len s2.
Proof. unfold len. rewrite length_app. lia. Qed.

Lemma SetBytes_from (b : bytes) (a : Z) :
  fold_left (fun acc x => acc * 256 + int x) b a = a * 256 ^ len b + big_SetBytes b.
Proof.
  unfold big_SetBytes. revert a. induction b as [|x b IH]; intros a.
  - simpl. change (len (@nil byte)) with 0. lia.
  - cbn [fold_left]. rewrite (IH (a * 256 + int x)), (IH (0 * 256 + int x)).
    rewrite len_cons, Z.pow_add_r by (try apply len_nonneg; lia). lia.
Qed.

Lemma SetBytes_cons (x : byte) (b : bytes) :
  big_SetBytes (x :: b) = int x * 256 ^ len b + big_SetBytes b.
Proof.
  unfold big_SetBytes at 1. cbn [fold_left]. rewrite SetBytes_from. lia.
Qed.

Lemma SetBytes_range (b : bytes) : 0 <= big_SetBytes b < 256 ^ len b.
Proof.
  induction b as [|x b IH].
  - cbv. split; [discriminate | reflexivity].
  - rewrite SetBytes_cons, len_cons, Z.pow_add_r by (try apply len_nonneg; lia).
    pose proof (int_range x). nia.
Qed.

Lemma natBytes_decode (fuel : nat) : forall (z : Z) (acc : bytes),
  0 <= z < 2 ^ Z.of_nat fuel ->
  fold_left (fun a x => a * 256 + int x) (natBytes fuel z acc) 0 =
  fold_left (fun a x => a * 256 + int x) acc z.
Proof.
  induction fuel as [|fuel IH]; intros z acc Hz.
  - simpl in *. replace z with 0 by lia. reflexivity.
  - simpl natBytes. destruct (Z.eqb_spec z 0) as [->|Hnz]; [reflexivity|].
    rewrite IH.
    + simpl fold_left. rewrite int_of_Z. f_equal.
      pose proof (Z.div_mod z 256). lia.
    + rewrite Nat2Z.inj_succ, Z.pow_succ_r in Hz by lia.
      split; [apply Z.div_pos; lia|].
      apply Z.div_lt_upper_bound; lia.
Qed.

Lemma fuel_enough (z : Z) : 0 <= z -> z < 2 ^ Z.of_nat (S (Z.to_nat (Z.log2 z))).
Proof.
  intros Hz. destruct (Z.eq_dec z 0) as [->|Hnz]; [reflexivity|].
  rewrite Nat2Z.inj_succ, Z2Nat.id by apply Z.log2_nonneg.
  apply Z.log2_spec. lia.
Qed.

(** [SetBytes] undoes [Bytes] on the non-negative integers. *)
Lemma SetBytes_Bytes (z : Z) : 0 <= z -> big_SetBytes (big_Bytes z) = z.
Proof.
  intros Hz. unfold big_SetBytes, big_Bytes. rewrite Z.abs_eq by exact Hz.
  rewrite natBytes_decode; [reflexivity|].
  split; [exact Hz | apply fuel_enough; exact Hz].
Qed.

Lemma Bytes_abs (z : Z) : big_Bytes (Z.abs z) = big_Bytes z.
Proof. unfold big_Bytes. rewrite Z.abs_idemp. reflexivity. Qed.

Lemma natBytes_zero (fuel : nat) (acc : bytes) : natBytes fuel 0 acc = acc.
Proof. destruct fuel; reflexivity. Qed.

Lemma natBytes_head (fuel : nat) : forall (z : Z) (acc : bytes),
  0 < z < 2 ^ Z.of_nat fuel ->
  exists b rest, natBytes fuel z acc = b :: rest /\ int b <> 0.
Proof.
  induction fuel as [|fuel IH]; intros z acc Hz.
  - simpl in Hz. lia.
  - simpl natBytes. destruct (Z.eqb_spec z 0) as [->|Hnz]; [lia|].
    destruct (Z.eq_dec (z / 256) 0) as [Hq|Hq].
    + rewrite Hq, natBytes_zero. exists (byte.of_Z z), acc. split; [reflexivity|].
      rewrite int_of_Z. pose proof (Z.div_mod z 256). 
      pose proof (Z.mod_pos_bound z 256). lia.
    + apply IH.
      rewrite Nat2Z.inj_succ, Z.pow_succ_r in Hz by lia.
      assert (0 <= z / 256) by (apply Z.div_pos; lia).
      split; [lia|]. apply Z.div_lt_upper_bound; lia.
Qed.

(** [Bytes] never starts with a zero byte. *)
Lemma Bytes_no_leading_zero (z : Z) : hd_error (big_Bytes z) <> Some Byte.x00.
Proof.
  unfold big_Bytes. destruct (Z.eq_dec (Z.abs z) 0) as [Hz|Hz].
  - rewrite Hz. simpl. discriminate.
  - destruct (natBytes_head (S (Z.to_nat (Z.log2 (Z.abs z)))) (Z.abs z) [])
      as (b & rest & Heq & Hb).
    + split; [lia | apply fuel_enough; lia].
    + rewrite Heq. simpl. intros Hx. injection Hx as ->. apply Hb. reflexivity.
Qed.

(** [Bytes] is the shortest big-endian encoding. *)
Lemma Bytes_shortest (z : Z) (b : bytes) :
  big_SetBytes b = Z.abs z -> len (big_Bytes z) <= len b.
Proof.
  intros Hb. unfold big_Bytes. destruct (Z.eq_dec (Z.abs z) 0) as [Hz|Hz].
  - rewrite Hz. simpl. apply len_nonneg.
  - destruct (natBytes_head (S (Z.to_nat (Z.log2 (Z.abs z)))) (Z.abs z) [])
      as (x & rest & Heq & Hx).
    + split; [lia | apply fuel_enough; lia].
    + assert (Hdec : big_SetBytes (x :: rest) = Z.abs z).
      { rewrite <- Heq. change (big_SetBytes (big_Bytes z) = Z.abs z).
        rewrite <- Bytes_abs. apply SetBytes_Bytes. lia. }
      rewrite Heq. rewrite SetBytes_cons in Hdec.
      pose proof (SetBytes_range rest) as Hr. pose proof (SetBytes_range b) as Hbr.
      pose proof (int_range x) as Hxr.
      destruct (Z_lt_le_dec (len b) (len (x :: rest))) as [Hlt|Hle]; [|exact Hle].
      exfalso. rewrite len_cons in Hlt.
      assert (256 ^ len b <= 256 ^ len rest)
        by (apply Z.pow_le_mono_r; [lia | lia]).
      nia.
Qed.

(** ** The TLS 1.2 hash picker *)

Lemma signatureAndHash_eqb_eq (a b : signatureAndHash) :
  signatureAndHash_eqb a b = true <-> a = b.
Proof.
  unfold signatureAndHash_eqb. destruct a as [sa ha], b as [sb hb]. simpl.
  rewrite andb_true_iff, !Z.eqb_eq. split.
  - intros [-> ->]. reflexivity.
  - intros Heq. injection Heq as -> ->. split; reflexivity.
Qed.

Lemma isSupported_In (sh : signatureAndHash) (l : list signatureAndHash) :
  isSupportedSignatureAndHash sh l = true <-> In sh l.
Proof.
  induction l as [|s l IH]; simpl.
  - split; [discriminate | contradiction].
  - destruct (signatureAndHash_eqb s sh) eqn:E.
    + apply signatureAndHash_eqb_eq in E. split; [left; exact E | reflexivity].
    + rewrite IH. split; [right; assumption|].
      intros [Heq|Hin]; [|exact Hin].
      apply signatureAndHash_eqb_eq in Heq. congruence.
Qed.

Section Picker.
Variables (sigType : Z) (serverList : list signatureAndHash).

Lemma pickable_dec (sh : signatureAndHash) :
  {pickable sigType serverList sh} + {~ pickable sigType serverList sh}.
Proof.
  unfold pickable. destruct (Z.eq_dec (signature sh) sigType) as [Hs|Hs].
  - destruct (isSupportedSignatureAndHash sh serverList) eqn:E.
    + left. split; [exact Hs | apply isSupported_In; exact E].
    + right. intros [_ Hin]. apply isSupported_In in Hin. congruence.
  - right. intros [Hs' _]. contradiction.
Qed.

Lemma loop_step_pick (sh : signatureAndHash) (rest : list signatureAndHash) :
  pickable sigType serverList sh ->
  pickTLS12HashForSignature_loop sigType (sh :: rest) serverList = Ok (hash sh).
Proof.
  intros [Hs Hin]. simpl. apply Z.eqb_eq in Hs. rewrite Hs. simpl.
  apply isSupported_In in Hin. rewrite Hin. reflexivity.
Qed.

Lemma loop_step_skip (sh : signatureAndHash) (rest : list signatureAndHash) :
  ~ pickable sigType serverList sh ->
  pickTLS12HashForSignature_loop sigType (sh :: rest) serverList =
  pickTLS12HashForSignature_loop sigType rest serverList.
Proof.
  intros Hno. simpl. destruct (Z.eqb_spec (signature sh) sigType) as [Hs|Hs]; simpl.
  - destruct (isSupportedSignatureAndHash sh serverList) eqn:E; [|reflexivity].
    exfalso. apply Hno. split; [exact Hs | apply isSupported_In; exact E].
  - reflexivity.
Qed.

Lemma loop_skips (before rest : list signatureAndHash) :
  Forall (fun x => ~ pickable sigType serverList x) before ->
  pickTLS12HashForSignature_loop sigType (before ++ rest) serverList =
  pickTLS12HashForSignature_loop sigType rest serverList.
Proof.
  induction 1 as [|x before Hx _ IH]; [reflexivity|].
  simpl app. rewrite loop_step_skip by exact Hx. exact IH.
Qed.

Lemma loop_outcome (clientList : list signatureAndHash) :
  (exists before sh after,
      clientList = before ++ sh :: after /\
      Forall (fun x => ~ pickable sigType serverList x) before /\
      pickable sigType serverList sh /\
      pickTLS12HashForSignature_loop sigType clientList serverList = Ok (hash sh)) \/
  (Forall (fun x => ~ pickable sigType serverList x) clientList /\
   pickTLS12HashForSignature_loop sigType clientList serverList = Err errNoCommonHash).
Proof.
  induction clientList as [|x l IH].
  - right. split; [constructor | reflexivity].
  - destruct (pickable_dec x) as [Hx|Hx].
    + left. exists [], x, l. repeat split; try constructor; try apply Hx.
      apply loop_step_pick. exact Hx.
    + rewrite loop_step_skip by exact Hx.
      destruct IH as [(before & sh & after & -> & Hb & Hsh & Hr)|[Hall Hr]].
      * left. exists (x :: before), sh, after.
        repeat split; try apply Hsh; [constructor; assumption | exact Hr].
      * right. split; [constructor; assumption | exact Hr].
Qed.

End Picker.

(** The first pickable element of a list is unique. *)
Lemma first_pickable_unique (P : signatureAndHash -> Prop)
    (b1 b2 a1 a2 : list signatureAndHash) (s1 s2 : signatureAndHash) :
  b1 ++ s1 :: a1 = b2 ++ s2 :: a2 ->
  Forall (fun x => ~ P x) b1 -> Forall (fun x => ~ P x) b2 -> P s1 -> P s2 ->
  s1 = s2.
Proof.
  revert b2. induction b1 as [|x b1 IH]; intros b2 Heq H1 H2 P1 P2.
  - destruct b2 as [|y b2]; simpl in Heq.
    + congruence.
    + injection Heq as -> _. inversion H2; subst. contradiction.
  - destruct b2 as [|y b2]; simpl in Heq.
    + injection Heq as -> _. inversion H1; subst. contradiction.
    + injection Heq as -> Heq. inversion H1; subst. inversion H2; subst.
      eapply IH; eassumption.
Qed.

(** C6. [pickTLS12HashForSignature] returns SHA-1 for an empty client list.
    For a non-empty client list it returns hash [h] exactly when [h] is the
    hash of the first client entry, in the client's order, whose signature
    is [sigType] and whose pair is in the server's list; and it returns the
    error "client doesn't support any common hash functions" exactly when
    the client list has no such entry. *)
Theorem pickTLS12HashForSignature_first_common
    (sigType : Z) (clientList serverList : list signatureAndHash) :
  (clientList = [] ->
   pickTLS12HashForSignature sigType clientList serverList = Ok hashSHA1) /\
  (clientList <> [] ->
   (forall h,
       pickTLS12HashForSignature sigType clientList serverList = Ok h <->
       exists before sh after,
         clientList = before ++ sh :: after /\
         Forall (fun x => ~ pickable sigType serverList x) before /\
         pickable sigType serverList sh /\ hash sh = h) /\
   (pickTLS12HashForSignature sigType clientList serverList = Err errNoCommonHash <->
    forall sh, In sh clientList -> ~ pickable sigType serverList sh)).
Proof.
  split.
  - intros ->. reflexivity.
  - intros Hne. unfold pickTLS12HashForSignature.
    assert (Hlen : (len clientList =? 0) = false).
    { destruct clientList; [congruence|]. rewrite len_cons.
      apply Z.eqb_neq. pose proof (len_nonneg clientList). lia. }
    rewrite Hlen.
    destruct (loop_outcome sigType serverList clientList)
      as [(before & sh & after & Heq & Hb & Hsh & Hr)|[Hall Hr]]; rewrite Hr.
    + split.
      * intros h. split.
        -- intros Hh. injection Hh as <-. exists before, sh, after. auto.
        -- intros (b2 & s2 & a2 & Heq2 & Hb2 & Hs2 & <-).
           f_equal. f_equal.
           apply (first_pickable_unique (pickable sigType serverList)
                    before b2 after a2 sh s2); try assumption. congruence.
      * split; [discriminate|].
        intros Hnone. exfalso. apply (Hnone sh); [|exact Hsh].
        rewrite Heq. apply in_or_app. right. left. reflexivity.
    + split.
      * intros h. split; [discriminate|].
        intros (b2 & s2 & a2 & Heq2 & _ & Hs2 & _). exfalso.
        rewrite Forall_forall in Hall. apply (Hall s2); [|exact Hs2].
        rewrite Heq2. apply in_or_app. right. left. reflexivity.
      * split; [|reflexivity].
        intros _. rewrite Forall_forall in Hall. exact Hall.
Qed.

(** The picker on the lists of the specification's scenario: the client
    prefers SHA-1, the server only has SHA-256 and SHA-384 for RSA. *)
Example pickTLS12HashForSignature_scenario :
  pickTLS12HashForSignature signatureRSA
    [ {| signature := signatureRSA; hash := hashSHA1 |};
      {| signature := signatureRSA; hash := hashSHA256 |} ]
    [ {| signature := signatureRSA; hash := hashSHA256 |};
      {| signature := signatureRSA; hash := hashSHA384 |} ]
  = Ok hashSHA256.
Proof. reflexivity. Qed.

(** ** Curve selection of the ECDHE server *)

Section CurveSelection.
Import ecdheKeyAgreement.

Lemma matchCandidate_Some (candidate c : CurveID) (supported : list CurveID) :
  matchCandidate candidate supported = Some c -> c = candidate /\ In candidate supported.
Proof.
  induction supported as [|x l IH]; simpl; [discriminate|].
  destruct (Z.eqb_spec candidate x) as [->|Hne].
  - intros Heq. injection Heq as ->. split; [reflexivity | left; reflexivity].
  - intros Heq. destruct (IH Heq) as [-> Hin]. split; [reflexivity | right; exact Hin].
Qed.

Lemma matchCandidate_None (candidate : CurveID) (supported : list CurveID) :
  matchCandidate candidate supported = None -> ~ In candidate supported.
Proof.
  induction supported as [|x l IH]; simpl; [tauto|].
  destruct (Z.eqb_spec candidate x) as [->|Hne]; [discriminate|].
  intros Heq [Hx|Hin]; [congruence | exact (IH Heq Hin)].
Qed.

(** The two loops either stop at the first common curve or leave the zero
    value of [curveid]. *)
Lemma selectCurve_outcome (preferredCurves supported : list CurveID) :
  (exists c, firstCommon preferredCurves supported c /\
             selectCurve preferredCurves supported = c) \/
  ((forall x, In x preferredCurves -> ~ In x supported) /\
   selectCurve preferredCurves supported = 0).
Proof.
  induction preferredCurves as [|x l IH]; simpl.
  - right. split; [tauto | reflexivity].
  - destruct (matchCandidate x supported) as [c|] eqn:E.
    + apply matchCandidate_Some in E. destruct E as [-> Hin].
      left. exists x. split; [|reflexivity].
      exists [], l. split; [reflexivity|]. split; [simpl; tauto | exact Hin].
    + apply matchCandidate_None in E.
      destruct IH as [(c & (before & after & -> & Hb & Hc) & Hsel)|[Hall Hsel]].
      * left. exists c. split; [|exact Hsel].
        exists (x :: before), after. split; [reflexivity|]. split; [|exact Hc].
        intros y [<-|Hy]; [exact E | exact (Hb y Hy)].
      * right. split; [|exact Hsel].
        intros y [<-|Hy]; [exact E | exact (Hall y Hy)].
Qed.

Lemma firstCommon_unique (preferredCurves supported : list CurveID) (c1 c2 : CurveID) :
  firstCommon preferredCurves supported c1 ->
  firstCommon preferredCurves supported c2 -> c1 = c2.
Proof.
  intros (b1 & a1 & -> & H1 & Hc1) (b2 & a2 & Heq & H2 & Hc2).
  revert b2 Heq H2. induction b1 as [|x b1 IH]; intros b2 Heq H2.
  - destruct b2 as [|y b2]; simpl in Heq.
    + congruence.
    + injection Heq as -> _. exfalso. apply (H2 y); [left; reflexivity | exact Hc1].
  - destruct b2 as [|y b2]; simpl in Heq.
    + injection Heq as -> _. exfalso. apply (H1 c2); [left; reflexivity | exact Hc2].
    + injection Heq as -> Heq. apply (IH (fun z Hz => H1 z (or_intror Hz)) b2 Heq).
      intros z Hz. apply H2. right. exact Hz.
Qed.

Lemma selectCurve_firstCommon (preferredCurves supported : list CurveID) (c : CurveID) :
  firstCommon preferredCurves supported c -> selectCurve preferredCurves supported = c.
Proof.
  intros Hc. destruct (selectCurve_outcome preferredCurves supported)
    as [(c' & Hc' & Hsel)|[Hall _]].
  - rewrite Hsel. eapply firstCommon_unique; eassumption.
  - exfalso. destruct Hc as (before & after & -> & _ & Hin).
    apply (Hall c); [apply in_or_app; right; left; reflexivity | exact Hin].
Qed.

Lemma selectCurve_disjoint (preferredCurves supported : list CurveID) :
  (forall x, In x preferredCurves -> ~ In x supported) ->
  selectCurve preferredCurves supported = 0.
Proof.
  intros Hdis. destruct (selectCurve_outcome preferredCurves supported)
    as [(c & (before & after & Heq & _ & Hin) & _)|[_ Hsel]]; [|exact Hsel].
  exfalso. apply (Hdis c); [rewrite Heq; apply in_or_app; right; left; reflexivity|].
  exact Hin.
Qed.

Section EcdheServer.
Context {A : Type} `{keyAgreementAuthentication A} `{CryptoLib}.
Variables (ka : t A) (rnd : RandReader) (config : Config) (cert : Certificate)
          (clientHello : clientHelloMsg) (hello : serverHelloMsg).

Lemma generateServerKeyExchange_zero :
  selectCurve (curvePreferences config) (supportedCurves clientHello) = 0 ->
  generateServerKeyExchange ka rnd config cert clientHello hello =
  (ka, rnd, Err errNoCurves).
Proof.
  intros Hsel. unfold generateServerKeyExchange. rewrite Hsel. reflexivity.
Qed.

Lemma generateServerKeyExchange_records (c : CurveID) :
  selectCurve (curvePreferences config) (supportedCurves clientHello) = c ->
  c <> 0 ->
  let ka' := fst (fst (generateServerKeyExchange ka rnd config cert clientHello hello)) in
  curveID ka' = c /\ curve ka' = fst (curveForCurveID c).
Proof.
  intros Hsel Hnz. unfold generateServerKeyExchange. rewrite Hsel.
  apply Z.eqb_neq in Hnz. rewrite Hnz.
  destruct (curveForCurveID c) as [[cv|] [|]]; simpl; try (split; reflexivity).
  destruct (GenerateKey (ecdh_curve cv) rnd) as [rnd1 [[priv pub] [err|]]]; simpl;
    try (split; reflexivity).
  destruct priv as [priv|]; simpl; try (split; reflexivity).
  destruct (signParameters _ _ _ _ _ _ _) as [[a rnd2] r]. simpl. split; reflexivity.
Qed.

(** C8. The curve is selected by walking [config.curvePreferences()] in the
    server's order and, for each candidate, the client's [supportedCurves]:
    the selection is the first preferred curve that the client supports, and
    (for a non-zero identifier) it is what the operation records as the
    negotiated curve.  When the two lists have no common element the
    operation fails with "tls: no supported elliptic curves offered". *)
Theorem ecdhe_generateServerKeyExchange_curve_selection :
  ((forall x, In x (curvePreferences config) -> ~ In x (supportedCurves clientHello)) ->
   generateServerKeyExchange ka rnd config cert clientHello hello =
   (ka, rnd, Err errNoCurves)) /\
  (forall c, firstCommon (curvePreferences config) (supportedCurves clientHello) c ->
     selectCurve (curvePreferences config) (supportedCurves clientHello) = c /\
     (c <> 0 ->
      let ka' := fst (fst (generateServerKeyExchange ka rnd config cert clientHello hello)) in
      curveID ka' = c /\ curve ka' = fst (curveForCurveID c))).
Proof.
  split.
  - intros Hdis. apply generateServerKeyExchange_zero, selectCurve_disjoint, Hdis.
  - intros c Hc. pose proof (selectCurve_firstCommon _ _ _ Hc) as Hsel.
    split; [exact Hsel|]. intros Hnz.
    apply generateServerKeyExchange_records; assumption.
Qed.

(** C10. The zero [CurveID] is the "nothing selected" value of the
    selection: when both lists contain the identifier 0 and it is their only
    common element, the operation fails with "tls: no supported elliptic
    curves offered" and leaves the state and the random source untouched,
    which is its outcome for lists without a common element. *)
Theorem ecdhe_generateServerKeyExchange_zero_is_sentinel :
  In 0 (curvePreferences config) ->
  In 0 (supportedCurves clientHello) ->
  (forall c, In c (curvePreferences config) -> In c (supportedCurves clientHello) -> c = 0) ->
  generateServerKeyExchange ka rnd config cert clientHello hello =
  (ka, rnd, Err errNoCurves).
Proof.
  intros _ _ Honly. apply generateServerKeyExchange_zero.
  destruct (selectCurve_outcome (curvePreferences config) (supportedCurves clientHello))
    as [(c & (before & after & Heq & _ & Hin) & Hsel)|[_ Hsel]]; [|exact Hsel].
  rewrite Hsel. apply Honly; [|exact Hin].
  rewrite Heq. apply in_or_app. right. left. reflexivity.
Qed.

End EcdheServer.
End CurveSelection.

(** The server prefers P-256 over X25519 and the client lists X25519 first:
    P-256 is selected.  A client that only lists P-384 gets the error. *)
Lemma ecdhe_generateServerKeyExchange_curve_selection_witness :
  let ka' :=
    fst (fst (ecdheKeyAgreement.generateServerKeyExchange Sample.ecdhe0 (Sample.counter 8)
                (Sample.config "" false) Sample.serverCert Sample.hello
                Sample.serverHello)) in
  let other := {| vers := VersionTLS12; ch_random := [];
                  supportedCurves := [CurveP384r1]; signatureAndHashes := [] |} in
  (ecdheKeyAgreement.curveID ka' = CurveP256r1 /\
   ecdheKeyAgreement.curve ka' = Some P256r1) /\
  ecdheKeyAgreement.generateServerKeyExchange Sample.ecdhe0 (Sample.counter 8)
    (Sample.config "" false) Sample.serverCert other Sample.serverHello
  = (Sample.ecdhe0, Sample.counter 8, Err errNoCurves).
Proof.
  cbn zeta. split.
  - apply (proj2 (ecdhe_generateServerKeyExchange_curve_selection Sample.ecdhe0
                    (Sample.counter 8) (Sample.config "" false) Sample.serverCert
                    Sample.hello Sample.serverHello) CurveP256r1).
    + exists [], [Curve25519]. split; [reflexivity|]. split.
      * intros x [].
      * right. left. reflexivity.
    + discriminate.
  - apply (proj1 (ecdhe_generateServerKeyExchange_curve_selection Sample.ecdhe0
                    (Sample.counter 8) (Sample.config "" false) Sample.serverCert
                    {| vers := VersionTLS12; ch_random := [];
                       supportedCurves := [CurveP384r1]; signatureAndHashes := [] |}
                    Sample.serverHello)).
    simpl. intros x [<-|[<-|[]]] [Hx|[]]; discriminate Hx.
Defined.

(** Both sides list the identifier 0 and nothing else in common. *)
Lemma ecdhe_generateServerKeyExchange_zero_is_sentinel_witness :
  ecdheKeyAgreement.generateServerKeyExchange Sample.ecdhe0 (Sample.counter 8)
    {| KexConfig := ""; InsecureSkipVerify := false;
       curvePreferences := [0; CurveP256r1];
       signatureAndHashesForServer := []; signatureAndHashesForClient := [];
       ExportRSAKey := None |}
    Sample.serverCert
    {| vers := VersionTLS12; ch_random := []; supportedCurves := [Curve25519; 0];
       signatureAndHashes := [] |}
    Sample.serverHello
  = (Sample.ecdhe0, Sample.counter 8, Err errNoCurves).
Proof.
  apply ecdhe_generateServerKeyExchange_zero_is_sentinel.
  - left. reflexivity.
  - right. left. reflexivity.
  - simpl. intros c [<-|[<-|[]]] [Hc|[Hc|[]]]; try reflexivity; discriminate.
Defined.

(** ** The DHE server reads the client's public value *)

Lemma big_Sign_nonpos (y : Z) : (big_Sign y <=? 0) = (y <=? 0).
Proof.
  unfold big_Sign. destruct y; reflexivity.
Qed.

Lemma big_Cmp_nonneg (x y : Z) : (0 <=? big_Cmp x y) = (y <=? x).
Proof.
  unfold big_Cmp. destruct (Z.compare_spec x y) as [->|Hlt|Hgt].
  - symmetry. apply Z.leb_refl.
  - symmetry. apply Z.leb_gt. exact Hlt.
  - symmetry. apply Z.leb_le. lia.
Qed.

Lemma big_Exp_pos_modulus (x y m : Z) : 0 < m -> big_Exp x y m = x ^ y mod m.
Proof.
  intros Hm. unfold big_Exp. destruct (Z.eqb_spec m 0) as [->|_]; [lia|].
  rewrite Z.abs_eq by lia. reflexivity.
Qed.

Section DheServer.
Import dheKeyAgreement.
Context {A : Type} `{keyAgreementAuthentication A} `{CryptoLib}.

(** C5. On a well-formed ClientKeyExchange (at least two bytes, the 16-bit
    prefix equal to the length of the rest) the DHE server rejects the
    client's public value [y] with the invalid-ClientKeyExchange error
    exactly when [y <= 0] or [y >= p]; otherwise the pre-master secret is
    [y^x mod p] as big-endian bytes in the shortest form: it decodes to that
    value, never starts with a zero byte (so it carries no length prefix and
    is not padded to the length of [p]) and no encoding of the value is
    shorter. *)
Theorem dhe_processClientKeyExchange_range_and_secret
    (ka : t A) (config : Config) (cert : Certificate) (ckx : clientKeyExchangeMsg)
    (vp x : Z) :
  p ka = Some vp -> xOurs ka = Some x -> 0 <= x ->
  2 <= len (ciphertext ckx) ->
  be16 (ciphertext ckx) = len (ciphertext ckx) - 2 ->
  let y := big_SetBytes (slice_from (ciphertext ckx) 2) in
  let r := snd (processClientKeyExchange ka config cert ckx) in
  (r = Err errClientKeyExchange <-> y <= 0 \/ vp <= y) /\
  (~ (y <= 0 \/ vp <= y) ->
   r = Ok (big_Bytes (y ^ x mod vp)) /\
   big_SetBytes (big_Bytes (y ^ x mod vp)) = y ^ x mod vp /\
   hd_error (big_Bytes (y ^ x mod vp)) <> Some Byte.x00 /\
   forall b, big_SetBytes b = y ^ x mod vp -> len (big_Bytes (y ^ x mod vp)) <= len b).
Proof.
  intros Hp Hx Hx0 Hlen Hpre y r. subst r.
  unfold processClientKeyExchange.
  assert (Hlt : (len (ciphertext ckx) <? 2) = false) by (apply Z.ltb_ge; exact Hlen).
  rewrite Hlt, Hpre, Z.eqb_refl. cbn [negb].
  fold y. cbn [p xOurs with_yClient]. rewrite Hp, Hx.
  rewrite big_Sign_nonpos, big_Cmp_nonneg.
  destruct (Z.leb_spec y 0) as [Hy0|Hy0]; cbn [snd].
  - split; [split; [left; exact Hy0 | reflexivity]|]. intros Hn. exfalso. apply Hn. auto.
  - destruct (Z.leb_spec vp y) as [Hyp|Hyp]; cbn [snd].
    + split; [split; [right; exact Hyp | reflexivity]|]. intros Hn. exfalso. apply Hn. auto.
    + split; [split; [discriminate | lia]|]. intros _.
      assert (Hvp : 0 < vp) by lia.
      rewrite big_Exp_pos_modulus by exact Hvp.
      pose proof (Z.mod_pos_bound (y ^ x) vp Hvp) as Hm.
      split; [reflexivity|]. split; [apply SetBytes_Bytes; lia|].
      split; [apply Bytes_no_leading_zero|].
      intros b Hb. apply Bytes_shortest. rewrite Z.abs_eq by lia. exact Hb.
Qed.

End DheServer.

(** With [p = 65537] (three bytes), [x = 3] and the client value [y = 2],
    the secret is the single byte 8: it is not padded to the length of [p]. *)
Lemma dhe_processClientKeyExchange_range_and_secret_witness :
  let ka := dheKeyAgreement.mk nilAuth (Some 65537) (Some 3) None None (Some 3) None None None in
  let ckx := {| ciphertext := [byte.of_Z 0; byte.of_Z 1; byte.of_Z 2] |} in
  snd (dheKeyAgreement.processClientKeyExchange ka (Sample.config "" false)
         Sample.serverCert ckx) = Ok [byte.of_Z 8] /\
  len (big_Bytes 65537) = 3.
Proof.
  split; [|reflexivity].
  refine (proj1 (proj2 (dhe_processClientKeyExchange_range_and_secret
            (dheKeyAgreement.mk nilAuth (Some 65537) (Some 3) None None (Some 3)
                                None None None)
            (Sample.config "" false) Sample.serverCert
            {| ciphertext := [byte.of_Z 0; byte.of_Z 1; byte.of_Z 2] |}
            65537 3 eq_refl eq_refl _ _ _) _)).
  - lia.
  - vm_compute. discriminate.
  - reflexivity.
  - vm_compute. intros [Hc|Hc]; apply Hc; reflexivity.
Defined.

(** ** The DHE client reads the server's parameters *)

(** [readBigInt] is the pattern of checks that the parsers repeat for every
    field. *)
Lemma readBigInt_code (k : bytes) :
  readBigInt k =
  if len k <? 2 then None
  else if len (slice_from k 2) <? be16 k then None
  else Some (big_SetBytes (slice_to (slice_from k 2) (be16 k)),
             slice_from (slice_from k 2) (be16 k)).
Proof.
  destruct k as [|hi [|lo rest]]; try reflexivity.
  assert (Hlen : (len (hi :: lo :: rest) <? 2) = false).
  { apply Z.ltb_ge. rewrite !len_cons. pose proof (len_nonneg rest). lia. }
  rewrite Hlen, be16_cons. change (slice_from (hi :: lo :: rest) 2) with rest.
  cbn [readBigInt]. rewrite (Z.ltb_antisym (int hi * 256 + int lo) (len rest)).
  destruct (int hi * 256 + int lo <=? len rest); reflexivity.
Qed.

(** A message without a defect is one whose three fields parse with
    [0 < y < p]; such a message reaches the verification of the signature
    (lemma [dhe_processServerKeyExchange_verified] below). *)
Lemma dheDefect_None (k : bytes) :
  dheDefect k = None <->
  exists vp vg vy sig, dheParams k = Some (vp, vg, vy, sig) /\ 0 < vy < vp.
Proof.
  unfold dheDefect, dheParams.
  destruct (readBigInt k) as [[vp k1]|].
  2: { split; [discriminate | intros (? & ? & ? & ? & Hd & _); discriminate]. }
  destruct (readBigInt k1) as [[vg k2]|].
  2: { split; [discriminate | intros (? & ? & ? & ? & Hd & _); discriminate]. }
  destruct (readBigInt k2) as [[vy sig]|].
  2: { split; [discriminate | intros (? & ? & ? & ? & Hd & _); discriminate]. }
  destruct (Z.leb_spec vy 0); destruct (Z.leb_spec vp vy); cbn [orb]; split;
    try discriminate;
    try (intros (? & ? & ? & ? & Hd & Hr); injection Hd as <- <- <- <-; lia).
  - intros _. exists vp, vg, vy, sig. split; [reflexivity | lia].
  - reflexivity.
Qed.

Section DheClient.
Import dheKeyAgreement.
Context {A : Type} `{keyAgreementAuthentication A} `{CryptoLib}.

(** C3, as the code has it.  A malformed DHE ServerKeyExchange (a field
    that runs past the end of the message, or a public value outside
    [0 < y < p]) is answered with the invalid-ServerKeyExchange error, and
    the message is returned as it came; the state keeps the fields that were
    parsed before the defect: nothing when the defect is in [p], [p] when it
    is in [g], [p] and [g] when it is in [y], and [p], [g], [yTheirs] and
    [yServer] when [y] is out of range.  Every other field is untouched. *)
Theorem dhe_processServerKeyExchange_malformed
    (ka : t A) (config : Config) (clientHello : clientHelloMsg)
    (serverHello : serverHelloMsg) (cert : x509_Certificate)
    (skx : serverKeyExchangeMsg) (d : skxDefect) :
  dheDefect (key skx) = Some d ->
  processServerKeyExchange ka config clientHello serverHello cert skx =
  (dheAfterDefect ka d, skx, Some errServerKeyExchange).
Proof.
  unfold dheDefect, processServerKeyExchange.
  rewrite (readBigInt_code (key skx)).
  destruct (len (key skx) <? 2); [intros Hd; injection Hd as <-; reflexivity|].
  destruct (len (slice_from (key skx) 2) <? be16 (key skx));
    [intros Hd; injection Hd as <-; reflexivity|].
  set (k1 := slice_from (slice_from (key skx) 2) (be16 (key skx))).
  rewrite (readBigInt_code k1).
  destruct (len k1 <? 2); [intros Hd; injection Hd as <-; reflexivity|].
  destruct (len (slice_from k1 2) <? be16 k1);
    [intros Hd; injection Hd as <-; reflexivity|].
  set (k2 := slice_from (slice_from k1 2) (be16 k1)).
  rewrite (readBigInt_code k2).
  destruct (len k2 <? 2); [intros Hd; injection Hd as <-; reflexivity|].
  destruct (len (slice_from k2 2) <? be16 k2);
    [intros Hd; injection Hd as <-; reflexivity|].
  rewrite big_Sign_nonpos, big_Cmp_nonneg.
  destruct (_ || _); [intros Hd; injection Hd as <-; reflexivity|discriminate].
Qed.

(** The fields that no defect touches. *)
Lemma dheAfterDefect_frame (ka : t A) (d : skxDefect) :
  auth (dheAfterDefect ka d) = auth ka /\
  yOurs (dheAfterDefect ka d) = yOurs ka /\
  xOurs (dheAfterDefect ka d) = xOurs ka /\
  yClient (dheAfterDefect ka d) = yClient ka /\
  verifyError (dheAfterDefect ka d) = verifyError ka.
Proof. destruct d; repeat split; reflexivity. Qed.

End DheClient.

(** The message [00 01 05 00] announces a one-byte [p] (5) and ends inside
    the length of [g]. *)
Lemma dhe_processServerKeyExchange_malformed_witness :
  dheKeyAgreement.processServerKeyExchange Sample.dhe0 (Sample.config "" false)
    Sample.hello Sample.serverHello Sample.peerCert
    {| key := [byte.of_Z 0; byte.of_Z 1; byte.of_Z 5; byte.of_Z 0]; digest := [] |}
  = (dheKeyAgreement.with_p Sample.dhe0 (Some 5),
     {| key := [byte.of_Z 0; byte.of_Z 1; byte.of_Z 5; byte.of_Z 0]; digest := [] |},
     Some errServerKeyExchange).
Proof.
  apply (dhe_processServerKeyExchange_malformed Sample.dhe0 (Sample.config "" false)
           Sample.hello Sample.serverHello Sample.peerCert
           {| key := [byte.of_Z 0; byte.of_Z 1; byte.of_Z 5; byte.of_Z 0]; digest := [] |}
           (truncated_g 5)).
  reflexivity.
Defined.

(** C3, counterexample.  On the message [00 01 05 00], whose [g] length is
    truncated, the operation returns the invalid-ServerKeyExchange error but
    the state is not what it was: [p] was nil and is now 5. *)
Lemma dhe_processServerKeyExchange_partial_mutation :
  let skx := {| key := [byte.of_Z 0; byte.of_Z 1; byte.of_Z 5; byte.of_Z 0];
                digest := [] |} in
  let r := dheKeyAgreement.processServerKeyExchange Sample.dhe0 (Sample.config "" false)
             Sample.hello Sample.serverHello Sample.peerCert skx in
  dheDefect (key skx) = Some (truncated_g 5) /\
  snd r = Some errServerKeyExchange /\
  dheKeyAgreement.p Sample.dhe0 = None /\
  dheKeyAgreement.p (fst (fst r)) = Some 5 /\
  fst (fst r) <> Sample.dhe0.
Proof.
  repeat split. intros Heq.
  apply (f_equal dheKeyAgreement.p) in Heq. discriminate Heq.
Qed.

(** ** Verification results of the ServerKeyExchange signature *)

Lemma readExponent_SetBytes (b : bytes) : rsaKeyAgreement.readExponent b = big_SetBytes b.
Proof.
  unfold rsaKeyAgreement.readExponent, big_SetBytes.
  assert (Hgen : forall a, 0 <= a ->
            fold_left (fun e x => Z.lor (Z.shiftl e 8) (int x)) b a =
            fold_left (fun acc x => acc * 256 + int x) b a).
  { induction b as [|x b IH]; intros a Ha; [reflexivity|].
    cbn [fold_left]. rewrite lor_shiftl8 by (try apply int_range; exact Ha).
    apply IH. pose proof (int_range x). lia. }
  apply Hgen. lia.
Qed.

Section Verification.
Context {A : Type} `{keyAgreementAuthentication A} `{CryptoLib}.
Variables (config : Config) (clientHello : clientHelloMsg)
          (serverHello : serverHelloMsg) (cert : x509_Certificate)
          (skx : serverKeyExchangeMsg).

Lemma dhe_processServerKeyExchange_verified
    (ka : dheKeyAgreement.t A) (vp vg vy : Z) (sig : bytes)
    (a : A) (dig : bytes) (verr : option error) :
  dheParams (key skx) = Some (vp, vg, vy, sig) -> 0 < vy < vp ->
  verifyParameters (dheKeyAgreement.auth ka) config clientHello serverHello cert
    (slice_to (key skx) (len (key skx) - len sig)) sig = (a, (dig, verr)) ->
  dheKeyAgreement.processServerKeyExchange ka config clientHello serverHello cert skx =
  (dheKeyAgreement.mk a (Some vp) (Some vg) (Some vy) (dheKeyAgreement.yOurs ka)
     (dheKeyAgreement.xOurs ka) (Some vy) (dheKeyAgreement.yClient ka) verr,
   {| key := key skx; digest := dig |}, surfaced config verr).
Proof.
  unfold dheParams, dheKeyAgreement.processServerKeyExchange, surfaced.
  rewrite (readBigInt_code (key skx)).
  destruct (len (key skx) <? 2); [discriminate|].
  destruct (len (slice_from (key skx) 2) <? be16 (key skx)); [discriminate|].
  set (k1 := slice_from (slice_from (key skx) 2) (be16 (key skx))).
  rewrite (readBigInt_code k1).
  destruct (len k1 <? 2); [discriminate|].
  destruct (len (slice_from k1 2) <? be16 k1); [discriminate|].
  set (k2 := slice_from (slice_from k1 2) (be16 k1)).
  rewrite (readBigInt_code k2).
  destruct (len k2 <? 2); [discriminate|].
  destruct (len (slice_from k2 2) <? be16 k2); [discriminate|].
  intros Hp Hrange. injection Hp as <- <- <- <-.
  rewrite big_Sign_nonpos, big_Cmp_nonneg.
  replace (_ <=? 0) with false by (symmetry; apply Z.leb_gt; lia).
  replace (_ <=? _) with false by (symmetry; apply Z.leb_gt; lia).
  cbn [orb dheKeyAgreement.auth dheKeyAgreement.with_yServer
       dheKeyAgreement.with_yTheirs dheKeyAgreement.with_g dheKeyAgreement.with_p].
  intros ->. destruct (InsecureSkipVerify config); reflexivity.
Qed.

Lemma rsa_processServerKeyExchange_verified
    (ka : rsaKeyAgreement.t A) (n e paramsLen : Z)
    (a : A) (dig : bytes) (verr : option error) :
  rsaKeyAgreement.ephemeral ka = true ->
  rsaParams (key skx) = Some (n, e, paramsLen) ->
  verifyParameters (rsaKeyAgreement.auth ka) config clientHello serverHello cert
    (slice_to (key skx) paramsLen) (slice_from (key skx) paramsLen) = (a, (dig, verr)) ->
  rsaKeyAgreement.processServerKeyExchange ka config clientHello serverHello cert skx =
  (rsaKeyAgreement.mk a (rsaKeyAgreement.version ka) (rsaKeyAgreement.clientVersion ka)
     true (rsaKeyAgreement.privateKey ka) (Some {| rsa_N := n; rsa_E := e |}) verr,
   {| key := key skx; digest := dig |}, surfaced config verr).
Proof.
  destruct ka as [au v cv eph pk pub ve].
  cbn [rsaKeyAgreement.ephemeral rsaKeyAgreement.auth rsaKeyAgreement.version
       rsaKeyAgreement.clientVersion rsaKeyAgreement.privateKey].
  intros ->. unfold rsaParams, rsaKeyAgreement.processServerKeyExchange, surfaced.
  cbn [rsaKeyAgreement.ephemeral negb].
  destruct (key skx) as [|hi [|lo rest]] eqn:Hkey; try discriminate.
  assert (Hlen : (len (hi :: lo :: rest) <? 2) = false).
  { apply Z.ltb_ge. rewrite !len_cons. pose proof (len_nonneg rest). lia. }
  rewrite Hlen, be16_cons. change (slice_from (hi :: lo :: rest) 2) with rest.
  rewrite (Z.ltb_antisym (int hi * 256 + int lo) (len rest)).
  destruct (int hi * 256 + int lo <=? len rest); [|discriminate]. cbn [negb].
  destruct (slice_from rest (int hi * 256 + int lo)) as [|ehi [|elo erest]];
    try discriminate.
  assert (Hlen' : (len (ehi :: elo :: erest) <? 2) = false).
  { apply Z.ltb_ge. rewrite !len_cons. pose proof (len_nonneg erest). lia. }
  rewrite Hlen', be16_cons. change (slice_from (ehi :: elo :: erest) 2) with erest.
  rewrite (Z.ltb_antisym (int ehi * 256 + int elo) (len erest)).
  rewrite (Z.ltb_antisym (int ehi * 256 + int elo) 4).
  destruct (int ehi * 256 + int elo <=? len erest); [|discriminate].
  destruct (int ehi * 256 + int elo <=? 4); [|discriminate].
  cbn [andb orb negb]. intros Hp Hv.
  assert (Hn : big_SetBytes (slice_to rest (int hi * 256 + int lo)) = n) by congruence.
  assert (He : big_SetBytes (slice_to erest (int ehi * 256 + int elo)) = e) by congruence.
  assert (Hl : 2 + (int ehi * 256 + int elo) + 2 + (int hi * 256 + int lo) = paramsLen)
    by congruence.
  clear Hp. rewrite readExponent_SetBytes, Hn, He, Hl.
  cbn [rsaKeyAgreement.auth rsaKeyAgreement.with_publicKey]. rewrite Hv.
  destruct (InsecureSkipVerify config); reflexivity.
Qed.

Lemma ecdhe_processServerKeyExchange_verified
    (ka : ecdheKeyAgreement.t A) (id : CurveID) (c : NamedCurve)
    (pub : option ECDHPublicKey) (n : Z)
    (a : A) (dig : bytes) (verr : option error) :
  ecdheParams ecdh_curve (key skx) = Some (id, c, pub, n) ->
  verifyParameters (ecdheKeyAgreement.auth ka) config clientHello serverHello cert
    (slice_to (key skx) (4 + n)) (slice_from (key skx) (4 + n)) = (a, (dig, verr)) ->
  ecdheKeyAgreement.processServerKeyExchange ka config clientHello serverHello cert skx =
  (ecdheKeyAgreement.mk a (ecdheKeyAgreement.privateKey ka) pub
     (ecdheKeyAgreement.clientPublicKey ka) (Some c) verr id
     (ecdheKeyAgreement.clientPrivKey ka) (ecdheKeyAgreement.serverPrivKey ka)
     (ecdheKeyAgreement.clientX ka) (ecdheKeyAgreement.clientY ka),
   {| key := key skx; digest := dig |}, surfaced config verr).
Proof.
  unfold ecdheParams, ecdheKeyAgreement.processServerKeyExchange, surfaced.
  destruct (key skx) as [|ty [|c1 [|c2 [|pl rest]]]] eqn:Hkey; try discriminate.
  assert (Hlen : (len (ty :: c1 :: c2 :: pl :: rest) <? 4) = false).
  { apply Z.ltb_ge. rewrite !len_cons. pose proof (len_nonneg rest). lia. }
  rewrite Hlen. cbn [at_ nth].
  destruct (int ty =? 3); [|discriminate]. cbn [negb].
  cbn [ecdheKeyAgreement.curveID ecdheKeyAgreement.with_curveID].
  rewrite lor_shiftl8 by (try apply int_range; apply int_range).
  destruct (curveForCurveID (int c1 * 256 + int c2)) as [[cv|] [|]]; try discriminate.
  rewrite (Z.ltb_antisym (int pl + 4) (len (ty :: c1 :: c2 :: pl :: rest))).
  assert (Hle : (int pl + 4 <=? len (ty :: c1 :: c2 :: pl :: rest)) = (int pl <=? len rest)).
  { rewrite !len_cons. destruct (Z.leb_spec (int pl) (len rest));
      [apply Z.leb_le | apply Z.leb_gt]; lia. }
  rewrite Hle. destruct (int pl <=? len rest); [|discriminate]. cbn [negb].
  assert (Hpub : slice_from (slice_to (ty :: c1 :: c2 :: pl :: rest) (4 + int pl)) 4 =
                 slice_to rest (int pl)).
  { unfold slice_from, slice_to. pose proof (int_range pl).
    replace (Z.to_nat (4 + int pl)) with (4 + Z.to_nat (int pl))%nat by lia.
    reflexivity. }
  rewrite Hpub.
  destruct (Unmarshal (ecdh_curve cv) (slice_to rest (int pl))) as [pk [|]];
    [|discriminate].
  intros Hp. injection Hp as <- <- <- <-. cbn [negb].
  cbn [ecdheKeyAgreement.auth ecdheKeyAgreement.with_serverPublicKey
       ecdheKeyAgreement.with_curve ecdheKeyAgreement.with_curveID].
  intros ->. destruct (InsecureSkipVerify config); reflexivity.
Qed.

End Verification.

Section StoredVerifyError.
Context {A : Type} `{keyAgreementAuthentication A} `{CryptoLib}.
Variables (config : Config) (clientHello : clientHelloMsg)
          (serverHello : serverHelloMsg) (cert : x509_Certificate)
          (skx : serverKeyExchangeMsg).

(** C7. In the three key agreements (RSA in ephemeral mode, DHE, ECDHE),
    once the parameters of the ServerKeyExchange have been read,
    [processServerKeyExchange] stores the error of
    [ParameterAuth.verifyParameters] in the field [verifyError] of the state
    and returns it only when [Config.InsecureSkipVerify] is false: with
    [InsecureSkipVerify] the operation returns nil, whatever the
    verification said, and the verification error is still recorded. *)
Theorem processServerKeyExchange_stores_verifyError :
  (forall (ka : rsaKeyAgreement.t A) n e paramsLen,
      rsaKeyAgreement.ephemeral ka = true ->
      rsaParams (key skx) = Some (n, e, paramsLen) ->
      let verr := snd (snd (verifyParameters (rsaKeyAgreement.auth ka) config clientHello
                              serverHello cert (slice_to (key skx) paramsLen)
                              (slice_from (key skx) paramsLen))) in
      let r := rsaKeyAgreement.processServerKeyExchange ka config clientHello
                 serverHello cert skx in
      rsaKeyAgreement.verifyError (fst (fst r)) = verr /\
      snd r = surfaced config verr /\
      (InsecureSkipVerify config = true -> snd r = None)) /\
  (forall (ka : dheKeyAgreement.t A) vp vg vy sig,
      dheParams (key skx) = Some (vp, vg, vy, sig) -> 0 < vy < vp ->
      let verr := snd (snd (verifyParameters (dheKeyAgreement.auth ka) config clientHello
                              serverHello cert
                              (slice_to (key skx) (len (key skx) - len sig)) sig)) in
      let r := dheKeyAgreement.processServerKeyExchange ka config clientHello
                 serverHello cert skx in
      dheKeyAgreement.verifyError (fst (fst r)) = verr /\
      snd r = surfaced config verr /\
      (InsecureSkipVerify config = true -> snd r = None)) /\
  (forall (ka : ecdheKeyAgreement.t A) id c pub n,
      ecdheParams ecdh_curve (key skx) = Some (id, c, pub, n) ->
      let verr := snd (snd (verifyParameters (ecdheKeyAgreement.auth ka) config clientHello
                              serverHello cert (slice_to (key skx) (4 + n))
                              (slice_from (key skx) (4 + n)))) in
      let r := ecdheKeyAgreement.processServerKeyExchange ka config clientHello
                 serverHello cert skx in
      ecdheKeyAgreement.verifyError (fst (fst r)) = verr /\
      snd r = surfaced config verr /\
      (InsecureSkipVerify config = true -> snd r = None)).
Proof.
  split; [|split].
  - intros ka n e paramsLen Heph Hp.
    destruct (verifyParameters (rsaKeyAgreement.auth ka) config clientHello serverHello
                cert (slice_to (key skx) paramsLen) (slice_from (key skx) paramsLen))
      as [a [dig verr]] eqn:Hv.
    cbn zeta. rewrite (rsa_processServerKeyExchange_verified config clientHello
                         serverHello cert skx ka n e paramsLen a dig verr Heph Hp Hv).
    cbn [fst snd rsaKeyAgreement.verifyError]. repeat split.
    intros Hskip. unfold surfaced. rewrite Hskip. reflexivity.
  - intros ka vp vg vy sig Hp Hr.
    destruct (verifyParameters (dheKeyAgreement.auth ka) config clientHello serverHello
                cert (slice_to (key skx) (len (key skx) - len sig)) sig)
      as [a [dig verr]] eqn:Hv.
    cbn zeta. rewrite (dhe_processServerKeyExchange_verified config clientHello
                         serverHello cert skx ka vp vg vy sig a dig verr Hp Hr Hv).
    cbn [fst snd dheKeyAgreement.verifyError]. repeat split.
    intros Hskip. unfold surfaced. rewrite Hskip. reflexivity.
  - intros ka id c pub n Hp.
    destruct (verifyParameters (ecdheKeyAgreement.auth ka) config clientHello serverHello
                cert (slice_to (key skx) (4 + n)) (slice_from (key skx) (4 + n)))
      as [a [dig verr]] eqn:Hv.
    cbn zeta. rewrite (ecdhe_processServerKeyExchange_verified config clientHello
                         serverHello cert skx ka id c pub n a dig verr Hp Hv).
    cbn [fst snd ecdheKeyAgreement.verifyError]. repeat split.
    intros Hskip. unfold surfaced. rewrite Hskip. reflexivity.
Qed.

End StoredVerifyError.

(** Three messages whose signature is rejected, one per key agreement: an
    export-RSA key with modulus 77 and exponent 3, DHE parameters [p = 23],
    [g = 5], [y = 8], and a one-byte point on curve 29.  With
    [InsecureSkipVerify] each operation returns nil and the state holds the
    verification error. *)
Lemma processServerKeyExchange_stores_verifyError_witness :
  let cfg := Sample.config "" true in
  let rsaSkx := {| key := map byte.of_Z [0; 1; 77; 0; 1; 3; 0; 0]; digest := [] |} in
  let dheSkx := {| key := map byte.of_Z [0; 1; 23; 0; 1; 5; 0; 1; 8]; digest := [] |} in
  let ecdheSkx := {| key := map byte.of_Z [3; 0; 29; 1; 9; 0; 0]; digest := [] |} in
  let r1 := rsaKeyAgreement.processServerKeyExchange
              (rsaKeyAgreement.mk Sample.rejecting VersionTLS10 0 true None None None)
              cfg Sample.hello Sample.serverHello Sample.peerCert rsaSkx in
  let r2 := dheKeyAgreement.processServerKeyExchange
              (dheKeyAgreement.mk Sample.rejecting None None None None None None None None)
              cfg Sample.hello Sample.serverHello Sample.peerCert dheSkx in
  let r3 := ecdheKeyAgreement.processServerKeyExchange
              (ecdheKeyAgreement.mk Sample.rejecting None None None None None 0 [] []
                                    None None)
              cfg Sample.hello Sample.serverHello Sample.peerCert ecdheSkx in
  (rsaKeyAgreement.verifyError (fst (fst r1)) = Some Sample.errVerification /\
   snd r1 = None) /\
  (dheKeyAgreement.verifyError (fst (fst r2)) = Some Sample.errVerification /\
   snd r2 = None) /\
  (ecdheKeyAgreement.verifyError (fst (fst r3)) = Some Sample.errVerification /\
   snd r3 = None).
Proof.
  cbn zeta. split; [|split].
  - destruct (proj1 (processServerKeyExchange_stores_verifyError
                (Sample.config "" true) Sample.hello Sample.serverHello Sample.peerCert
                {| key := map byte.of_Z [0; 1; 77; 0; 1; 3; 0; 0]; digest := [] |})
                (rsaKeyAgreement.mk Sample.rejecting VersionTLS10 0 true None None None)
                77 3 6 eq_refl eq_refl) as (Hstored & _ & Hnil).
    split; [exact Hstored | exact (Hnil eq_refl)].
  - destruct (proj1 (proj2 (processServerKeyExchange_stores_verifyError
                (Sample.config "" true) Sample.hello Sample.serverHello Sample.peerCert
                {| key := map byte.of_Z [0; 1; 23; 0; 1; 5; 0; 1; 8]; digest := [] |}))
                (dheKeyAgreement.mk Sample.rejecting None None None None None None None
                                    None)
                23 5 8 [] eq_refl ltac:(lia)) as (Hstored & _ & Hnil).
    split; [exact Hstored | exact (Hnil eq_refl)].
  - destruct (proj2 (proj2 (processServerKeyExchange_stores_verifyError
                (H0 := Sample.lib)
                (Sample.config "" true) Sample.hello Sample.serverHello Sample.peerCert
                {| key := map byte.of_Z [3; 0; 29; 1; 9; 0; 0]; digest := [] |}))
                (ecdheKeyAgreement.mk Sample.rejecting None None None None None 0 [] []
                                      None None)
                29 X25519 (Some {| X := Some 9; Y := None |}) 1 eq_refl)
      as (Hstored & _ & Hnil).
    split; [exact Hstored | exact (Hnil eq_refl)].
Defined.

(** ** The RSA server reads the ClientKeyExchange *)

Section RsaServer.
Import rsaKeyAgreement.
Context {A : Type} `{keyAgreementAuthentication A} `{CryptoLib}.

(** C1, as the code has it.  When the wire-format checks pass, the random
    source delivers the 46 bytes and an RSA private key is at hand, the
    outcome is decided by [rsa.DecryptPKCS1v15SessionKey]: an error of the
    primitive is returned to the caller; without an error the buffer that
    the primitive leaves is the pre-master secret.  When the primitive
    leaves the buffer as it was (what it does for a ciphertext that does not
    decrypt to a well-padded 48-byte key), the secret is 48 bytes long, two
    zero bytes followed by the 46 bytes drawn from the random source, and no
    error is returned. *)
Theorem rsa_processClientKeyExchange_fallback
    (ka : t A) (rnd : RandReader) (config : Config) (cert : Certificate)
    (ckx : clientKeyExchangeMsg) (priv : rsa_PrivateKey)
    (rnd' : RandReader) (out : bytes) (derr : option error) :
  rsaWireOk (version ka) (ciphertext ckx) ->
  (46 <= List.length rnd)%nat ->
  privateKey ka = Some priv \/
  (privateKey ka = None /\ PrivateKey cert = RSAPrivateKey priv) ->
  let buf := [Byte.x00; Byte.x00] ++ firstn 46 rnd in
  rsa_DecryptPKCS1v15SessionKey (skipn 46 rnd) priv
    (rsaBody (version ka) (ciphertext ckx)) buf = (rnd', out, derr) ->
  (forall e, derr = Some e ->
     processClientKeyExchange ka rnd config cert ckx = (rnd', Err e)) /\
  (derr = None ->
     processClientKeyExchange ka rnd config cert ckx = (rnd', Ok out)) /\
  (derr = None -> out = buf ->
     processClientKeyExchange ka rnd config cert ckx = (rnd', Ok buf) /\
     len buf = 48 /\ slice_from buf 2 = firstn 46 rnd).
Proof.
  intros [Hlen Hpre] Hrnd Hkey buf Hdec.
  assert (Hrun : processClientKeyExchange ka rnd config cert ckx =
                 (rnd', match derr with Some e => Err e | None => Ok out end)).
  { unfold processClientKeyExchange, io_ReadFull.
    replace (46 <=? List.length rnd)%nat with true
      by (symmetry; apply Nat.leb_le; exact Hrnd).
    replace (len (ciphertext ckx) <? 2) with false by (symmetry; apply Z.ltb_ge; exact Hlen).
    change (slice_to (repeat Byte.x00 48) 2 ++ firstn 46 rnd) with buf.
    assert (Hbody :
      (if negb (version ka =? VersionSSL30)
       then if negb (be16 (ciphertext ckx) =? len (ciphertext ckx) - 2) then None
            else Some (slice_from (ciphertext ckx) 2)
       else Some (ciphertext ckx)) = Some (rsaBody (version ka) (ciphertext ckx))).
    { unfold rsaBody. destruct (Z.eqb_spec (version ka) VersionSSL30) as [Hv|Hv];
        cbn [negb]; [reflexivity|].
      rewrite (Hpre Hv), Z.eqb_refl. reflexivity. }
    rewrite Hbody.
    destruct Hkey as [Hk|[Hk Hc]]; rewrite Hk; [|rewrite Hc]; rewrite Hdec;
      destruct derr; reflexivity. }
  split; [intros e ->; exact Hrun|].
  split; [intros ->; exact Hrun|].
  intros -> ->. split; [exact Hrun|]. split.
  - unfold buf. rewrite len_app. unfold len. rewrite length_firstn.
    simpl List.length. lia.
  - reflexivity.
Qed.

End RsaServer.

(** A TLS 1.2 ClientKeyExchange of 64 bytes that does not decrypt: the
    secret is two zero bytes and the first 46 bytes of the random source. *)
Lemma rsa_processClientKeyExchange_fallback_witness :
  let ckx := {| ciphertext := put16 64 ++ Sample.counter 64 |} in
  rsaKeyAgreement.processClientKeyExchange (Sample.rsa0 VersionTLS12 false)
    (Sample.counter 50) (Sample.config "" false) Sample.serverCert ckx
  = (skipn 46 (Sample.counter 50),
     Ok ([Byte.x00; Byte.x00] ++ firstn 46 (Sample.counter 50))).
Proof.
  refine (proj1 (proj2 (proj2 (rsa_processClientKeyExchange_fallback
            (Sample.rsa0 VersionTLS12 false) (Sample.counter 50) (Sample.config "" false)
            Sample.serverCert {| ciphertext := put16 64 ++ Sample.counter 64 |}
            Sample.rsaKey (skipn 46 (Sample.counter 50))
            ([Byte.x00; Byte.x00] ++ firstn 46 (Sample.counter 50)) None
            _ _ _ _)) eq_refl eq_refl)).
  - split; [vm_compute; discriminate | intros _; vm_compute; reflexivity].
  - vm_compute. repeat constructor.
  - right. split; reflexivity.
  - vm_compute. reflexivity.
Defined.

(** C1, counterexample.  A TLS 1.2 ClientKeyExchange that passes the
    wire-format checks and whose ciphertext has 65 bytes FF: read as a
    number it is larger than the 512-bit modulus of the server's key.  The
    random source delivers its 46 bytes and the RSA key of the certificate
    is at hand, but [rsa.DecryptPKCS1v15SessionKey] reports its decryption
    error for a ciphertext that is not below the modulus, and
    [processClientKeyExchange] returns that error to the caller instead of
    a 48-byte secret. *)
Lemma rsa_processClientKeyExchange_reports_errors :
  let long := {| ciphertext := put16 65 ++ repeat Byte.xff 65 |} in
  rsaWireOk VersionTLS12 (ciphertext long) /\
  len (Sample.counter 50) = 50 /\
  PrivateKey Sample.serverCert = RSAPrivateKey Sample.rsaKey /\
  rsa_N (rsa_pub Sample.rsaKey) < big_SetBytes (repeat Byte.xff 65) /\
  rsaKeyAgreement.processClientKeyExchange (Sample.rsa0 VersionTLS12 false)
    (Sample.counter 50) (Sample.config "" false) Sample.serverCert long
  = (skipn 46 (Sample.counter 50), Err (lib_error "crypto/rsa: decryption error")).
Proof.
  cbv zeta.
  split; [split; [vm_compute; discriminate | intros _; vm_compute; reflexivity]|].
  split; [vm_compute; reflexivity|].
  split; [reflexivity|].
  split; vm_compute; reflexivity.
Qed.

(** ** The RSA client builds the ClientKeyExchange *)

Lemma be16_put16 (n : Z) (rest : bytes) :
  0 <= n < 65536 -> be16 (put16 n ++ rest) = n.
Proof.
  intros Hn. unfold put16. cbn [app]. rewrite be16_cons, !int_of_Z.
  rewrite Z.shiftr_div_pow2 by lia. change (2 ^ 8) with 256.
  rewrite (Z.mod_small (n / 256) 256).
  - pose proof (Z.div_mod n 256). lia.
  - split; [apply Z.div_pos; lia | apply Z.div_lt_upper_bound; lia].
Qed.

Section RsaClient.
Import rsaKeyAgreement.
Context {A : Type} `{keyAgreementAuthentication A} `{CryptoLib}.

(** C9. When the random source delivers 46 bytes, an RSA public key is at
    hand and the encryption succeeds, [generateClientKeyExchange] returns a
    48-byte pre-master secret whose first two bytes are [clientHello.vers]
    in big-endian order and whose other 46 bytes are those drawn from the
    random source; the message is the RSA-PKCS1v15 encryption of that
    buffer, with its 16-bit big-endian length in front exactly when the
    negotiated version is not SSL 3.0. *)
Theorem rsa_generateClientKeyExchange_secret_and_message
    (ka : t A) (rnd : RandReader) (config : Config) (clientHello : clientHelloMsg)
    (cert : x509_Certificate) (pub : rsa_PublicKey)
    (rnd' : RandReader) (encrypted : bytes) :
  0 <= vers clientHello < 65536 ->
  (46 <= List.length rnd)%nat ->
  publicKey ka = Some pub \/
  (publicKey ka = None /\ PublicKey cert = RSAPublicKey pub) ->
  let secret := put16 (vers clientHello) ++ firstn 46 rnd in
  rsa_EncryptPKCS1v15 (skipn 46 rnd) pub secret = (rnd', Ok encrypted) ->
  exists ckx,
    generateClientKeyExchange ka rnd config clientHello cert = (rnd', Ok (secret, ckx)) /\
    len secret = 48 /\
    be16 secret = vers clientHello /\
    slice_from secret 2 = firstn 46 rnd /\
    (version ka <> VersionSSL30 ->
     ciphertext ckx = put16 (len encrypted) ++ encrypted /\
     (len encrypted < 65536 -> be16 (ciphertext ckx) = len encrypted)) /\
    (version ka = VersionSSL30 -> ciphertext ckx = encrypted).
Proof.
  intros Hvers Hrnd Hkey secret Henc.
  exists (if negb (version ka =? VersionSSL30)
          then {| ciphertext := put16 (len encrypted) ++ encrypted |}
          else {| ciphertext := encrypted |}).
  split; [|split; [|split; [|split; [|split]]]].
  - unfold generateClientKeyExchange, io_ReadFull.
    replace (46 <=? List.length rnd)%nat with true
      by (symmetry; apply Nat.leb_le; exact Hrnd).
    change ([byte.of_Z (Z.shiftr (vers clientHello) 8); byte.of_Z (vers clientHello)]
              ++ firstn 46 rnd) with secret.
    destruct Hkey as [Hk|[Hk Hc]]; rewrite Hk; [|rewrite Hc]; rewrite Henc; reflexivity.
  - unfold secret. rewrite len_app. unfold len. rewrite length_firstn.
    simpl List.length. lia.
  - apply be16_put16. exact Hvers.
  - reflexivity.
  - intros Hv. apply Z.eqb_neq in Hv. rewrite Hv. cbn [negb ciphertext].
    split; [reflexivity|]. intros Hlen. apply be16_put16.
    split; [apply len_nonneg | exact Hlen].
  - intros Hv. apply Z.eqb_eq in Hv. rewrite Hv. reflexivity.
Qed.

End RsaClient.

(** A TLS 1.2 client with a 64-byte modulus: the secret starts with 03 03
    and the message starts with the length 64. *)
Lemma rsa_generateClientKeyExchange_secret_and_message_witness :
  exists ckx,
    rsaKeyAgreement.generateClientKeyExchange (Sample.rsa0 VersionTLS12 false)
      (Sample.counter 70) (Sample.config "" false) Sample.hello Sample.peerCert
    = (skipn 59 (Sample.counter 70),
       Ok (put16 VersionTLS12 ++ firstn 46 (Sample.counter 70), ckx)) /\
    be16 (ciphertext ckx) = 64.
Proof.
  destruct (rsa_generateClientKeyExchange_secret_and_message
              (Sample.rsa0 VersionTLS12 false) (Sample.counter 70) (Sample.config "" false)
              Sample.hello Sample.peerCert (rsa_pub Sample.rsaKey)
              (skipn 59 (Sample.counter 70))
              (byte.of_Z 0 :: byte.of_Z 2 :: firstn 13 (skipn 46 (Sample.counter 70)) ++
               byte.of_Z 0 :: put16 VersionTLS12 ++ firstn 46 (Sample.counter 70)))
    as (ckx & Hrun & _ & _ & _ & Hpre & _).
  - vm_compute. split; [discriminate | reflexivity].
  - vm_compute. repeat constructor.
  - right. split; reflexivity.
  - vm_compute. reflexivity.
  - exists ckx. split; [exact Hrun|].
    destruct (Hpre ltac:(discriminate)) as [_ Hlen]. rewrite Hlen; reflexivity.
Defined.

(** ** The option loop of the ECDHE client *)

Section OptionLoop.
Import ecdheKeyAgreement.

Lemma applyOption_unknown (opt : string) (o : kexOptions) :
  ~ In opt ecdheTokens -> applyOption opt o = None.
Proof.
  intros Hno. unfold applyOption.
  repeat match goal with
  | |- context [String.eqb opt ?s] =>
      destruct (String.eqb_spec opt s) as [->|_];
      [exfalso; apply Hno; unfold ecdheTokens; simpl; tauto|]
  end.
  reflexivity.
Qed.

Lemma applyOption_known (opt : string) (o : kexOptions) :
  In opt ecdheTokens -> applyOption opt o <> None.
Proof.
  unfold ecdheTokens. simpl.
  intros Hin. repeat (destruct Hin as [<-|Hin]; [discriminate|]). contradiction.
Qed.

Lemma applyOption_payload (opt : string) (x : Z) (o : kexOptions) :
  payloadX opt = Some x ->
  exists o', applyOption opt o = Some o' /\
             staticKex o' = true /\ mx o' = Some x /\ compress o' = compress o /\
             (optCurveID o' = Curve25519 \/ optCurveID o' = CurveP256r1 \/
              optCurveID o' = CurveP224r1).
Proof.
  unfold payloadX, applyOption.
  repeat match goal with
  | |- context [String.eqb opt ?s] => destruct (String.eqb opt s)
  end; cbn; try discriminate;
  intros Hx; injection Hx as <-; eexists; (split; [reflexivity|]); cbn; auto 6.
Qed.

Lemma applyOption_neutral (opt : string) (o : kexOptions) :
  neutral opt ->
  exists o', applyOption opt o = Some o' /\
             staticKex o' = staticKex o /\ mx o' = mx o /\ my o' = my o /\
             optCurveID o' = optCurveID o.
Proof.
  intros [->| ->]; eexists; (split; [reflexivity|]); cbn; auto.
Qed.

Lemma scanOptions_app (l1 l2 : list string) (o : kexOptions) :
  scanOptions (l1 ++ l2) o =
  (if snd (scanOptions l1 o) then scanOptions l2 (fst (scanOptions l1 o))
   else scanOptions l1 o).
Proof.
  revert o. induction l1 as [|a l1 IH]; intros o; [reflexivity|].
  cbn [app scanOptions]. destruct (applyOption a o) as [o'|]; [apply IH | reflexivity].
Qed.

Lemma scanOptions_known (l : list string) : forall o,
  Forall (fun t => In t ecdheTokens) l -> snd (scanOptions l o) = true.
Proof.
  induction l as [|a l IH]; intros o Hl; [reflexivity|].
  inversion Hl as [|? ? Ha Hrest]; subst. cbn [scanOptions].
  destruct (applyOption a o) as [o'|] eqn:E; [apply IH; exact Hrest|].
  exfalso. exact (applyOption_known a o Ha E).
Qed.

Lemma scanOptions_unknown (l : list string) : forall o,
  (exists opt, In opt l /\ ~ In opt ecdheTokens) -> snd (scanOptions l o) = false.
Proof.
  induction l as [|a l IH]; intros o (opt & Hin & Hno); [contradiction|].
  cbn [scanOptions]. destruct (applyOption a o) as [o'|] eqn:E; [|reflexivity].
  apply IH. exists opt. split; [|exact Hno].
  destruct Hin as [<-|Hin]; [|exact Hin].
  rewrite (applyOption_unknown a o Hno) in E. discriminate.
Qed.

Lemma scanOptions_neutral (l : list string) : forall o,
  Forall neutral l ->
  snd (scanOptions l o) = true /\
  staticKex (fst (scanOptions l o)) = staticKex o /\
  mx (fst (scanOptions l o)) = mx o /\
  my (fst (scanOptions l o)) = my o /\
  optCurveID (fst (scanOptions l o)) = optCurveID o.
Proof.
  induction l as [|a l IH]; intros o Hl; [repeat split|].
  inversion Hl as [|? ? Ha Hrest]; subst. cbn [scanOptions].
  destruct (applyOption_neutral a o Ha) as (o' & -> & Hs & Hx & Hy & Hc).
  destruct (IH o' Hrest) as (H1 & H2 & H3 & H4 & H5).
  rewrite H1, H2, H3, H4, H5. auto.
Qed.

(** A list of options whose last payload option is [opt], with recognised
    options before it and neutral options after it, leaves the loop with the
    payload of [opt]. *)
Lemma scanOptions_payload (pre post : list string) (opt : string) (x : Z) (o : kexOptions) :
  Forall (fun t => In t ecdheTokens) pre -> payloadX opt = Some x -> Forall neutral post ->
  let r := scanOptions (pre ++ opt :: post) o in
  snd r = true /\ staticKex (fst r) = true /\ mx (fst r) = Some x /\
  (optCurveID (fst r) = Curve25519 \/ optCurveID (fst r) = CurveP256r1 \/
   optCurveID (fst r) = CurveP224r1) /\
  (opt = "X25519_INVALID_S2" -> optCurveID (fst r) = Curve25519).
Proof.
  intros Hpre Hx Hpost. cbn zeta. rewrite scanOptions_app, (scanOptions_known pre o Hpre).
  set (o1 := fst (scanOptions pre o)). cbn [scanOptions].
  destruct (applyOption_payload opt x o1 Hx) as (o2 & E & Hs & Hm & _ & Hc).
  assert (H25519 : opt = "X25519_INVALID_S2" -> optCurveID o2 = Curve25519).
  { intros ->. cbn in E. injection E as <-. reflexivity. }
  rewrite E.
  destruct (scanOptions_neutral post o2 Hpost) as (H1 & H2 & H3 & _ & H5).
  rewrite H1, H2, H3, H5. auto.
Qed.

End OptionLoop.

(** ** The ECDHE and DHE clients build the ClientKeyExchange *)

Section EcdheClient.
Import ecdheKeyAgreement.
Context {A : Type} `{keyAgreementAuthentication A} `{CryptoLib}.
Variables (ka : t A) (rnd : RandReader) (config : Config)
          (clientHello : clientHelloMsg) (cert : x509_Certificate).

(** C2, as the code has it.  After a ServerKeyExchange, when the options of
    [Config.KexConfig] are recognised and the last static-payload option is
    [opt] with X coordinate [x], the ECDHE client draws nothing from the
    random source, holds no private key afterwards, records the payload
    point as its public key and returns the big-endian bytes of [x] as the
    pre-master secret; the message is the marshalled payload point behind
    its length, so nothing of the result comes from a key generation or a
    shared-secret computation.  For [X25519_INVALID_S2] the curve is X25519
    and [x] is 0, whose bytes are the empty slice: the pre-master secret is
    empty. *)
Theorem ecdhe_generateClientKeyExchange_static_payload
    (c : NamedCurve) (pre post : list string) (opt : string) (x : Z) :
  curve ka = Some c ->
  strings_Split_comma (KexConfig config) = pre ++ opt :: post ->
  Forall (fun t => In t ecdheTokens) pre ->
  payloadX opt = Some x ->
  Forall neutral post ->
  let r := generateClientKeyExchange ka rnd config clientHello cert in
  snd (fst r) = rnd /\
  privateKey (fst (fst r)) = None /\
  (exists y cv cmp,
      clientPublicKey (fst (fst r)) = Some {| X := Some x; Y := y |} /\
      curve (fst (fst r)) = Some cv /\
      let serialized := Marshal (ecdh_curve cv) (Some {| X := Some x; Y := y |}) cmp in
      snd r = Ok (big_Bytes x,
                  {| ciphertext := byte.of_Z (len serialized) :: serialized |})) /\
  (opt = "X25519_INVALID_S2" ->
   x = 0 /\ curveID (fst (fst r)) = Curve25519 /\ curve (fst (fst r)) = Some X25519 /\
   exists ckx, snd r = Ok ([], ckx)).
Proof.
  intros Hc Hsplit Hpre Hx Hpost.
  destruct (scanOptions_payload pre post opt x
              (mkOptions false false None None (curveID ka)) Hpre Hx Hpost)
    as (Hrec & Hstatic & Hmx & Hid & H25519).
  cbn zeta. unfold generateClientKeyExchange. rewrite Hc, Hsplit.
  destruct (scanOptions (pre ++ opt :: post) _) as [o recognized].
  cbn [fst snd] in Hrec, Hstatic, Hmx, Hid, H25519. subst recognized.
  cbn [negb]. rewrite Hstatic, Hmx.
  cbn [curve curveID with_curveID with_curve with_privateKey with_clientPublicKey].
  assert (Hcurve : exists cv, fst (curveForCurveID (optCurveID o)) = Some cv).
  { destruct Hid as [->|[->| ->]]; eexists; reflexivity. }
  destruct Hcurve as [cv Hcv]. rewrite Hcv.
  cbn [fst snd privateKey clientPublicKey curveID curve].
  split; [reflexivity|]. split; [reflexivity|].
  split; [exists (my o), cv, (compress o); repeat split; reflexivity|].
  intros Hopt. assert (x = 0) as -> by (rewrite Hopt in Hx; cbn in Hx; congruence).
  split; [reflexivity|]. split; [exact (H25519 Hopt)|].
  split; [|eexists; reflexivity].
  rewrite (H25519 Hopt) in Hcv. cbn in Hcv. rewrite Hcv. reflexivity.
Qed.

Lemma ecdhe_unknown_option_panics (c : NamedCurve) :
  curve ka = Some c ->
  (exists opt, In opt (strings_Split_comma (KexConfig config)) /\ ~ In opt ecdheTokens) ->
  snd (generateClientKeyExchange ka rnd config clientHello cert) =
  Panic "unrecognized tls-kex-config option" /\
  snd (fst (generateClientKeyExchange ka rnd config clientHello cert)) = rnd.
Proof.
  intros Hc Hunknown. unfold generateClientKeyExchange. rewrite Hc.
  pose proof (scanOptions_unknown (strings_Split_comma (KexConfig config))
                (mkOptions false false None None (curveID ka)) Hunknown) as Hrec.
  destruct (scanOptions _ _) as [o recognized]. cbn [snd] in Hrec. subst recognized.
  split; reflexivity.
Qed.

End EcdheClient.

Section DheClientExchange.
Import dheKeyAgreement.
Context {A : Type} `{keyAgreementAuthentication A} `{CryptoLib}.
Variables (ka : t A) (rnd : RandReader) (config : Config)
          (clientHello : clientHelloMsg) (cert : x509_Certificate).

(** A value of [KexConfig] outside the six DHE tokens selects the [default]
    case: the ordinary exchange with an exponent drawn by [rand.Int]. *)
Lemma dhe_unknown_value_is_default (fuel : nat) (vp vg vy : Z) :
  p ka = Some vp -> g ka = Some vg -> yTheirs ka = Some vy ->
  ~ In (KexConfig config) dheTokens ->
  generateClientKeyExchange fuel ka rnd config clientHello cert =
  match rand_Int rnd vp with
  | (rnd', Panic m) => Some (ka, rnd', Panic m)
  | (rnd', Err _) => Some (ka, rnd', Panic "nil pointer dereference")
  | (rnd', Ok x) =>
      let yOurs := big_Exp vg x vp in
      Some (mk (auth ka) (Some vp) (Some vg) (Some vy) (Some yOurs) (Some x)
               (yServer ka) (Some yOurs) (verifyError ka),
            rnd',
            Ok (big_Bytes (big_Exp vy x vp),
                {| ciphertext := put16 (len (big_Bytes yOurs)) ++ big_Bytes yOurs |}))
  end.
Proof.
  destruct ka as [au kp kg ky kyo kx kys kyc kve]. cbn [p g yTheirs auth yServer verifyError].
  intros -> -> -> Hno. unfold generateClientKeyExchange. cbn [p g yTheirs].
  repeat match goal with
  | |- context [String.eqb (KexConfig config) ?s] =>
      destruct (String.eqb_spec (KexConfig config) s) as [Heq|_];
      [exfalso; apply Hno; rewrite Heq; unfold dheTokens; simpl; tauto|]
  end.
  destruct (rand_Int rnd vp) as [rnd' [x|e|m]]; reflexivity.
Qed.

End DheClientExchange.

(** C4, as the code has it.  In the ECDHE client, after a ServerKeyExchange,
    an option of [Config.KexConfig] outside the enumerated ECDHE options is
    fatal: [generateClientKeyExchange] panics with "unrecognized
    tls-kex-config option" before anything is drawn from the random source.
    In the DHE client a value outside the six DHE tokens is not an error: it
    selects the ordinary exchange, and when [rand.Int] delivers the exponent
    [x] the operation succeeds with the public value [g^x mod p] and the
    pre-master secret [yTheirs^x mod p]. *)
Theorem generateClientKeyExchange_unknown_KexConfig
    {A : Type} `{keyAgreementAuthentication A} `{CryptoLib}
    (rnd : RandReader) (config : Config) (clientHello : clientHelloMsg)
    (cert : x509_Certificate) :
  (forall (ka : ecdheKeyAgreement.t A) c,
      ecdheKeyAgreement.curve ka = Some c ->
      (exists opt, In opt (strings_Split_comma (KexConfig config)) /\
                   ~ In opt ecdheTokens) ->
      snd (ecdheKeyAgreement.generateClientKeyExchange ka rnd config clientHello cert) =
      Panic "unrecognized tls-kex-config option" /\
      snd (fst (ecdheKeyAgreement.generateClientKeyExchange ka rnd config clientHello cert))
      = rnd) /\
  (forall (ka : dheKeyAgreement.t A) fuel vp vg vy rnd' x,
      dheKeyAgreement.p ka = Some vp -> dheKeyAgreement.g ka = Some vg ->
      dheKeyAgreement.yTheirs ka = Some vy ->
      ~ In (KexConfig config) dheTokens ->
      rand_Int rnd vp = (rnd', Ok x) ->
      exists ka',
        dheKeyAgreement.generateClientKeyExchange fuel ka rnd config clientHello cert =
        Some (ka', rnd',
              Ok (big_Bytes (big_Exp vy x vp),
                  {| ciphertext := put16 (len (big_Bytes (big_Exp vg x vp))) ++
                                   big_Bytes (big_Exp vg x vp) |})) /\
        dheKeyAgreement.xOurs ka' = Some x /\
        dheKeyAgreement.yOurs ka' = Some (big_Exp vg x vp)).
Proof.
  split.
  - intros ka c Hc Hunknown.
    exact (ecdhe_unknown_option_panics ka rnd config clientHello cert c Hc Hunknown).
  - intros ka fuel vp vg vy rnd' x Hp Hg Hy Hno Hrand.
    rewrite (dhe_unknown_value_is_default ka rnd config clientHello cert fuel vp vg vy
               Hp Hg Hy Hno), Hrand.
    eexists. split; [reflexivity|]. split; reflexivity.
Qed.

(** Both clients configured with a value that no variant knows.  The ECDHE
    client panics.  The DHE client with [p = 23], [g = 5] and the server
    value 8 draws [x = 3] and succeeds: it sends [5^3 mod 23 = 10] and
    derives [8^3 mod 23 = 6]. *)
Lemma generateClientKeyExchange_unknown_KexConfig_witness :
  (snd (ecdheKeyAgreement.generateClientKeyExchange
          (ecdheKeyAgreement.with_curve Sample.ecdhe0 (Some X25519))
          (map byte.of_Z [3; 9]) (Sample.config "bogus" false) Sample.hello
          Sample.peerCert)
   = Panic "unrecognized tls-kex-config option") /\
  exists ka',
    dheKeyAgreement.generateClientKeyExchange 0
      (dheKeyAgreement.mk nilAuth (Some 23) (Some 5) (Some 8) None None (Some 8) None None)
      (map byte.of_Z [3; 9]) (Sample.config "bogus" false) Sample.hello Sample.peerCert
    = Some (ka', map byte.of_Z [9],
            Ok (map byte.of_Z [6], {| ciphertext := map byte.of_Z [0; 1; 10] |})) /\
    dheKeyAgreement.xOurs ka' = Some 3 /\
    dheKeyAgreement.yOurs ka' = Some 10.
Proof.
  split.
  - refine (proj1 (proj1 (generateClientKeyExchange_unknown_KexConfig
              (map byte.of_Z [3; 9]) (Sample.config "bogus" false) Sample.hello
              Sample.peerCert)
              (ecdheKeyAgreement.with_curve Sample.ecdhe0 (Some X25519)) X25519
              eq_refl _)).
    exists "bogus". split; [left; reflexivity|].
    unfold ecdheTokens. simpl. intros Hin.
    repeat (destruct Hin as [Hin|Hin]; [discriminate Hin|]). exact Hin.
  - refine (proj2 (generateClientKeyExchange_unknown_KexConfig
              (map byte.of_Z [3; 9]) (Sample.config "bogus" false) Sample.hello
              Sample.peerCert)
              (dheKeyAgreement.mk nilAuth (Some 23) (Some 5) (Some 8) None None (Some 8)
                                  None None)
              0%nat 23 5 8 (map byte.of_Z [9]) 3 eq_refl eq_refl eq_refl _ _).
    + unfold dheTokens. simpl. intros Hin.
      repeat (destruct Hin as [Hin|Hin]; [discriminate Hin|]). exact Hin.
    + vm_compute. reflexivity.
Defined.

(** C4, counterexample.  "bogus" is neither a DHE token nor an ECDHE option,
    and the DHE client configured with it does not fail: it returns a
    pre-master secret and a ClientKeyExchange message. *)
Lemma dhe_generateClientKeyExchange_accepts_unknown :
  (~ In "bogus" dheTokens /\ ~ In "bogus" ecdheTokens) /\
  dheKeyAgreement.generateClientKeyExchange 0
    (dheKeyAgreement.mk nilAuth (Some 23) (Some 5) (Some 8) None None (Some 8) None None)
    (map byte.of_Z [3; 9]) (Sample.config "bogus" false) Sample.hello Sample.peerCert
  = Some (dheKeyAgreement.mk nilAuth (Some 23) (Some 5) (Some 8) (Some 10) (Some 3)
                             (Some 8) (Some 10) None,
          map byte.of_Z [9],
          Ok (map byte.of_Z [6], {| ciphertext := map byte.of_Z [0; 1; 10] |})).
Proof.
  split; [split|].
  - unfold dheTokens. simpl. intros Hin.
    repeat (destruct Hin as [Hin|Hin]; [discriminate Hin|]). exact Hin.
  - unfold ecdheTokens. simpl. intros Hin.
    repeat (destruct Hin as [Hin|Hin]; [discriminate Hin|]). exact Hin.
  - vm_compute. reflexivity.
Qed.

(** An ECDHE client on X25519 configured with "COMPRESS,X25519_INVALID_S2". *)
Lemma ecdhe_generateClientKeyExchange_static_payload_witness :
  exists ckx,
    snd (ecdheKeyAgreement.generateClientKeyExchange
           (ecdheKeyAgreement.with_curve Sample.ecdhe0 (Some X25519))
           (Sample.counter 8) (Sample.config "COMPRESS,X25519_INVALID_S2" false)
           Sample.hello Sample.peerCert)
    = Ok ([], ckx).
Proof.
  refine (proj2 (proj2 (proj2 (proj2 (proj2 (proj2
            (ecdhe_generateClientKeyExchange_static_payload
               (ecdheKeyAgreement.with_curve Sample.ecdhe0 (Some X25519))
               (Sample.counter 8) (Sample.config "COMPRESS,X25519_INVALID_S2" false)
               Sample.hello Sample.peerCert X25519 ["COMPRESS"] [] "X25519_INVALID_S2" 0
               eq_refl eq_refl _ eq_refl (Forall_nil _)))) eq_refl)))).
  constructor; [|constructor]. left. reflexivity.
Defined.

(** C2, counterexample.  With [KexConfig = "X25519_INVALID_S2"] the client
    sends X = 0 and the pre-master secret is the empty slice, not the single
    byte 0x00; and a configuration that contains the token followed by
    another payload option sends the later payload (X = 1). *)
Lemma ecdhe_generateClientKeyExchange_S2_secret_is_empty :
  let run kex :=
    ecdheKeyAgreement.generateClientKeyExchange
      (ecdheKeyAgreement.with_curve Sample.ecdhe0 (Some X25519))
      (Sample.counter 8) (Sample.config kex false) Sample.hello Sample.peerCert in
  ((exists ckx, snd (run "X25519_INVALID_S2") = Ok ([], ckx)) /\
   ecdheKeyAgreement.clientPublicKey (fst (fst (run "X25519_INVALID_S2"))) =
   Some {| X := Some 0; Y := None |} /\
   forall ckx, snd (run "X25519_INVALID_S2") <> Ok ([Byte.x00], ckx)) /\
  (exists ckx, snd (run "X25519_INVALID_S2,X25519_INVALID_S4") = Ok ([Byte.x01], ckx)) /\
  ecdheKeyAgreement.clientPublicKey
    (fst (fst (run "X25519_INVALID_S2,X25519_INVALID_S4"))) =
  Some {| X := Some 1; Y := None |}.
Proof.
  split; [split; [|split]|split].
  - eexists. vm_compute. reflexivity.
  - vm_compute. reflexivity.
  - intros ckx. vm_compute. discriminate.
  - eexists. vm_compute. reflexivity.
  - vm_compute. reflexivity.
Qed.

(** * Further properties of the key agreements *)

(** ** Length-prefixed integers on the wire *)

Lemma firstn_length_app {T : Type} (b rest : list T) :
  firstn (List.length b) (b ++ rest) = b.
Proof. induction b as [|x b IH]; [destruct rest; reflexivity | simpl; f_equal; exact IH]. Qed.

Lemma skipn_length_app {T : Type} (b rest : list T) :
  skipn (List.length b) (b ++ rest) = rest.
Proof. induction b as [|x b IH]; [reflexivity | exact IH]. Qed.

Lemma slice_to_len_app {T : Type} (b rest : list T) : slice_to (b ++ rest) (len b) = b.
Proof. unfold slice_to, len. rewrite Nat2Z.id. apply firstn_length_app. Qed.

Lemma slice_from_len_app {T : Type} (b rest : list T) : slice_from (b ++ rest) (len b) = rest.
Proof. unfold slice_from, len. rewrite Nat2Z.id. apply skipn_length_app. Qed.

Lemma put16_value (n : Z) :
  0 <= n < 65536 ->
  int (byte.of_Z (Z.shiftr n 8)) * 256 + int (byte.of_Z n) = n.
Proof.
  intros Hn. rewrite <- (be16_put16 n [] Hn) at 3. unfold put16. cbn [app].
  rewrite be16_cons. reflexivity.
Qed.

(** A field written as [put16 (len b) ++ b] is read back as the integer of
    [b], and the reader stops right behind it. *)
Lemma readBigInt_put16 (b rest : bytes) :
  len b < 65536 ->
  readBigInt (put16 (len b) ++ b ++ rest) = Some (big_SetBytes b, rest).
Proof.
  intros Hb. unfold put16. cbn [app readBigInt].
  rewrite put16_value by (split; [apply len_nonneg | exact Hb]).
  rewrite len_app. replace (len b <=? len b + len rest) with true.
  - rewrite slice_to_len_app, slice_from_len_app. reflexivity.
  - symmetry. apply Z.leb_le. pose proof (len_nonneg rest). lia.
Qed.

(** The number of bytes of [Bytes]: a value below [256^n] has at most [n]
    bytes. *)
Lemma Bytes_len_bound (v n : Z) : 0 <= n -> 0 <= v < 256 ^ n -> len (big_Bytes v) <= n.
Proof.
  intros Hn Hv. unfold big_Bytes.
  destruct (Z.eq_dec v 0) as [->|Hnz]; [simpl; exact Hn|].
  destruct (natBytes_head (S (Z.to_nat (Z.log2 (Z.abs v)))) (Z.abs v) [])
    as (x & rest & Heq & Hx).
  { split; [lia | apply fuel_enough; lia]. }
  assert (Hdec : big_SetBytes (x :: rest) = v).
  { rewrite <- Heq. change (big_SetBytes (big_Bytes v) = v). apply SetBytes_Bytes. lia. }
  rewrite Heq, len_cons. rewrite SetBytes_cons in Hdec.
  pose proof (SetBytes_range rest) as Hr. pose proof (int_range x) as Hxr.
  pose proof (len_nonneg rest) as Hl.
  destruct (Z_lt_le_dec (len rest) n) as [Hlt|Hle]; [lia|].
  exfalso. assert (256 ^ n <= 256 ^ len rest) by (apply Z.pow_le_mono_r; lia). nia.
Qed.

Lemma Bytes_len_mono (a b : Z) : 0 <= a <= b -> len (big_Bytes a) <= len (big_Bytes b).
Proof.
  intros Hab. apply Bytes_len_bound; [apply len_nonneg|].
  pose proof (SetBytes_range (big_Bytes b)) as Hr.
  rewrite SetBytes_Bytes in Hr by lia. lia.
Qed.

(** Writing the three DHE parameters and reading them back. *)
Lemma dheParams_serverDHParams (vp vg vy : Z) (sig : bytes) :
  0 <= vp -> 0 <= vg -> 0 <= vy ->
  len (big_Bytes vp) < 65536 -> len (big_Bytes vg) < 65536 ->
  len (big_Bytes vy) < 65536 ->
  dheParams (dheKeyAgreement.serverDHParams vp vg vy ++ sig) = Some (vp, vg, vy, sig).
Proof.
  intros Hp Hg Hy Lp Lg Ly. unfold dheParams, dheKeyAgreement.serverDHParams. cbn zeta.
  rewrite <- !app_assoc.
  rewrite readBigInt_put16 by exact Lp.
  rewrite readBigInt_put16 by exact Lg.
  rewrite readBigInt_put16 by exact Ly.
  rewrite !SetBytes_Bytes by assumption. reflexivity.
Qed.

(** ** The DHE server and the fixed group *)

Lemma group_p_len : len (big_Bytes dheKeyAgreement.group_p) = 256.
Proof. vm_compute. reflexivity. Qed.

Lemma group_g_len : len (big_Bytes dheKeyAgreement.group_g) = 256.
Proof. vm_compute. reflexivity. Qed.

Lemma group_p_pos : 1 < dheKeyAgreement.group_p.
Proof. vm_compute. reflexivity. Qed.

Lemma group_g_range : 0 < dheKeyAgreement.group_g < dheKeyAgreement.group_p.
Proof. split; vm_compute; reflexivity. Qed.

Lemma group_coprime : Z.gcd dheKeyAgreement.group_g dheKeyAgreement.group_p = 1.
Proof. vm_compute. reflexivity. Qed.

(** A power of a unit modulo [m] is never zero modulo [m]. *)
Lemma pow_mod_unit (b m x : Z) :
  1 < m -> Z.gcd b m = 1 -> 0 <= x -> 0 < b ^ x mod m < m.
Proof.
  intros Hm Hgcd Hx. pose proof (Z.mod_pos_bound (b ^ x) m ltac:(lia)) as Hr.
  split; [|lia]. destruct (Z.eq_dec (b ^ x mod m) 0) as [Hz|Hz]; [|lia].
  exfalso. apply Z.mod_divide in Hz; [|lia].
  assert (Hco : Z.gcd m (b ^ x) = 1).
  { apply Zdivisibility.Z.coprime_pow_r; [exact Hx|].
    unfold Zdivisibility.Z.coprime. rewrite Z.gcd_comm. exact Hgcd. }
  apply Z.divide_gcd_iff in Hz; lia.
Qed.

(** Both sides of a Diffie-Hellman exchange compute the same power. *)
Lemma dh_agreement (b m x y : Z) :
  0 < m -> 0 <= x -> 0 <= y ->
  (b ^ x mod m) ^ y mod m = (b ^ y mod m) ^ x mod m.
Proof.
  intros Hm Hx Hy.
  rewrite <- !Zpow_facts.Zpower_mod by exact Hm.
  rewrite <- !Z.pow_mul_r by assumption. f_equal. f_equal. lia.
Qed.

Lemma group_value_len (v : Z) :
  0 <= v < dheKeyAgreement.group_p -> len (big_Bytes v) < 65536.
Proof.
  intros Hv. pose proof (Bytes_len_mono v dheKeyAgreement.group_p ltac:(lia)) as Hl.
  rewrite group_p_len in Hl. lia.
Qed.

Lemma group_public_range (x : Z) :
  0 <= x ->
  0 < big_Exp dheKeyAgreement.group_g x dheKeyAgreement.group_p < dheKeyAgreement.group_p.
Proof.
  intros Hx. pose proof group_p_pos as Hp.
  rewrite big_Exp_pos_modulus by lia.
  apply pow_mod_unit; [exact Hp | exact group_coprime | exact Hx].
Qed.

Section DheServerSide.
Import dheKeyAgreement.
Context {A : Type} `{keyAgreementAuthentication A} `{CryptoLib}.

(** The run of the DHE server when [rand.Int] delivers [x]. *)
Lemma dhe_generateServerKeyExchange_run
    (ka : t A) (rnd rnd1 : RandReader) (config : Config) (cert : Certificate)
    (clientHello : clientHelloMsg) (hello : serverHelloMsg) (x : Z) :
  rand_Int rnd group_q = (rnd1, Ok x) -> 0 <= x ->
  let y := group_g ^ x mod group_p in
  let signed := signParameters (auth ka) config cert clientHello hello
                  (serverDHParams group_p group_g y) rnd1 in
  generateServerKeyExchange ka rnd config cert clientHello hello =
  (mk (fst (fst signed)) (Some group_p) (Some group_g) (yTheirs ka) (Some y) (Some x)
      (Some y) (yClient ka) (verifyError ka),
   snd (fst signed), snd signed) /\
  0 < y < group_p.
Proof.
  intros Hrand Hx y signed. split.
  - subst signed. destruct ka as [au kp kg ky kyo kx kys kyc kve].
    unfold generateServerKeyExchange. rewrite Hrand.
    rewrite big_Exp_pos_modulus by (pose proof group_p_pos; lia). fold y.
    cbn [auth p g yTheirs yOurs xOurs yServer yClient verifyError
         with_p with_g with_xOurs with_yOurs with_yServer with_auth].
    destruct (signParameters au config cert clientHello hello
                (serverDHParams group_p group_g y) rnd1) as [[a rnd2] r].
    reflexivity.
  - pose proof (group_public_range x Hx) as Hr.
    rewrite big_Exp_pos_modulus in Hr by (pose proof group_p_pos; lia). exact Hr.
Qed.

(** The DHE server accepts the public value that a client wrote as
    [put16 (len yBytes) ++ yBytes]. *)
Lemma dhe_processClientKeyExchange_accepts
    (ka : t A) (config : Config) (cert : Certificate) (vp x y : Z) :
  p ka = Some vp -> xOurs ka = Some x -> 0 < y < vp -> len (big_Bytes y) < 65536 ->
  processClientKeyExchange ka config cert
    {| ciphertext := put16 (len (big_Bytes y)) ++ big_Bytes y |} =
  (with_yClient ka (Some y), Ok (big_Bytes (big_Exp y x vp))).
Proof.
  intros Hp Hx Hy Hl. unfold processClientKeyExchange. cbn [ciphertext].
  assert (Hlen : len (put16 (len (big_Bytes y)) ++ big_Bytes y) = len (big_Bytes y) + 2).
  { rewrite len_app. unfold put16. rewrite !len_cons. change (len (@nil byte)) with 0. lia. }
  rewrite Hlen, be16_put16 by (split; [apply len_nonneg | exact Hl]).
  replace (len (big_Bytes y) + 2 <? 2) with false
    by (symmetry; apply Z.ltb_ge; pose proof (len_nonneg (big_Bytes y)); lia).
  replace (len (big_Bytes y) + 2 - 2) with (len (big_Bytes y)) by lia.
  rewrite Z.eqb_refl. cbn [negb].
  change (slice_from (put16 (len (big_Bytes y)) ++ big_Bytes y) 2) with (big_Bytes y).
  rewrite SetBytes_Bytes by lia. rewrite big_Sign_nonpos.
  replace (y <=? 0) with false by (symmetry; apply Z.leb_gt; lia).
  cbn [p xOurs with_yClient]. rewrite Hp, Hx, big_Cmp_nonneg.
  replace (vp <=? y) with false by (symmetry; apply Z.leb_gt; lia).
  reflexivity.
Qed.

(** The run of the DHE client on a message written by [serverDHParams]. *)
Lemma dhe_reads_serverDHParams
    (ka : t A) (config : Config) (clientHello : clientHelloMsg)
    (serverHello : serverHelloMsg) (cert : x509_Certificate)
    (vp vg vy : Z) (sig dig : bytes) :
  0 <= vg -> 0 < vy < vp ->
  len (big_Bytes vp) < 65536 -> len (big_Bytes vg) < 65536 ->
  let params := serverDHParams vp vg vy in
  let v := verifyParameters (auth ka) config clientHello serverHello cert params sig in
  processServerKeyExchange ka config clientHello serverHello cert
    {| key := params ++ sig; digest := dig |} =
  (mk (fst v) (Some vp) (Some vg) (Some vy) (yOurs ka) (xOurs ka) (Some vy) (yClient ka)
      (snd (snd v)),
   {| key := params ++ sig; digest := fst (snd v) |},
   surfaced config (snd (snd v))).
Proof.
  intros Hg Hy Lp Lg params v.
  assert (Ly : len (big_Bytes vy) < 65536).
  { pose proof (Bytes_len_mono vy vp ltac:(lia)). lia. }
  destruct v as [a [d verr]] eqn:Hv. cbn [fst snd].
  apply (dhe_processServerKeyExchange_verified config clientHello serverHello cert
           {| key := params ++ sig; digest := dig |} ka vp vg vy sig a d verr).
  - cbn [key]. apply dheParams_serverDHParams; (lia || assumption).
  - exact Hy.
  - cbn [key]. rewrite len_app.
    replace (len params + len sig - len sig) with (len params) by lia.
    rewrite slice_to_len_app. exact Hv.
Qed.

(** X1. When [rand.Int] delivers the exponent [x >= 0], the DHE server
    leaves the RFC 5114 group and [x] in its state and a public value
    [y = g^x mod p] that satisfies [0 < y < p] (the range that
    [processServerKeyExchange] demands), and it signs exactly the three
    length-prefixed integers [p], [g], [y]. *)
Theorem dhe_generateServerKeyExchange_public_value
    (ka : t A) (rnd rnd1 : RandReader) (config : Config) (cert : Certificate)
    (clientHello : clientHelloMsg) (hello : serverHelloMsg) (x : Z) :
  rand_Int rnd group_q = (rnd1, Ok x) -> 0 <= x ->
  let y := group_g ^ x mod group_p in
  let signed := signParameters (auth ka) config cert clientHello hello
                  (serverDHParams group_p group_g y) rnd1 in
  generateServerKeyExchange ka rnd config cert clientHello hello =
  (mk (fst (fst signed)) (Some group_p) (Some group_g) (yTheirs ka) (Some y) (Some x)
      (Some y) (yClient ka) (verifyError ka),
   snd (fst signed), snd signed) /\
  0 < y < group_p.
Proof. exact (dhe_generateServerKeyExchange_run ka rnd rnd1 config cert clientHello hello x). Qed.

(** X2. The parser of the DHE client inverts the serializer of the DHE
    server: on a message made of [serverDHParams p g y] and a signature
    part [sig], with [0 < y < p] and fields short enough for their 16-bit
    length, [processServerKeyExchange] stores [p], [g] and [y], and hands
    to [verifyParameters] exactly the serialized parameters and [sig]. *)
Theorem dhe_processServerKeyExchange_reads_serverDHParams
    (ka : t A) (config : Config) (clientHello : clientHelloMsg)
    (serverHello : serverHelloMsg) (cert : x509_Certificate)
    (vp vg vy : Z) (sig dig : bytes) :
  0 <= vg -> 0 < vy < vp ->
  len (big_Bytes vp) < 65536 -> len (big_Bytes vg) < 65536 ->
  let params := serverDHParams vp vg vy in
  let v := verifyParameters (auth ka) config clientHello serverHello cert params sig in
  processServerKeyExchange ka config clientHello serverHello cert
    {| key := params ++ sig; digest := dig |} =
  (mk (fst v) (Some vp) (Some vg) (Some vy) (yOurs ka) (xOurs ka) (Some vy) (yClient ka)
      (snd (snd v)),
   {| key := params ++ sig; digest := fst (snd v) |},
   surfaced config (snd (snd v))).
Proof.
  exact (dhe_reads_serverDHParams ka config clientHello serverHello cert vp vg vy sig dig).
Qed.

End DheServerSide.

(** X3. A complete DHE exchange without parameter authentication: the
    server draws [x], the client reads the server's message, draws [x']
    under a [KexConfig] that selects the ordinary exchange and answers, and
    the server reads the answer.  Every step succeeds and both sides hold
    the same pre-master secret, the bytes of [g^(x*x') mod p]. *)
Theorem dhe_exchange_agrees `{CryptoLib}
    (kaS kaC : dheKeyAgreement.t nilKeyAgreementAuthentication)
    (rndS rndS' rndC rndC' : RandReader) (configS configC : Config)
    (certS : Certificate) (certC : x509_Certificate)
    (clientHello : clientHelloMsg) (serverHello : serverHelloMsg)
    (fuel : nat) (x x' : Z) :
  rand_Int rndS dheKeyAgreement.group_q = (rndS', Ok x) -> 0 <= x ->
  rand_Int rndC dheKeyAgreement.group_p = (rndC', Ok x') -> 0 <= x' ->
  ~ In (KexConfig configC) dheTokens ->
  exists kaS1 skx kaC1 kaC2 ckx kaS2 secret,
    dheKeyAgreement.generateServerKeyExchange kaS rndS configS certS clientHello
      serverHello = (kaS1, rndS', Ok skx) /\
    dheKeyAgreement.processServerKeyExchange kaC configC clientHello serverHello
      certC skx = (kaC1, skx, None) /\
    dheKeyAgreement.generateClientKeyExchange fuel kaC1 rndC configC clientHello certC =
      Some (kaC2, rndC', Ok (secret, ckx)) /\
    dheKeyAgreement.processClientKeyExchange kaS1 configS certS ckx =
      (kaS2, Ok secret) /\
    secret = big_Bytes (dheKeyAgreement.group_g ^ (x * x') mod dheKeyAgreement.group_p).
Proof.
  intros HrandS Hx HrandC Hx' Hdefault.
  pose proof group_p_pos as Hp. pose proof group_g_range as Hg.
  set (vp := dheKeyAgreement.group_p) in *. set (vg := dheKeyAgreement.group_g) in *.
  set (y := vg ^ x mod vp). set (y' := vg ^ x' mod vp).
  assert (Hy : 0 < y < vp) by (apply pow_mod_unit; [lia | exact group_coprime | exact Hx]).
  assert (Hy' : 0 < y' < vp)
    by (apply pow_mod_unit; [lia | exact group_coprime | exact Hx']).
  pose proof (dhe_generateServerKeyExchange_run kaS rndS rndS' configS certS clientHello
                serverHello x HrandS Hx) as [HS _].
  fold vp vg y in HS. cbn [signParameters nil_auth fst snd] in HS.
  pose proof (dhe_reads_serverDHParams kaC configC clientHello serverHello certC
                vp vg y [] [] ltac:(lia) Hy
                ltac:(unfold vp; rewrite group_p_len; lia)
                ltac:(unfold vg; rewrite group_g_len; lia)) as HC.
  cbn zeta in HC. rewrite app_nil_r in HC. cbn [verifyParameters nil_auth fst snd] in HC.
  replace (surfaced configC None) with (@None error) in HC
    by (unfold surfaced; destruct (InsecureSkipVerify configC); reflexivity).
  set (kaS1 := dheKeyAgreement.mk (dheKeyAgreement.auth kaS) (Some vp) (Some vg)
                 (dheKeyAgreement.yTheirs kaS) (Some y) (Some x) (Some y)
                 (dheKeyAgreement.yClient kaS) (dheKeyAgreement.verifyError kaS)) in *.
  set (kaC1 := dheKeyAgreement.mk (dheKeyAgreement.auth kaC) (Some vp) (Some vg) (Some y)
                 (dheKeyAgreement.yOurs kaC) (dheKeyAgreement.xOurs kaC) (Some y)
                 (dheKeyAgreement.yClient kaC) None) in *.
  pose proof (dhe_unknown_value_is_default kaC1 rndC configC clientHello certC fuel
                vp vg y eq_refl eq_refl eq_refl Hdefault) as HG.
  rewrite HrandC in HG. cbn zeta in HG. rewrite !big_Exp_pos_modulus in HG by lia.
  fold y' in HG.
  assert (Hl : len (big_Bytes y') < 65536).
  { apply group_value_len. fold vp. lia. }
  pose proof (dhe_processClientKeyExchange_accepts kaS1 configS certS vp x y'
                eq_refl eq_refl Hy' Hl) as HP.
  rewrite big_Exp_pos_modulus in HP by lia.
  assert (Hsame : y' ^ x mod vp = y ^ x' mod vp).
  { unfold y, y'. apply dh_agreement; lia. }
  rewrite Hsame in HP.
  eexists kaS1, _, kaC1, _, _, _, _.
  split; [exact HS|]. split; [exact HC|]. split; [exact HG|]. split; [exact HP|].
  unfold y. rewrite <- Zpow_facts.Zpower_mod by lia.
  rewrite <- Z.pow_mul_r by assumption. reflexivity.
Qed.

(** The server draws its exponent from the 32 bytes [0, 1, ..., 31]. *)
Lemma dhe_generateServerKeyExchange_public_value_witness :
  let x := big_SetBytes (Sample.counter 32) in
  let y := dheKeyAgreement.group_g ^ x mod dheKeyAgreement.group_p in
  dheKeyAgreement.yServer
    (fst (fst (dheKeyAgreement.generateServerKeyExchange Sample.dhe0 (Sample.counter 32)
                 (Sample.config "" false) Sample.serverCert Sample.hello
                 Sample.serverHello))) = Some y /\
  0 < y < dheKeyAgreement.group_p.
Proof.
  intros x y.
  assert (Hrand : rand_Int (Sample.counter 32) dheKeyAgreement.group_q = ([], Ok x)).
  { vm_compute. reflexivity. }
  assert (Hx : 0 <= x) by apply SetBytes_range.
  destruct (dhe_generateServerKeyExchange_public_value Sample.dhe0 (Sample.counter 32) []
              (Sample.config "" false) Sample.serverCert Sample.hello Sample.serverHello
              x Hrand Hx) as [Hrun Hrange].
  split; [rewrite Hrun; reflexivity | exact Hrange].
Defined.

(** The parameters [p = 23], [g = 5], [y = 8] without a signature. *)
Lemma dhe_processServerKeyExchange_reads_serverDHParams_witness :
  dheKeyAgreement.processServerKeyExchange Sample.dhe0 (Sample.config "" false)
    Sample.hello Sample.serverHello Sample.peerCert
    {| key := dheKeyAgreement.serverDHParams 23 5 8 ++ []; digest := [] |} =
  (dheKeyAgreement.mk nilAuth (Some 23) (Some 5) (Some 8) None None (Some 8) None None,
   {| key := dheKeyAgreement.serverDHParams 23 5 8 ++ []; digest := [] |}, None).
Proof.
  refine (dhe_processServerKeyExchange_reads_serverDHParams Sample.dhe0
            (Sample.config "" false) Sample.hello Sample.serverHello Sample.peerCert
            23 5 8 [] [] _ _ _ _).
  - lia.
  - lia.
  - vm_compute. reflexivity.
  - vm_compute. reflexivity.
Defined.

(** An exchange in which the server reads its exponent from 32 bytes and
    the client from 256 bytes of the random source. *)
Lemma dhe_exchange_agrees_witness :
  let x := big_SetBytes (Sample.counter 32) in
  let x' := big_SetBytes (Sample.counter 256) in
  exists kaS1 skx kaC1 kaC2 ckx kaS2 secret,
    dheKeyAgreement.generateServerKeyExchange Sample.dhe0 (Sample.counter 32)
      (Sample.config "" false) Sample.serverCert Sample.hello Sample.serverHello =
      (kaS1, [], Ok skx) /\
    dheKeyAgreement.processServerKeyExchange Sample.dhe0 (Sample.config "" false)
      Sample.hello Sample.serverHello Sample.peerCert skx = (kaC1, skx, None) /\
    dheKeyAgreement.generateClientKeyExchange 0 kaC1 (Sample.counter 256)
      (Sample.config "" false) Sample.hello Sample.peerCert =
      Some (kaC2, [], Ok (secret, ckx)) /\
    dheKeyAgreement.processClientKeyExchange kaS1 (Sample.config "" false)
      Sample.serverCert ckx = (kaS2, Ok secret) /\
    secret = big_Bytes (dheKeyAgreement.group_g ^ (x * x') mod dheKeyAgreement.group_p).
Proof.
  refine (dhe_exchange_agrees Sample.dhe0 Sample.dhe0 (Sample.counter 32) []
            (Sample.counter 256) [] (Sample.config "" false) (Sample.config "" false)
            Sample.serverCert Sample.peerCert Sample.hello Sample.serverHello 0%nat
            (big_SetBytes (Sample.counter 32)) (big_SetBytes (Sample.counter 256))
            _ _ _ _ _).
  - vm_compute. reflexivity.
  - vm_compute. discriminate.
  - vm_compute. reflexivity.
  - vm_compute. discriminate.
  - unfold dheTokens. simpl. intros Hin.
    repeat (destruct Hin as [Hin|Hin]; [discriminate Hin|]). exact Hin.
Defined.

(** ** The static public values of the DHE client *)

Lemma pow_minus_one_mod (m x : Z) :
  2 < m -> 0 <= x -> (m - 1) ^ x mod m = if Z.even x then 1 else m - 1.
Proof.
  intros Hm Hx. pattern x. apply natlike_ind; [| |exact Hx].
  - simpl. apply Z.mod_small. lia.
  - clear x Hx. intros x Hx IH.
    rewrite Z.pow_succ_r by exact Hx.
    rewrite <- Z.mul_mod_idemp_r by lia. rewrite IH, Z.even_succ, <- Z.negb_even.
    destruct (Z.even x); cbn [negb].
    + rewrite Z.mul_1_r. apply Z.mod_small. lia.
    + replace ((m - 1) * (m - 1)) with (1 + (m - 2) * m) by ring.
      rewrite Z.mod_add by lia. apply Z.mod_small. lia.
Qed.

Section DheStatic.
Import dheKeyAgreement.
Context {A : Type} `{keyAgreementAuthentication A} `{CryptoLib}.

(** The run of the client for a [KexConfig] that fixes the public value. *)
Lemma dhe_static_run (fuel : nat) (ka : t A) (rnd : RandReader) (config : Config)
    (clientHello : clientHelloMsg) (cert : x509_Certificate) (vp vg vy : Z) :
  p ka = Some vp -> g ka = Some vg -> yTheirs ka = Some vy ->
  (KexConfig config = "0" ->
   generateClientKeyExchange fuel ka rnd config clientHello cert =
   Some (mk (auth ka) (Some vp) (Some vg) (Some vy) (Some 0) (Some 0) (yServer ka)
            (Some 0) (verifyError ka),
         rnd, Ok (big_Bytes 0, {| ciphertext := put16 (len (big_Bytes 0)) ++ big_Bytes 0 |}))) /\
  (KexConfig config = "1" ->
   generateClientKeyExchange fuel ka rnd config clientHello cert =
   Some (mk (auth ka) (Some vp) (Some vg) (Some vy) (Some 1) (Some 0) (yServer ka)
            (Some 1) (verifyError ka),
         rnd, Ok (big_Bytes 1, {| ciphertext := put16 (len (big_Bytes 1)) ++ big_Bytes 1 |}))) /\
  (KexConfig config = "pm1" ->
   generateClientKeyExchange fuel ka rnd config clientHello cert =
   Some (mk (auth ka) (Some vp) (Some vg) (Some vy) (Some (vp - 1)) (Some 0) (yServer ka)
            (Some (vp - 1)) (verifyError ka),
         rnd, Ok (big_Bytes (vp - 1),
                  {| ciphertext := put16 (len (big_Bytes (vp - 1))) ++
                                   big_Bytes (vp - 1) |}))).
Proof.
  destruct ka as [au kp kg ky kyo kx kys kyc kve].
  cbn [p g yTheirs auth yServer verifyError]. intros -> -> ->.
  repeat split; intros Hk; unfold generateClientKeyExchange; cbn [p g yTheirs];
    rewrite Hk; reflexivity.
Qed.

End DheStatic.

(** X4. The DHE client configured with "0" sends a zero-length public value
    and takes the empty slice as pre-master secret, and any DHE server of
    this library rejects that message with the invalid-ClientKeyExchange
    error.  Configured with "1" it sends the value 1 and takes the byte 01 as
    secret, and a server with modulus [p > 1] and exponent [x >= 0] accepts
    the message and derives the same secret. *)
Theorem dhe_static_zero_and_one
    {A B : Type} `{CryptoLib}
    (fuel : nat) (kaC : dheKeyAgreement.t A) (kaS : dheKeyAgreement.t B)
    (rnd : RandReader) (configC configS : Config) (clientHello : clientHelloMsg)
    (certC : x509_Certificate) (certS : Certificate) (vp vg vy : Z) :
  dheKeyAgreement.p kaC = Some vp -> dheKeyAgreement.g kaC = Some vg ->
  dheKeyAgreement.yTheirs kaC = Some vy ->
  (KexConfig configC = "0" ->
   exists kaC' ckx,
     dheKeyAgreement.generateClientKeyExchange fuel kaC rnd configC clientHello certC =
       Some (kaC', rnd, Ok ([], ckx)) /\
     ciphertext ckx = [Byte.x00; Byte.x00] /\
     dheKeyAgreement.processClientKeyExchange kaS configS certS ckx =
       (dheKeyAgreement.with_yClient kaS (Some 0), Err errClientKeyExchange)) /\
  (KexConfig configC = "1" ->
   forall sp x,
     dheKeyAgreement.p kaS = Some sp -> 1 < sp ->
     dheKeyAgreement.xOurs kaS = Some x -> 0 <= x ->
     exists kaC' ckx,
       dheKeyAgreement.generateClientKeyExchange fuel kaC rnd configC clientHello certC =
         Some (kaC', rnd, Ok ([Byte.x01], ckx)) /\
       ciphertext ckx = [Byte.x00; Byte.x01; Byte.x01] /\
       dheKeyAgreement.processClientKeyExchange kaS configS certS ckx =
         (dheKeyAgreement.with_yClient kaS (Some 1), Ok [Byte.x01])).
Proof.
  intros Hp Hg Hy.
  destruct (dhe_static_run fuel kaC rnd configC clientHello certC vp vg vy Hp Hg Hy)
    as (H0' & H1' & _).
  split.
  - intros Hk. eexists _, _. split; [exact (H0' Hk)|]. split; [reflexivity|].
    reflexivity.
  - intros Hk sp x Hsp Hsp1 Hx Hx0. eexists _, _. split; [exact (H1' Hk)|].
    split; [reflexivity|].
    pose proof (dhe_processClientKeyExchange_accepts kaS configS certS sp x 1 Hsp Hx
                  ltac:(lia) ltac:(vm_compute; reflexivity)) as Hs.
    rewrite big_Exp_pos_modulus, Z.pow_1_l, Z.mod_small in Hs by lia.
    exact Hs.
Qed.

(** X5. The DHE client configured with "pm1" sends [p - 1] and takes its
    bytes as pre-master secret.  A server with the same modulus [p > 2] and
    exponent [x >= 0] accepts the message and derives the bytes of
    [p - 1] when [x] is odd and the byte 01 when [x] is even: the two sides
    hold the same secret exactly when the server's exponent is odd. *)
Theorem dhe_static_pm1
    {A B : Type} `{CryptoLib}
    (fuel : nat) (kaC : dheKeyAgreement.t A) (kaS : dheKeyAgreement.t B)
    (rnd : RandReader) (configC configS : Config) (clientHello : clientHelloMsg)
    (certC : x509_Certificate) (certS : Certificate) (vp vg vy x : Z) :
  dheKeyAgreement.p kaC = Some vp -> dheKeyAgreement.g kaC = Some vg ->
  dheKeyAgreement.yTheirs kaC = Some vy ->
  KexConfig configC = "pm1" ->
  dheKeyAgreement.p kaS = Some vp -> dheKeyAgreement.xOurs kaS = Some x ->
  2 < vp -> len (big_Bytes vp) < 65536 -> 0 <= x ->
  exists kaC' ckx,
    dheKeyAgreement.generateClientKeyExchange fuel kaC rnd configC clientHello certC =
      Some (kaC', rnd, Ok (big_Bytes (vp - 1), ckx)) /\
    dheKeyAgreement.processClientKeyExchange kaS configS certS ckx =
      (dheKeyAgreement.with_yClient kaS (Some (vp - 1)),
       Ok (big_Bytes (if Z.even x then 1 else vp - 1))) /\
    (big_Bytes (if Z.even x then 1 else vp - 1) = big_Bytes (vp - 1) <-> Z.odd x = true).
Proof.
  intros Hp Hg Hy Hk HpS HxS Hvp Hl Hx.
  destruct (dhe_static_run fuel kaC rnd configC clientHello certC vp vg vy Hp Hg Hy)
    as (_ & _ & Hrun).
  eexists _, _. split; [exact (Hrun Hk)|].
  assert (Hl' : len (big_Bytes (vp - 1)) < 65536).
  { pose proof (Bytes_len_mono (vp - 1) vp ltac:(lia)). lia. }
  pose proof (dhe_processClientKeyExchange_accepts kaS configS certS vp x (vp - 1) HpS HxS
                ltac:(lia) Hl') as Hs.
  rewrite big_Exp_pos_modulus, pow_minus_one_mod in Hs by lia.
  split; [exact Hs|].
  rewrite <- Z.negb_even. destruct (Z.even x); cbn [negb]; split; try reflexivity;
    try discriminate.
  intros Heq. apply (f_equal big_SetBytes) in Heq.
  rewrite !SetBytes_Bytes in Heq by lia. lia.
Qed.

(** A client that holds [p = 23], [g = 5] and the server value 8, and a
    server that holds [p = 23] and the exponent 4. *)
Lemma dhe_static_zero_and_one_witness :
  let kaC := dheKeyAgreement.mk nilAuth (Some 23) (Some 5) (Some 8) None None (Some 8)
               None None in
  let kaS := dheKeyAgreement.mk nilAuth (Some 23) (Some 5) None (Some 4) (Some 4) (Some 4)
               None None in
  (exists kaC' ckx,
     dheKeyAgreement.generateClientKeyExchange 0 kaC [] (Sample.config "0" false)
       Sample.hello Sample.peerCert = Some (kaC', [], Ok ([], ckx)) /\
     ciphertext ckx = [Byte.x00; Byte.x00] /\
     dheKeyAgreement.processClientKeyExchange kaS (Sample.config "" false)
       Sample.serverCert ckx =
       (dheKeyAgreement.with_yClient kaS (Some 0), Err errClientKeyExchange)) /\
  (exists kaC' ckx,
     dheKeyAgreement.generateClientKeyExchange 0 kaC [] (Sample.config "1" false)
       Sample.hello Sample.peerCert = Some (kaC', [], Ok ([Byte.x01], ckx)) /\
     ciphertext ckx = [Byte.x00; Byte.x01; Byte.x01] /\
     dheKeyAgreement.processClientKeyExchange kaS (Sample.config "" false)
       Sample.serverCert ckx =
       (dheKeyAgreement.with_yClient kaS (Some 1), Ok [Byte.x01])).
Proof.
  cbn zeta. split.
  - exact (proj1 (dhe_static_zero_and_one 0
             (dheKeyAgreement.mk nilAuth (Some 23) (Some 5) (Some 8) None None (Some 8)
                                 None None)
             (dheKeyAgreement.mk nilAuth (Some 23) (Some 5) None (Some 4) (Some 4) (Some 4)
                                 None None)
             [] (Sample.config "0" false) (Sample.config "" false) Sample.hello
             Sample.peerCert Sample.serverCert 23 5 8 eq_refl eq_refl eq_refl) eq_refl).
  - refine (proj2 (dhe_static_zero_and_one 0
             (dheKeyAgreement.mk nilAuth (Some 23) (Some 5) (Some 8) None None (Some 8)
                                 None None)
             (dheKeyAgreement.mk nilAuth (Some 23) (Some 5) None (Some 4) (Some 4) (Some 4)
                                 None None)
             [] (Sample.config "1" false) (Sample.config "" false) Sample.hello
             Sample.peerCert Sample.serverCert 23 5 8 eq_refl eq_refl eq_refl) eq_refl
             23 4 eq_refl _ eq_refl _); lia.
Defined.

(** The same client configured with "pm1" and servers with the exponents 4
    and 3: the first derives 01, the second the byte 22 that the client
    holds. *)
Lemma dhe_static_pm1_witness :
  let kaC := dheKeyAgreement.mk nilAuth (Some 23) (Some 5) (Some 8) None None (Some 8)
               None None in
  let kaS x := dheKeyAgreement.mk nilAuth (Some 23) (Some 5) None None (Some x) None
                 None None in
  snd (dheKeyAgreement.processClientKeyExchange (kaS 4) (Sample.config "" false)
         Sample.serverCert {| ciphertext := map byte.of_Z [0; 1; 22] |}) = Ok [Byte.x01] /\
  snd (dheKeyAgreement.processClientKeyExchange (kaS 3) (Sample.config "" false)
         Sample.serverCert {| ciphertext := map byte.of_Z [0; 1; 22] |}) =
  Ok (map byte.of_Z [22]) /\
  exists kaC' ckx,
    dheKeyAgreement.generateClientKeyExchange 0 kaC [] (Sample.config "pm1" false)
      Sample.hello Sample.peerCert = Some (kaC', [], Ok (map byte.of_Z [22], ckx)).
Proof.
  intros kaC kaS.
  assert (Hl : len (big_Bytes 23) < 65536) by (vm_compute; reflexivity).
  destruct (dhe_static_pm1 0 kaC (kaS 4) [] (Sample.config "pm1" false)
              (Sample.config "" false) Sample.hello Sample.peerCert Sample.serverCert
              23 5 8 4 eq_refl eq_refl eq_refl eq_refl eq_refl eq_refl
              ltac:(lia) Hl ltac:(lia)) as (kaC' & ckx & Hgen & Hsrv & _).
  destruct (dhe_static_pm1 0 kaC (kaS 3) [] (Sample.config "pm1" false)
              (Sample.config "" false) Sample.hello Sample.peerCert Sample.serverCert
              23 5 8 3 eq_refl eq_refl eq_refl eq_refl eq_refl eq_refl
              ltac:(lia) Hl ltac:(lia)) as (kaC3 & ckx3 & Hgen3 & Hsrv3 & _).
  assert (Hckx : ckx = {| ciphertext := map byte.of_Z [0; 1; 22] |}).
  { vm_compute in Hgen. injection Hgen as _ <-. reflexivity. }
  assert (Hckx3 : ckx3 = {| ciphertext := map byte.of_Z [0; 1; 22] |}).
  { vm_compute in Hgen3. injection Hgen3 as _ <-. reflexivity. }
  subst ckx ckx3. split; [rewrite Hsrv; reflexivity|].
  split; [rewrite Hsrv3; reflexivity|].
  exists kaC', {| ciphertext := map byte.of_Z [0; 1; 22] |}. exact Hgen.
Defined.

(** ** The ECDHE messages *)

Section EcdheMessages.
Import ecdheKeyAgreement.
Context {A : Type} `{keyAgreementAuthentication A} `{CryptoLib}.

(** The message of a successful [generateClientKeyExchange] is a one-byte
    length in front of the marshalled public key. *)
Lemma ecdhe_client_message (ka ka' : t A) (rnd rnd' : RandReader) (config : Config)
    (clientHello : clientHelloMsg) (cert : x509_Certificate)
    (secret : bytes) (ckx : clientKeyExchangeMsg) :
  generateClientKeyExchange ka rnd config clientHello cert = (ka', rnd', Ok (secret, ckx)) ->
  let cmp := compress (fst (scanOptions (strings_Split_comma (KexConfig config))
                              (mkOptions false false None None (curveID ka)))) in
  exists cv,
    curve ka' = Some cv /\
    ciphertext ckx =
    byte.of_Z (len (Marshal (ecdh_curve cv) (clientPublicKey ka') cmp)) ::
    Marshal (ecdh_curve cv) (clientPublicKey ka') cmp.
Proof.
  unfold generateClientKeyExchange.
  destruct (curve ka) as [c|] eqn:Hc; [|discriminate].
  destruct (scanOptions _ _) as [o [|]]; cbn [negb fst]; [|discriminate].
  destruct (staticKex o).
  - cbn [curve curveID with_curveID with_curve with_privateKey with_clientPublicKey
         clientPublicKey].
    destruct (mx o) as [x|]; [|discriminate].
    destruct (fst (curveForCurveID (optCurveID o))) as [cv|] eqn:Hcv; [|discriminate].
    intros Hr. injection Hr as <- <- <- <-.
    exists cv. split; reflexivity.
  - destruct (GenerateKey (ecdh_curve c) rnd) as [rnd1 [[priv pub] [err|]]];
      [discriminate|].
    cbn [curve curveID privateKey serverPublicKey with_curveID with_curve
         with_privateKey with_clientPublicKey clientPublicKey].
    destruct (GenerateSharedSecret _ _ _) as [pms [err|]]; [discriminate|].
    rewrite Hc. intros Hr. injection Hr as <- <- <- <-.
    exists c. split; [exact Hc | reflexivity].
Qed.

(** The server on a message [n :: s]: the length check, then the
    unmarshalling of [s] and the shared secret. *)
Lemma ecdhe_processClientKeyExchange_run (ka : t A) (config : Config) (cert : Certificate)
    (n : byte) (s : bytes) :
  processClientKeyExchange ka config cert {| ciphertext := n :: s |} =
  if negb (int n =? len s) then (ka, Err errClientKeyExchange)
  else
    match curve ka with
    | None => (ka, Panic "nil pointer dereference")
    | Some c =>
        match Unmarshal (ecdh_curve c) s with
        | (_, false) => (ka, Err errClientKeyExchange)
        | (None, true) => (ka, Panic "nil pointer dereference")
        | (Some pk, true) =>
            match GenerateSharedSecret (ecdh_curve c) (privateKey ka) (Some pk) with
            | (_, Some err) => (with_clientXY ka (X pk) (Y pk), Err err)
            | (secret, None) => (with_clientXY ka (X pk) (Y pk), Ok secret)
            end
        end
    end.
Proof.
  unfold processClientKeyExchange. cbn [ciphertext at_ nth].
  rewrite len_cons. replace (len s + 1 - 1) with (len s) by lia.
  replace (len s + 1 =? 0) with false
    by (symmetry; apply Z.eqb_neq; pose proof (len_nonneg s); lia).
  cbn [orb]. change (slice_from (n :: s) 1) with s.
  destruct (negb (int n =? len s)); [reflexivity|].
  destruct (curve ka) as [c|]; [|reflexivity].
  destruct (Unmarshal (ecdh_curve c) s) as [[pk|] [|]]; try reflexivity.
Qed.

End EcdheMessages.

(** X6. The ClientKeyExchange that [ecdheKeyAgreement.generateClientKeyExchange]
    builds is the marshalled public key behind its length byte: with [cv]
    the curve and [clientPublicKey] the key that the client's state holds
    afterwards, and the compression flag that the options of [KexConfig]
    give, the message is [s = cv.Marshal(clientPublicKey, compress)] behind
    one byte holding [len(s)] modulo 256.  [processClientKeyExchange] rejects
    the message with the invalid-ClientKeyExchange error, in any state, when
    [s] has 256 bytes or more; when [s] is shorter the length check passes
    and a server that holds a curve unmarshals exactly [s]. *)
Theorem ecdhe_client_message_length_byte
    {A B : Type} `{CryptoLib}
    (kaC kaC' : ecdheKeyAgreement.t A) (rnd rnd' : RandReader) (configC : Config)
    (clientHello : clientHelloMsg) (certC : x509_Certificate)
    (secret : bytes) (ckx : clientKeyExchangeMsg) :
  ecdheKeyAgreement.generateClientKeyExchange kaC rnd configC clientHello certC =
  (kaC', rnd', Ok (secret, ckx)) ->
  let compress :=
    ecdheKeyAgreement.compress
      (fst (ecdheKeyAgreement.scanOptions (strings_Split_comma (KexConfig configC))
              (ecdheKeyAgreement.mkOptions false false None None
                 (ecdheKeyAgreement.curveID kaC)))) in
  exists cv s,
    ecdheKeyAgreement.curve kaC' = Some cv /\
    s = Marshal (ecdh_curve cv) (ecdheKeyAgreement.clientPublicKey kaC') compress /\
    ciphertext ckx = byte.of_Z (len s) :: s /\
    forall (kaS : ecdheKeyAgreement.t B) (configS : Config) (certS : Certificate),
      (256 <= len s ->
       ecdheKeyAgreement.processClientKeyExchange kaS configS certS ckx =
       (kaS, Err errClientKeyExchange)) /\
      (len s < 256 ->
       forall c, ecdheKeyAgreement.curve kaS = Some c ->
       ecdheKeyAgreement.processClientKeyExchange kaS configS certS ckx =
       match Unmarshal (ecdh_curve c) s with
       | (_, false) => (kaS, Err errClientKeyExchange)
       | (None, true) => (kaS, Panic "nil pointer dereference")
       | (Some pk, true) =>
           match GenerateSharedSecret (ecdh_curve c)
                   (ecdheKeyAgreement.privateKey kaS) (Some pk) with
           | (_, Some err) => (ecdheKeyAgreement.with_clientXY kaS (X pk) (Y pk), Err err)
           | (shared, None) => (ecdheKeyAgreement.with_clientXY kaS (X pk) (Y pk), Ok shared)
           end
       end).
Proof.
  intros Hgen compress.
  destruct (ecdhe_client_message kaC kaC' rnd rnd' configC clientHello certC secret ckx
              Hgen) as (cv & Hcv & Hct).
  fold compress in Hct.
  set (s := Marshal (ecdh_curve cv) (ecdheKeyAgreement.clientPublicKey kaC') compress) in *.
  exists cv, s. split; [exact Hcv|]. split; [reflexivity|]. split; [exact Hct|].
  intros kaS configS certS.
  destruct ckx as [ct]. cbn [ciphertext] in Hct. subst ct.
  rewrite ecdhe_processClientKeyExchange_run, int_of_Z.
  pose proof (len_nonneg s) as Hl. split.
  - intros Hbig.
    replace (len s mod 256 =? len s) with false; [reflexivity|].
    symmetry. apply Z.eqb_neq. pose proof (Z.mod_pos_bound (len s) 256). lia.
  - intros Hsmall c Hc. rewrite Z.mod_small, Z.eqb_refl, Hc by lia. reflexivity.
Qed.

(** A client on X25519 that sends the payload X = 1 and a server whose
    private key is the byte 02. *)
Lemma ecdhe_client_message_length_byte_witness :
  let kaC := ecdheKeyAgreement.with_curve Sample.ecdhe0 (Some X25519) in
  let kaS := ecdheKeyAgreement.with_privateKey kaC (Some {| D := [Byte.x02] |}) in
  let ckx := {| ciphertext := [Byte.x01; Byte.x01] |} in
  snd (ecdheKeyAgreement.generateClientKeyExchange kaC [] (Sample.config "X25519_INVALID_S4" false)
         Sample.hello Sample.peerCert) = Ok ([Byte.x01], ckx) /\
  ecdheKeyAgreement.processClientKeyExchange kaS (Sample.config "" false) Sample.serverCert ckx =
  (ecdheKeyAgreement.with_clientXY kaS (Some 1) None, Ok [Byte.x02]).
Proof.
  intros kaC kaS ckx.
  destruct (ecdheKeyAgreement.generateClientKeyExchange kaC []
              (Sample.config "X25519_INVALID_S4" false) Sample.hello Sample.peerCert)
    as [[kaC' rnd'] r] eqn:Hgen.
  assert (Hr : r = Ok ([Byte.x01], ckx)).
  { vm_compute in Hgen. injection Hgen as _ _ <-. reflexivity. }
  subst r. split; [reflexivity|].
  destruct (ecdhe_client_message_length_byte (B := nilKeyAgreementAuthentication)
              kaC kaC' [] rnd'
              (Sample.config "X25519_INVALID_S4" false) Sample.hello Sample.peerCert
              [Byte.x01] ckx Hgen) as (cv & s & _ & _ & Hct & Hsrv).
  cbn [ciphertext ckx] in Hct. injection Hct as _ <-.
  rewrite (proj2 (Hsrv kaS (Sample.config "" false) Sample.serverCert)
             ltac:(vm_compute; reflexivity) X25519 eq_refl).
  reflexivity.
Defined.

Lemma ecdheParams_serverECDHParams (impl : NamedCurve -> Curve) (id : CurveID)
    (c : NamedCurve) (m sig : bytes) (pub : option ECDHPublicKey) :
  0 <= id < 65536 -> curveForCurveID id = (Some c, true) -> len m < 256 ->
  Unmarshal (impl c) m = (pub, true) ->
  ecdheParams impl (serverECDHParams id m ++ sig) = Some (id, c, pub, len m).
Proof.
  intros Hid Hc Hm Hun. unfold serverECDHParams. cbn [app ecdheParams].
  pose proof (len_nonneg m) as Hl.
  rewrite !int_of_Z, (Z.mod_small 3 256), (Z.mod_small (len m) 256) by lia.
  rewrite <- !int_of_Z, put16_value by exact Hid.
  cbn [Z.eqb Pos.eqb]. rewrite Hc, len_app.
  replace (len m <=? len m + len sig) with true
    by (symmetry; apply Z.leb_le; pose proof (len_nonneg sig); lia).
  rewrite slice_to_len_app, Hun. reflexivity.
Qed.

Section EcdheRoundTrip.
Import ecdheKeyAgreement.
Context {A : Type} `{keyAgreementAuthentication A} `{CryptoLib}.

(** The run of the ECDHE server once a registered curve is selected and the
    key pair is generated. *)
Lemma ecdhe_generateServerKeyExchange_run
    (ka : t A) (rnd rnd1 : RandReader) (config : Config) (cert : Certificate)
    (clientHello : clientHelloMsg) (hello : serverHelloMsg)
    (id : CurveID) (c : NamedCurve) (priv : ECDHPrivateKey) (pub : option ECDHPublicKey) :
  selectCurve (curvePreferences config) (supportedCurves clientHello) = id ->
  id <> 0 -> curveForCurveID id = (Some c, true) ->
  GenerateKey (ecdh_curve c) rnd = (rnd1, (Some priv, pub, None)) ->
  let signed := signParameters (auth ka) config cert clientHello hello
                  (serverECDHParams id (Marshal (ecdh_curve c) pub false)) rnd1 in
  generateServerKeyExchange ka rnd config cert clientHello hello =
  (mk (fst (fst signed)) (Some priv) (serverPublicKey ka) (clientPublicKey ka) (Some c)
      (verifyError ka) id (clientPrivKey ka) (D priv) (clientX ka) (clientY ka),
   snd (fst signed), snd signed).
Proof.
  intros Hsel Hnz Hc Hgen signed. subst signed.
  destruct ka as [au pk spk cpk cv ve cid cpriv spriv cx cy].
  unfold generateServerKeyExchange. rewrite Hsel.
  apply Z.eqb_neq in Hnz. rewrite Hnz, Hc, Hgen.
  cbn [auth privateKey serverPublicKey clientPublicKey curve verifyError curveID
       clientPrivKey serverPrivKey clientX clientY with_curveID with_curve
       with_privateKey with_serverPrivKey with_auth].
  change ([byte.of_Z 3; byte.of_Z (Z.shiftr id 8); byte.of_Z id;
           byte.of_Z (len (Marshal (ecdh_curve c) pub false))] ++
          Marshal (ecdh_curve c) pub false)
    with (serverECDHParams id (Marshal (ecdh_curve c) pub false)).
  destruct (signParameters _ _ _ _ _ _ _) as [[a rnd2] r]. reflexivity.
Qed.

End EcdheRoundTrip.

(** X7. The ECDHE client reads back what the ECDHE server wrote.  When the
    server selects the registered curve [id], generates a key pair whose
    public point marshals to fewer than 256 bytes that unmarshal again, and
    the authentication returns a message made of the signed parameters and
    a signature part, then the server records [id] and its private key, and
    [processServerKeyExchange] on that message stores the same curve and
    the unmarshalled point and verifies exactly the signed parameters
    against the signature part. *)
Theorem ecdhe_server_message_read_back
    {A B : Type} `{keyAgreementAuthentication A} `{keyAgreementAuthentication B}
    `{CryptoLib}
    (kaS : ecdheKeyAgreement.t A) (kaC : ecdheKeyAgreement.t B)
    (rnd rnd1 rnd2 : RandReader) (configS configC : Config) (certS : Certificate)
    (certC : x509_Certificate) (clientHello : clientHelloMsg) (hello : serverHelloMsg)
    (id : CurveID) (c : NamedCurve) (priv : ECDHPrivateKey)
    (pub pub' : option ECDHPublicKey) (a : A) (skx : serverKeyExchangeMsg) (sig : bytes) :
  ecdheKeyAgreement.selectCurve (curvePreferences configS) (supportedCurves clientHello)
    = id ->
  0 < id < 65536 -> curveForCurveID id = (Some c, true) ->
  GenerateKey (ecdh_curve c) rnd = (rnd1, (Some priv, pub, None)) ->
  let m := Marshal (ecdh_curve c) pub false in
  len m < 256 -> Unmarshal (ecdh_curve c) m = (pub', true) ->
  signParameters (ecdheKeyAgreement.auth kaS) configS certS clientHello hello
    (serverECDHParams id m) rnd1 = (a, rnd2, Ok skx) ->
  key skx = serverECDHParams id m ++ sig ->
  let v := verifyParameters (ecdheKeyAgreement.auth kaC) configC clientHello hello certC
             (serverECDHParams id m) sig in
  ecdheKeyAgreement.generateServerKeyExchange kaS rnd configS certS clientHello hello =
  (ecdheKeyAgreement.mk a (Some priv) (ecdheKeyAgreement.serverPublicKey kaS)
     (ecdheKeyAgreement.clientPublicKey kaS) (Some c) (ecdheKeyAgreement.verifyError kaS)
     id (ecdheKeyAgreement.clientPrivKey kaS) (D priv) (ecdheKeyAgreement.clientX kaS)
     (ecdheKeyAgreement.clientY kaS),
   rnd2, Ok skx) /\
  ecdheKeyAgreement.processServerKeyExchange kaC configC clientHello hello certC skx =
  (ecdheKeyAgreement.mk (fst v) (ecdheKeyAgreement.privateKey kaC) pub'
     (ecdheKeyAgreement.clientPublicKey kaC) (Some c) (snd (snd v)) id
     (ecdheKeyAgreement.clientPrivKey kaC) (ecdheKeyAgreement.serverPrivKey kaC)
     (ecdheKeyAgreement.clientX kaC) (ecdheKeyAgreement.clientY kaC),
   {| key := key skx; digest := fst (snd v) |}, surfaced configC (snd (snd v))).
Proof.
  intros Hsel Hid Hc Hgen m Hm Hun Hsign Hkey v. split.
  - rewrite (ecdhe_generateServerKeyExchange_run kaS rnd rnd1 configS certS clientHello
               hello id c priv pub Hsel ltac:(lia) Hc Hgen).
    fold m. rewrite Hsign. reflexivity.
  - destruct v as [a' [dig verr]] eqn:Hv. cbn [fst snd].
    apply (ecdhe_processServerKeyExchange_verified configC clientHello hello certC skx kaC
             id c pub' (len m) a' dig verr).
    + rewrite Hkey. apply ecdheParams_serverECDHParams; (lia || assumption).
    + rewrite Hkey.
      assert (Hp : 4 + len m = len (serverECDHParams id m)).
      { unfold serverECDHParams. rewrite len_app, !len_cons.
        change (len (@nil byte)) with 0. lia. }
      rewrite Hp, slice_to_len_app, slice_from_len_app. exact Hv.
Qed.

(** The server prefers P-256, the client supports it, and the server's key
    pair comes from the byte 07. *)
Lemma ecdhe_server_message_read_back_witness :
  let r := ecdheKeyAgreement.generateServerKeyExchange Sample.ecdhe0 [Byte.x07]
             (Sample.config "" false) Sample.serverCert Sample.hello Sample.serverHello in
  let skx := {| key := serverECDHParams CurveP256r1 [Byte.x07]; digest := [] |} in
  snd r = Ok skx /\
  ecdheKeyAgreement.processServerKeyExchange Sample.ecdhe0 (Sample.config "" false)
    Sample.hello Sample.serverHello Sample.peerCert skx =
  (ecdheKeyAgreement.mk nilAuth None (Some {| X := Some 7; Y := None |}) None (Some P256r1)
     None CurveP256r1 [] [] None None,
   skx, None).
Proof.
  intros r skx.
  destruct (ecdhe_server_message_read_back Sample.ecdhe0 Sample.ecdhe0 [Byte.x07] [] []
              (Sample.config "" false) (Sample.config "" false) Sample.serverCert
              Sample.peerCert Sample.hello Sample.serverHello CurveP256r1 P256r1
              {| D := [Byte.x07] |} (Some {| X := Some 7; Y := None |})
              (Some {| X := Some 7; Y := None |}) nilAuth skx []
              eq_refl ltac:(vm_compute; split; reflexivity) eq_refl eq_refl
              ltac:(vm_compute; reflexivity) eq_refl eq_refl eq_refl) as [Hsrv Hcli].
  split; [unfold r; rewrite Hsrv; reflexivity | exact Hcli].
Defined.

Section EcdheRejections.
Import ecdheKeyAgreement.
Context {A : Type} `{keyAgreementAuthentication A} `{CryptoLib}.

(** X8. How [ecdheKeyAgreement.processServerKeyExchange] rejects a message
    before any signature is verified.  A message shorter than four bytes
    gives the invalid-ServerKeyExchange error and one whose first byte is
    not 3 gives "server selected unsupported curve", both with the state
    untouched.  After that the curve identifier of the message is already
    recorded: an unregistered curve gives "server selected unsupported
    curve" with [curveID] set and [curve] nil; a point length that runs past
    the message, or a point that does not unmarshal, gives the
    invalid-ServerKeyExchange error with [curveID] and [curve] set (and the
    returned point stored).  In every case the message, [auth] and
    [verifyError] are as before. *)
Theorem ecdhe_processServerKeyExchange_rejections
    (ka : t A) (config : Config) (clientHello : clientHelloMsg)
    (serverHello : serverHelloMsg) (cert : x509_Certificate)
    (skx : serverKeyExchangeMsg) :
  let k := key skx in
  let id := int (at_ k 1) * 256 + int (at_ k 2) in
  let n := int (at_ k 3) in
  let run := processServerKeyExchange ka config clientHello serverHello cert skx in
  (len k < 4 -> run = (ka, skx, Some errServerKeyExchange)) /\
  (4 <= len k -> int (at_ k 0) <> 3 -> run = (ka, skx, Some errUnsupportedCurve)) /\
  (4 <= len k -> int (at_ k 0) = 3 ->
   (curveForCurveID id = (None, false) ->
    run = (with_curve (with_curveID ka id) None, skx, Some errUnsupportedCurve)) /\
   (forall c, curveForCurveID id = (Some c, true) ->
      (len k < n + 4 ->
       run = (with_curve (with_curveID ka id) (Some c), skx, Some errServerKeyExchange)) /\
      (n + 4 <= len k -> forall pub,
         Unmarshal (ecdh_curve c) (slice_from (slice_to k (4 + n)) 4) = (pub, false) ->
         run = (with_serverPublicKey (with_curve (with_curveID ka id) (Some c)) pub,
                skx, Some errServerKeyExchange)))).
Proof.
  intros k id n run. subst run. unfold processServerKeyExchange. fold k.
  cbn [curveID with_curveID].
  rewrite (lor_shiftl8 (int (at_ k 1)) (int (at_ k 2)))
    by (try apply int_range; apply int_range).
  fold id n.
  split; [intros Hlen; apply Z.ltb_lt in Hlen; rewrite Hlen; reflexivity|].
  split.
  - intros Hlen Hty. apply Z.ltb_ge in Hlen. apply Z.eqb_neq in Hty.
    rewrite Hlen, Hty. reflexivity.
  - intros Hlen Hty. apply Z.ltb_ge in Hlen. apply Z.eqb_eq in Hty.
    rewrite Hlen, Hty. cbn [negb]. split.
    + intros Hc. rewrite Hc. reflexivity.
    + intros c Hc. rewrite Hc. split.
      * intros Hn. apply Z.ltb_lt in Hn. rewrite Hn. reflexivity.
      * intros Hn pub Hun. apply Z.ltb_ge in Hn. rewrite Hn, Hun. reflexivity.
Qed.

(** X9. How [ecdheKeyAgreement.generateServerKeyExchange] fails once a
    non-zero curve is selected.  When the selected identifier is not
    registered the operation returns "tls: preferredCurves includes
    unsupported curve" without reading the random source, with [curveID]
    already set to the identifier and [curve] nil.  When the key generation
    reports an error, that error is returned, with the curve recorded and
    [privateKey] set to what the generation returned. *)
Theorem ecdhe_generateServerKeyExchange_failures
    (ka : t A) (rnd : RandReader) (config : Config) (cert : Certificate)
    (clientHello : clientHelloMsg) (hello : serverHelloMsg) (id : CurveID) :
  selectCurve (curvePreferences config) (supportedCurves clientHello) = id ->
  id <> 0 ->
  (curveForCurveID id = (None, false) ->
   generateServerKeyExchange ka rnd config cert clientHello hello =
   (with_curve (with_curveID ka id) None, rnd,
    Err (errors_New "tls: preferredCurves includes unsupported curve"))) /\
  (forall c rnd1 priv pub err,
     curveForCurveID id = (Some c, true) ->
     GenerateKey (ecdh_curve c) rnd = (rnd1, (priv, pub, Some err)) ->
     generateServerKeyExchange ka rnd config cert clientHello hello =
     (with_privateKey (with_curve (with_curveID ka id) (Some c)) priv, rnd1, Err err)).
Proof.
  intros Hsel Hnz. apply Z.eqb_neq in Hnz. split.
  - intros Hc. unfold generateServerKeyExchange. rewrite Hsel, Hnz, Hc. reflexivity.
  - intros c rnd1 priv pub err Hc Hgen.
    unfold generateServerKeyExchange. rewrite Hsel, Hnz, Hc, Hgen. reflexivity.
Qed.

End EcdheRejections.

(** Messages of three bytes, with curve type 1, for the unregistered curve
    4, and with a point length of 9 in front of one byte. *)
Lemma ecdhe_processServerKeyExchange_rejections_witness :
  let run k := ecdheKeyAgreement.processServerKeyExchange Sample.ecdhe0
                 (Sample.config "" true) Sample.hello Sample.serverHello Sample.peerCert
                 {| key := map byte.of_Z k; digest := [] |} in
  snd (run [3; 0; 29]) = Some errServerKeyExchange /\
  snd (run [1; 0; 29; 0]) = Some errUnsupportedCurve /\
  (snd (run [3; 0; 4; 0]) = Some errUnsupportedCurve /\
   ecdheKeyAgreement.curveID (fst (fst (run [3; 0; 4; 0]))) = 4) /\
  (snd (run [3; 0; 29; 9; 1]) = Some errServerKeyExchange /\
   ecdheKeyAgreement.curve (fst (fst (run [3; 0; 29; 9; 1]))) = Some X25519).
Proof.
  intros run.
  pose proof (fun k => ecdhe_processServerKeyExchange_rejections Sample.ecdhe0
                (Sample.config "" true) Sample.hello Sample.serverHello Sample.peerCert
                {| key := map byte.of_Z k; digest := [] |}) as Hall.
  split; [|split; [|split]].
  - unfold run. rewrite (proj1 (Hall [3; 0; 29]) ltac:(vm_compute; reflexivity)).
    reflexivity.
  - unfold run.
    rewrite (proj1 (proj2 (Hall [1; 0; 29; 0])) ltac:(vm_compute; discriminate)
               ltac:(vm_compute; discriminate)).
    reflexivity.
  - unfold run.
    rewrite (proj1 (proj2 (proj2 (Hall [3; 0; 4; 0])) ltac:(vm_compute; discriminate)
               ltac:(vm_compute; reflexivity)) eq_refl).
    split; reflexivity.
  - unfold run.
    rewrite (proj1 (proj2 (proj2 (proj2 (Hall [3; 0; 29; 9; 1]))
               ltac:(vm_compute; discriminate) ltac:(vm_compute; reflexivity))
               X25519 eq_refl) ltac:(vm_compute; reflexivity)).
    split; reflexivity.
Defined.

(** A server whose only common curve with the client is the unregistered
    identifier 4. *)
Lemma ecdhe_generateServerKeyExchange_failures_witness :
  ecdheKeyAgreement.generateServerKeyExchange Sample.ecdhe0 (Sample.counter 8)
    {| KexConfig := ""; InsecureSkipVerify := false; curvePreferences := [4; CurveP256r1];
       signatureAndHashesForServer := []; signatureAndHashesForClient := [];
       ExportRSAKey := None |}
    Sample.serverCert
    {| vers := VersionTLS12; ch_random := []; supportedCurves := [4];
       signatureAndHashes := [] |}
    Sample.serverHello =
  (ecdheKeyAgreement.with_curve (ecdheKeyAgreement.with_curveID Sample.ecdhe0 4) None,
   Sample.counter 8, Err (errors_New "tls: preferredCurves includes unsupported curve")).
Proof.
  refine (proj1 (ecdhe_generateServerKeyExchange_failures Sample.ecdhe0 (Sample.counter 8)
            {| KexConfig := ""; InsecureSkipVerify := false;
               curvePreferences := [4; CurveP256r1];
               signatureAndHashesForServer := []; signatureAndHashesForClient := [];
               ExportRSAKey := None |}
            Sample.serverCert
            {| vers := VersionTLS12; ch_random := []; supportedCurves := [4];
               signatureAndHashes := [] |}
            Sample.serverHello 4 eq_refl _) eq_refl).
  discriminate.
Defined.

(** ** The RSA messages *)

Section RsaMessages.
Import rsaKeyAgreement.
Context {A : Type} `{keyAgreementAuthentication A} `{CryptoLib}.

Lemma rsa_processServerKeyExchange_malformed
    (ka : t A) (config : Config) (clientHello : clientHelloMsg)
    (serverHello : serverHelloMsg) (cert : x509_Certificate)
    (skx : serverKeyExchangeMsg) :
  ephemeral ka = true -> rsaParams (key skx) = None ->
  processServerKeyExchange ka config clientHello serverHello cert skx =
  (ka, skx, Some errServerKeyExchange).
Proof.
  unfold processServerKeyExchange. intros Heph; rewrite Heph.
  cbn [negb]. unfold rsaParams.
  destruct (key skx) as [|hi [|lo rest]]; try reflexivity.
  assert (Hlen : (len (hi :: lo :: rest) <? 2) = false).
  { apply Z.ltb_ge. rewrite !len_cons. pose proof (len_nonneg rest). lia. }
  rewrite Hlen, be16_cons. change (slice_from (hi :: lo :: rest) 2) with rest.
  rewrite (Z.ltb_antisym (int hi * 256 + int lo) (len rest)).
  destruct (int hi * 256 + int lo <=? len rest); [|reflexivity]. cbn [negb].
  destruct (slice_from rest (int hi * 256 + int lo)) as [|ehi [|elo erest]];
    try reflexivity.
  assert (Hlen' : (len (ehi :: elo :: erest) <? 2) = false).
  { apply Z.ltb_ge. rewrite !len_cons. pose proof (len_nonneg erest). lia. }
  rewrite Hlen', be16_cons. change (slice_from (ehi :: elo :: erest) 2) with erest.
  rewrite (Z.ltb_antisym (int ehi * 256 + int elo) (len erest)).
  rewrite (Z.ltb_antisym (int ehi * 256 + int elo) 4).
  destruct (int ehi * 256 + int elo <=? len erest);
    destruct (int ehi * 256 + int elo <=? 4); cbn [andb orb negb];
    try reflexivity; discriminate.
Qed.

(** X10. [rsaKeyAgreement.processServerKeyExchange] never changes the state
    when it does not reach the signature check.  Outside the ephemeral
    (export) mode it ignores the message altogether and returns nil; in
    ephemeral mode a message whose modulus or exponent field is truncated,
    or whose exponent is longer than four bytes, is answered with the
    invalid-ServerKeyExchange error, and the public key of the state is only
    assigned after all those checks. *)
Theorem rsa_processServerKeyExchange_unchanged
    (ka : t A) (config : Config) (clientHello : clientHelloMsg)
    (serverHello : serverHelloMsg) (cert : x509_Certificate)
    (skx : serverKeyExchangeMsg) :
  (ephemeral ka = false ->
   processServerKeyExchange ka config clientHello serverHello cert skx = (ka, skx, None)) /\
  (ephemeral ka = true -> rsaParams (key skx) = None ->
   processServerKeyExchange ka config clientHello serverHello cert skx =
   (ka, skx, Some errServerKeyExchange)).
Proof.
  split.
  - unfold processServerKeyExchange. intros Heph. rewrite Heph. reflexivity.
  - apply rsa_processServerKeyExchange_malformed.
Qed.

(** The run of the RSA server once the wire-format checks pass. *)
Lemma rsa_processClientKeyExchange_run
    (ka : t A) (rnd : RandReader) (config : Config) (cert : Certificate)
    (ckx : clientKeyExchangeMsg) (priv : rsa_PrivateKey)
    (rnd' : RandReader) (out : bytes) (derr : option error) :
  rsaWireOk (version ka) (ciphertext ckx) ->
  (46 <= List.length rnd)%nat ->
  privateKey ka = Some priv \/
  (privateKey ka = None /\ PrivateKey cert = RSAPrivateKey priv) ->
  rsa_DecryptPKCS1v15SessionKey (skipn 46 rnd) priv
    (rsaBody (version ka) (ciphertext ckx))
    ([Byte.x00; Byte.x00] ++ firstn 46 rnd) = (rnd', out, derr) ->
  processClientKeyExchange ka rnd config cert ckx =
  (rnd', match derr with Some e => Err e | None => Ok out end).
Proof.
  intros [Hlen Hpre] Hrnd Hkey Hdec.
  unfold processClientKeyExchange, io_ReadFull.
  replace (46 <=? List.length rnd)%nat with true
    by (symmetry; apply Nat.leb_le; exact Hrnd).
  replace (len (ciphertext ckx) <? 2) with false by (symmetry; apply Z.ltb_ge; exact Hlen).
  change (slice_to (repeat Byte.x00 48) 2 ++ firstn 46 rnd)
    with ([Byte.x00; Byte.x00] ++ firstn 46 rnd).
  assert (Hbody :
    (if negb (version ka =? VersionSSL30)
     then if negb (be16 (ciphertext ckx) =? len (ciphertext ckx) - 2) then None
          else Some (slice_from (ciphertext ckx) 2)
     else Some (ciphertext ckx)) = Some (rsaBody (version ka) (ciphertext ckx))).
  { unfold rsaBody. destruct (Z.eqb_spec (version ka) VersionSSL30) as [Hv|Hv];
      cbn [negb]; [reflexivity|].
    rewrite (Hpre Hv), Z.eqb_refl. reflexivity. }
  rewrite Hbody.
  destruct Hkey as [Hk|[Hk Hc]]; rewrite Hk; [|rewrite Hc]; rewrite Hdec;
    destruct derr; reflexivity.
Qed.

(** The run of the RSA client once the encryption succeeds. *)
Lemma rsa_generateClientKeyExchange_run
    (ka : t A) (rnd : RandReader) (config : Config) (clientHello : clientHelloMsg)
    (cert : x509_Certificate) (pub : rsa_PublicKey)
    (rnd' : RandReader) (encrypted : bytes) :
  (46 <= List.length rnd)%nat ->
  publicKey ka = Some pub \/
  (publicKey ka = None /\ PublicKey cert = RSAPublicKey pub) ->
  let secret := put16 (vers clientHello) ++ firstn 46 rnd in
  rsa_EncryptPKCS1v15 (skipn 46 rnd) pub secret = (rnd', Ok encrypted) ->
  generateClientKeyExchange ka rnd config clientHello cert =
  (rnd', Ok (secret,
             {| ciphertext := if version ka =? VersionSSL30 then encrypted
                              else put16 (len encrypted) ++ encrypted |})).
Proof.
  intros Hrnd Hkey secret Henc. unfold generateClientKeyExchange, io_ReadFull.
  replace (46 <=? List.length rnd)%nat with true
    by (symmetry; apply Nat.leb_le; exact Hrnd).
  change ([byte.of_Z (Z.shiftr (vers clientHello) 8); byte.of_Z (vers clientHello)]
            ++ firstn 46 rnd) with secret.
  destruct Hkey as [Hk|[Hk Hc]]; rewrite Hk; [|rewrite Hc]; rewrite Henc;
    destruct (version ka =? VersionSSL30); reflexivity.
Qed.

End RsaMessages.

Lemma rsa_message_reaches_decryption
    {A B : Type} `{CryptoLib}
    (kaC : rsaKeyAgreement.t A) (kaS : rsaKeyAgreement.t B)
    (rndC rndC' rndS rndS' : RandReader) (configC configS : Config)
    (clientHello : clientHelloMsg) (certC : x509_Certificate) (certS : Certificate)
    (pub : rsa_PublicKey) (priv : rsa_PrivateKey)
    (encrypted out : bytes) (derr : option error) :
  rsaKeyAgreement.version kaS = rsaKeyAgreement.version kaC ->
  (46 <= List.length rndC)%nat -> (46 <= List.length rndS)%nat ->
  rsaKeyAgreement.publicKey kaC = Some pub \/
  (rsaKeyAgreement.publicKey kaC = None /\ PublicKey certC = RSAPublicKey pub) ->
  rsaKeyAgreement.privateKey kaS = Some priv \/
  (rsaKeyAgreement.privateKey kaS = None /\ PrivateKey certS = RSAPrivateKey priv) ->
  let secret := put16 (vers clientHello) ++ firstn 46 rndC in
  rsa_EncryptPKCS1v15 (skipn 46 rndC) pub secret = (rndC', Ok encrypted) ->
  (if rsaKeyAgreement.version kaC =? VersionSSL30 then 2 <= len encrypted
   else len encrypted < 65536) ->
  rsa_DecryptPKCS1v15SessionKey (skipn 46 rndS) priv encrypted
    ([Byte.x00; Byte.x00] ++ firstn 46 rndS) = (rndS', out, derr) ->
  exists ckx,
    rsaKeyAgreement.generateClientKeyExchange kaC rndC configC clientHello certC =
    (rndC', Ok (secret, ckx)) /\
    rsaWireOk (rsaKeyAgreement.version kaS) (ciphertext ckx) /\
    rsaBody (rsaKeyAgreement.version kaS) (ciphertext ckx) = encrypted /\
    rsaKeyAgreement.processClientKeyExchange kaS rndS configS certS ckx =
    (rndS', match derr with Some e => Err e | None => Ok out end).
Proof.
  intros Hv HrC HrS HkC HkS secret Henc Hlen Hdec.
  eexists. split.
  { exact (rsa_generateClientKeyExchange_run kaC rndC configC clientHello certC pub rndC'
             encrypted HrC HkC Henc). }
  cbn [ciphertext].
  assert (Hwire : rsaWireOk (rsaKeyAgreement.version kaS)
                    (if rsaKeyAgreement.version kaC =? VersionSSL30 then encrypted
                     else put16 (len encrypted) ++ encrypted) /\
                  rsaBody (rsaKeyAgreement.version kaS)
                    (if rsaKeyAgreement.version kaC =? VersionSSL30 then encrypted
                     else put16 (len encrypted) ++ encrypted) = encrypted).
  { unfold rsaWireOk, rsaBody. rewrite Hv.
    destruct (Z.eqb_spec (rsaKeyAgreement.version kaC) VersionSSL30) as [Hs|Hs].
    - split; [split; [exact Hlen | intros Hn; contradiction] | reflexivity].
    - pose proof (len_nonneg encrypted) as Hl.
      assert (Hl2 : len (put16 (len encrypted) ++ encrypted) = len encrypted + 2).
      { rewrite len_app. unfold put16. rewrite !len_cons.
        change (len (@nil byte)) with 0. lia. }
      split; [split|reflexivity].
      + lia.
      + intros _. rewrite be16_put16, Hl2 by lia. lia. }
  destruct Hwire as [Hok Hbody]. split; [exact Hok|]. split; [exact Hbody|].
  apply (rsa_processClientKeyExchange_run kaS rndS configS certS
           {| ciphertext := if rsaKeyAgreement.version kaC =? VersionSSL30 then encrypted
                            else put16 (len encrypted) ++ encrypted |}
           priv rndS' out derr Hok HrS HkS).
  cbn [ciphertext]. rewrite Hbody. exact Hdec.
Qed.

(** X11. The RSA server decrypts exactly what the RSA client encrypted.  When
    both sides run the same protocol version, the ciphertext is shorter than
    65536 bytes (or, in SSL 3.0 where no length is written, has at least
    two bytes) and both random sources deliver their 46 bytes, the message
    of [generateClientKeyExchange] passes the wire-format checks of
    [processClientKeyExchange], and the server hands the client's ciphertext
    to [rsa.DecryptPKCS1v15SessionKey]: its outcome is the server's outcome. *)
Theorem rsa_client_message_reaches_decryption
    {A B : Type} `{CryptoLib}
    (kaC : rsaKeyAgreement.t A) (kaS : rsaKeyAgreement.t B)
    (rndC rndC' rndS rndS' : RandReader) (configC configS : Config)
    (clientHello : clientHelloMsg) (certC : x509_Certificate) (certS : Certificate)
    (pub : rsa_PublicKey) (priv : rsa_PrivateKey)
    (encrypted out : bytes) (derr : option error) :
  rsaKeyAgreement.version kaS = rsaKeyAgreement.version kaC ->
  (46 <= List.length rndC)%nat -> (46 <= List.length rndS)%nat ->
  rsaKeyAgreement.publicKey kaC = Some pub \/
  (rsaKeyAgreement.publicKey kaC = None /\ PublicKey certC = RSAPublicKey pub) ->
  rsaKeyAgreement.privateKey kaS = Some priv \/
  (rsaKeyAgreement.privateKey kaS = None /\ PrivateKey certS = RSAPrivateKey priv) ->
  let secret := put16 (vers clientHello) ++ firstn 46 rndC in
  rsa_EncryptPKCS1v15 (skipn 46 rndC) pub secret = (rndC', Ok encrypted) ->
  (if rsaKeyAgreement.version kaC =? VersionSSL30 then 2 <= len encrypted
   else len encrypted < 65536) ->
  rsa_DecryptPKCS1v15SessionKey (skipn 46 rndS) priv encrypted
    ([Byte.x00; Byte.x00] ++ firstn 46 rndS) = (rndS', out, derr) ->
  exists ckx,
    rsaKeyAgreement.generateClientKeyExchange kaC rndC configC clientHello certC =
    (rndC', Ok (secret, ckx)) /\
    rsaWireOk (rsaKeyAgreement.version kaS) (ciphertext ckx) /\
    rsaBody (rsaKeyAgreement.version kaS) (ciphertext ckx) = encrypted /\
    rsaKeyAgreement.processClientKeyExchange kaS rndS configS certS ckx =
    (rndS', match derr with Some e => Err e | None => Ok out end).
Proof.
  exact (rsa_message_reaches_decryption kaC kaS rndC rndC' rndS rndS' configC configS
           clientHello certC certS pub priv encrypted out derr).
Qed.

(** A message with a five-byte exponent, read outside and inside the
    ephemeral mode. *)
Lemma rsa_processServerKeyExchange_unchanged_witness :
  let skx := {| key := map byte.of_Z [0; 1; 77; 0; 5; 1; 0; 0; 0; 1]; digest := [] |} in
  rsaKeyAgreement.processServerKeyExchange (Sample.rsa0 VersionTLS10 false)
    (Sample.config "" false) Sample.hello Sample.serverHello Sample.peerCert skx =
  (Sample.rsa0 VersionTLS10 false, skx, None) /\
  rsaKeyAgreement.processServerKeyExchange (Sample.rsa0 VersionTLS10 true)
    (Sample.config "" false) Sample.hello Sample.serverHello Sample.peerCert skx =
  (Sample.rsa0 VersionTLS10 true, skx, Some errServerKeyExchange).
Proof.
  intros skx. split.
  - exact (proj1 (rsa_processServerKeyExchange_unchanged (Sample.rsa0 VersionTLS10 false)
                    (Sample.config "" false) Sample.hello Sample.serverHello
                    Sample.peerCert skx) eq_refl).
  - exact (proj2 (rsa_processServerKeyExchange_unchanged (Sample.rsa0 VersionTLS10 true)
                    (Sample.config "" false) Sample.hello Sample.serverHello
                    Sample.peerCert skx) eq_refl eq_refl).
Defined.

(** A TLS 1.2 client and server with a 64-byte modulus. *)
Lemma rsa_client_message_reaches_decryption_witness :
  exists ckx,
    rsaKeyAgreement.generateClientKeyExchange (Sample.rsa0 VersionTLS12 false)
      (Sample.counter 70) (Sample.config "" false) Sample.hello Sample.peerCert =
    (skipn 59 (Sample.counter 70),
     Ok (put16 VersionTLS12 ++ firstn 46 (Sample.counter 70), ckx)) /\
    rsaKeyAgreement.processClientKeyExchange (Sample.rsa0 VersionTLS12 false)
      (Sample.counter 50) (Sample.config "" false) Sample.serverCert ckx =
    (skipn 46 (Sample.counter 50),
     Ok ([Byte.x00; Byte.x00] ++ firstn 46 (Sample.counter 50))).
Proof.
  destruct (rsa_client_message_reaches_decryption
              (Sample.rsa0 VersionTLS12 false) (Sample.rsa0 VersionTLS12 false)
              (Sample.counter 70) (skipn 59 (Sample.counter 70))
              (Sample.counter 50) (skipn 46 (Sample.counter 50))
              (Sample.config "" false) (Sample.config "" false) Sample.hello
              Sample.peerCert Sample.serverCert (rsa_pub Sample.rsaKey) Sample.rsaKey
              (byte.of_Z 0 :: byte.of_Z 2 :: firstn 13 (skipn 46 (Sample.counter 70)) ++
               byte.of_Z 0 :: put16 VersionTLS12 ++ firstn 46 (Sample.counter 70))
              ([Byte.x00; Byte.x00] ++ firstn 46 (Sample.counter 50)) None)
    as (ckx & Hc & _ & _ & Hs).
  - reflexivity.
  - vm_compute. repeat constructor.
  - vm_compute. repeat constructor.
  - right. split; reflexivity.
  - right. split; reflexivity.
  - vm_compute. reflexivity.
  - vm_compute. reflexivity.
  - vm_compute. reflexivity.
  - exists ckx. split; [exact Hc | exact Hs].
Defined.

(** ** The hybrid hash of TLS 1.0 *)

Lemma copy_at_length (dst : bytes) (off : nat) (src : bytes) :
  List.length (copy_at dst off src) = List.length dst.
Proof.
  unfold copy_at. rewrite !length_app, !length_firstn, length_skipn. lia.
Qed.

Lemma copy_at_fits (dst : bytes) (off : nat) (src : bytes) :
  (off + List.length src <= List.length dst)%nat ->
  copy_at dst off src = firstn off dst ++ src ++ skipn (off + List.length src) dst.
Proof.
  intros Hfit. unfold copy_at.
  rewrite (firstn_all2 (n := List.length dst - off) src) by lia. reflexivity.
Qed.

Section HybridHash.
Context `{SignatureLib}.

Lemma md5SHA1Hash_length (slices : list bytes) : len (md5SHA1Hash slices) = 36.
Proof.
  unfold md5SHA1Hash, len. rewrite !copy_at_length, repeat_length. reflexivity.
Qed.

Lemma md5SHA1Hash_concat (slices : list bytes) :
  List.length (md5_Sum (List.concat slices)) = md5_Size ->
  List.length (sha1_Sum (List.concat slices)) = sha1_Size ->
  md5SHA1Hash slices = md5Hash slices ++ sha1Hash slices.
Proof.
  intros Hm Hs. unfold md5SHA1Hash, md5Hash, sha1Hash.
  set (m := md5_Sum _) in *. set (s := sha1_Sum _) in *.
  assert (H1 : copy_at (repeat Byte.x00 (md5_Size + sha1_Size)) 0 m =
               m ++ repeat Byte.x00 sha1_Size).
  { rewrite copy_at_fits by (rewrite repeat_length, Hm; unfold md5_Size, sha1_Size; lia).
    rewrite Hm. reflexivity. }
  rewrite H1.
  rewrite copy_at_fits
    by (rewrite length_app, repeat_length, Hm, Hs; unfold md5_Size, sha1_Size; lia).
  rewrite <- Hm at 1. rewrite firstn_length_app.
  rewrite skipn_all2
    by (rewrite length_app, repeat_length, Hm, Hs; unfold md5_Size, sha1_Size; lia).
  rewrite app_nil_r. reflexivity.
Qed.

(** X12. [md5SHA1Hash] always returns 36 bytes, whatever the two hash
    objects deliver, because both digests are copied into a buffer of
    [md5.Size + sha1.Size] bytes.  When the MD5 digest has its 16 bytes and
    the SHA-1 digest its 20, the result is the MD5 digest followed by the
    SHA-1 digest of the same slices. *)
Theorem md5SHA1Hash_concatenation (slices : list bytes) :
  len (md5SHA1Hash slices) = 36 /\
  (List.length (md5_Sum (List.concat slices)) = md5_Size ->
   List.length (sha1_Sum (List.concat slices)) = sha1_Size ->
   md5SHA1Hash slices = md5Hash slices ++ sha1Hash slices).
Proof.
  split; [apply md5SHA1Hash_length | apply md5SHA1Hash_concat].
Qed.

End HybridHash.

Lemma md5SHA1Hash_concatenation_witness :
  md5SHA1Hash [Sample.counter 3; Sample.counter 40] =
  md5Hash [Sample.counter 3; Sample.counter 40] ++
  sha1Hash [Sample.counter 3; Sample.counter 40].
Proof.
  apply (proj2 (md5SHA1Hash_concatenation [Sample.counter 3; Sample.counter 40]));
    reflexivity.
Defined.

(** ** Signed parameter authentication *)

Lemma len_put16_app (n : Z) (s : bytes) : len (put16 n ++ s) = len s + 2.
Proof. rewrite len_app. change (len (put16 n)) with 2. lia. Qed.

Section SignedAuthentication.
Context `{SignatureLib}.
Import signedKeyAgreement.

(** The hash identifiers that [hashForServerKeyExchange] knows. *)
Lemma hashForServerKeyExchange_known (sigType hashFunc version : Z) (slices : list bytes) :
  VersionTLS12 <= version ->
  snd (hashForServerKeyExchange sigType hashFunc version slices) = None ->
  In hashFunc [hashMD5; hashSHA1; hashSHA224; hashSHA256; hashSHA384; hashSHA512].
Proof.
  intros Hv. unfold hashForServerKeyExchange.
  destruct (Z.leb_spec VersionTLS12 version); [|lia].
  repeat match goal with
         | |- context [?a =? ?b] => destruct (Z.eqb_spec a b); [subst; simpl; tauto|]
         end.
  discriminate.
Qed.

Lemma signParameters_success (ka : t) (config : Config) (cert : Certificate)
    (clientHello : clientHelloMsg) (hello : serverHelloMsg) (params : bytes)
    (rnd rnd' : RandReader) (ka' : t) (skx : serverKeyExchangeMsg) :
  signParameters ka config cert clientHello hello params rnd = (ka', rnd', Ok skx) ->
  exists tls12HashId dig hashFunc sig,
    chosenHash ka config clientHello tls12HashId /\
    hashForServerKeyExchange (sigType ka) tls12HashId (version ka)
      [ch_random clientHello; sh_random hello; params] = (dig, hashFunc, None) /\
    skx = {| key := params ++ sigAndHashBytes (version ka) (sigType ka) tls12HashId ++
                    put16 (len sig) ++ sig;
             digest := dig |} /\
    ka' = signedState ka tls12HashId sig /\
    ((sigType ka = signatureECDSA /\
      exists d r s, PrivateKey cert = ECDSAPrivateKey d /\
                    ecdsa_Sign rnd d dig = (rnd', Ok (r, s)) /\
                    sig = fst (asn1_Marshal r s)) \/
     (sigType ka = signatureRSA /\
      exists k, PrivateKey cert = RSAPrivateKey k /\
                rsa_SignPKCS1v15 rnd k hashFunc dig = (rnd', Ok sig))).
Proof.
  unfold signParameters, chosenHash, sigAndHashBytes, signedState.
  assert (Hwith : forall ka0 id,
    version ka0 = version ka -> sigType ka0 = sigType ka ->
    signWith ka0 cert clientHello hello params id rnd = (ka', rnd', Ok skx) ->
    exists dig hashFunc sig,
      hashForServerKeyExchange (sigType ka) id (version ka)
        [ch_random clientHello; sh_random hello; params] = (dig, hashFunc, None) /\
      skx = {| key := params ++ (if VersionTLS12 <=? version ka
                                 then [byte.of_Z id; byte.of_Z (sigType ka)] else []) ++
                      put16 (len sig) ++ sig;
               digest := dig |} /\
      ka' = mk (version ka) (sigType ka) sig true
              {| signature := sigType ka; hash := hash (sh ka0) |} /\
      ((sigType ka = signatureECDSA /\
        exists d r s, PrivateKey cert = ECDSAPrivateKey d /\
                      ecdsa_Sign rnd d dig = (rnd', Ok (r, s)) /\
                      sig = fst (asn1_Marshal r s)) \/
       (sigType ka = signatureRSA /\
        exists k, PrivateKey cert = RSAPrivateKey k /\
                  rsa_SignPKCS1v15 rnd k hashFunc dig = (rnd', Ok sig)))).
  { intros ka0 id Hv Hs. unfold signWith, finishSign.
    destruct ka0 as [v0 s0 raw0 valid0 [sg0 h0]]. cbn in Hv, Hs. subst v0 s0.
    cbn [with_signature with_raw with_valid version sigType raw valid sh hash signature].
    destruct (hashForServerKeyExchange _ _ _ _) as [[dig hashFunc] [err|]];
      [discriminate|].
    destruct (Z.eqb_spec (sigType ka) signatureECDSA) as [He|He].
    - destruct (PrivateKey cert) as [k|d]; [discriminate|].
      destruct (ecdsa_Sign rnd d dig) as [rnd1 [[r s]|err|msg]] eqn:Hsign;
        try discriminate.
      destruct (asn1_Marshal r s) as [sig merr] eqn:Hm.
      intros [= <- <- <-].
      exists dig, hashFunc, sig.
      split; [reflexivity|]. split; [reflexivity|]. split; [reflexivity|].
      left. split; [exact He|]. exists d, r, s. rewrite Hm. auto.
    - destruct (Z.eqb_spec (sigType ka) signatureRSA) as [Hr|Hr]; [|discriminate].
      destruct (PrivateKey cert) as [k|d]; [|discriminate].
      destruct (rsa_SignPKCS1v15 rnd k hashFunc dig) as [rnd1 [sig|err|msg]] eqn:Hsign;
        try discriminate.
      intros [= <- <- <-].
      exists dig, hashFunc, sig.
      split; [reflexivity|]. split; [reflexivity|]. split; [reflexivity|].
      right. split; [exact Hr|]. exists k. auto. }
  destruct (VersionTLS12 <=? version ka) eqn:Hv.
  - destruct (pickTLS12HashForSignature _ _ _) as [id|err|msg]; try discriminate.
    intros Hrun. apply Hwith in Hrun; [|reflexivity|reflexivity].
    destruct Hrun as (dig & hashFunc & sig & Hh & Hskx & Hka & Hcase).
    exists id, dig, hashFunc, sig. repeat split; assumption.
  - intros Hrun. apply Hwith in Hrun; [|reflexivity|reflexivity].
    destruct Hrun as (dig & hashFunc & sig & Hh & Hskx & Hka & Hcase).
    exists 0, dig, hashFunc, sig. repeat split; assumption.
Qed.


Lemma verifyFramed_run (ka : t) (clientHello : clientHelloMsg)
    (serverHello : serverHelloMsg) (cert : x509_Certificate) (params : bytes)
    (tls12HashId : Z) (sig : bytes) :
  len sig < 65536 ->
  verifyFramed ka clientHello serverHello cert params tls12HashId
    (put16 (len sig) ++ sig) =
  match hashForServerKeyExchange (sigType ka) tls12HashId (version ka)
          [ch_random clientHello; sh_random serverHello; params] with
  | (_, _, Some err) => (with_raw ka sig, ([], Some err))
  | (dig, hashFunc, None) =>
      match checkSignature ka cert hashFunc dig sig with
      | Some err => (with_raw ka sig, ([], Some err))
      | None => (with_valid (with_raw ka sig) true, (dig, None))
      end
  end.
Proof.
  intros Hlen. unfold verifyFramed.
  rewrite be16_put16 by (pose proof (len_nonneg sig); lia).
  replace (len (put16 (len sig) ++ sig)) with (len sig + 2)
    by (rewrite len_put16_app; reflexivity).
  rewrite Z.eqb_refl. cbn [negb].
  change (slice_from (put16 (len sig) ++ sig) 2) with sig.
  reflexivity.
Qed.

Lemma verifyParameters_framed (ka : t) (config : Config) (clientHello : clientHelloMsg)
    (serverHello : serverHelloMsg) (cert : x509_Certificate) (params : bytes)
    (tls12HashId : Z) (sig : bytes) :
  len sig < 65536 ->
  0 <= tls12HashId < 256 -> 0 <= sigType ka < 256 ->
  (VersionTLS12 <= version ka ->
   isSupportedSignatureAndHash {| signature := sigType ka; hash := tls12HashId |}
     (signatureAndHashesForClient config) = true) ->
  (version ka < VersionTLS12 -> tls12HashId = 0) ->
  verifyParameters ka config clientHello serverHello cert params
    (sigAndHashBytes (version ka) (sigType ka) tls12HashId ++ put16 (len sig) ++ sig) =
  let ka1 :=
    if VersionTLS12 <=? version ka
    then with_signature (with_hash ka tls12HashId) (sigType ka) else ka in
  match hashForServerKeyExchange (sigType ka) tls12HashId (version ka)
          [ch_random clientHello; sh_random serverHello; params] with
  | (_, _, Some err) => (with_raw ka1 sig, ([], Some err))
  | (dig, hashFunc, None) =>
      match checkSignature ka cert hashFunc dig sig with
      | Some err => (with_raw ka1 sig, ([], Some err))
      | None => (with_valid (with_raw ka1 sig) true, (dig, None))
      end
  end.
Proof.
  intros Hlen Hid Hsig Hsup Hold. unfold verifyParameters, sigAndHashBytes.
  pose proof (len_nonneg sig) as Hnn.
  destruct (Z.leb_spec VersionTLS12 (version ka)) as [Hv|Hv].
  - replace (len ([byte.of_Z tls12HashId; byte.of_Z (sigType ka)] ++ put16 (len sig) ++ sig))
      with (len sig + 4)
      by (rewrite len_app, len_put16_app;
          change (len [byte.of_Z tls12HashId; byte.of_Z (sigType ka)]) with 2; lia).
    destruct (Z.ltb_spec (len sig + 4) 2); [lia|].
    change (slice_from ([byte.of_Z tls12HashId; byte.of_Z (sigType ka)] ++
                        put16 (len sig) ++ sig) 2) with (put16 (len sig) ++ sig).
    change (slice_to ([byte.of_Z tls12HashId; byte.of_Z (sigType ka)] ++
                      put16 (len sig) ++ sig) 2)
      with [byte.of_Z tls12HashId; byte.of_Z (sigType ka)].
    cbv zeta. change (at_ [byte.of_Z tls12HashId; byte.of_Z (sigType ka)] 0)
      with (byte.of_Z tls12HashId).
    change (at_ [byte.of_Z tls12HashId; byte.of_Z (sigType ka)] 1)
      with (byte.of_Z (sigType ka)).
    rewrite !int_of_Z, !Z.mod_small by lia.
    change (sigType (with_signature (with_hash ka tls12HashId) (sigType ka)))
      with (sigType ka).
    rewrite Z.eqb_refl. cbn [negb].
    replace (len (put16 (len sig) ++ sig)) with (len sig + 2)
      by (rewrite len_put16_app; reflexivity).
    destruct (Z.ltb_spec (len sig + 2) 2); [lia|].
    rewrite (Hsup Hv). cbn [negb].
    rewrite verifyFramed_run by exact Hlen.
    reflexivity.
  - rewrite (Hold Hv). cbn [app].
    replace (len (put16 (len sig) ++ sig)) with (len sig + 2)
      by (rewrite len_put16_app; reflexivity).
    destruct (Z.ltb_spec (len sig + 2) 2); [lia|].
    rewrite verifyFramed_run by exact Hlen.
    reflexivity.
Qed.

(** What [verifyParameters] keeps and when it sets [valid]. *)
Lemma verifyFramed_frame (ka : t) (clientHello : clientHelloMsg)
    (serverHello : serverHelloMsg) (cert : x509_Certificate) (params : bytes)
    (tls12HashId : Z) (sig : bytes) :
  let r := verifyFramed ka clientHello serverHello cert params tls12HashId sig in
  version (fst r) = version ka /\ sigType (fst r) = sigType ka /\ sh (fst r) = sh ka /\
  match snd (snd r) with
  | None => valid (fst r) = true
  | Some _ => valid (fst r) = valid ka /\ fst (snd r) = []
  end.
Proof.
  unfold verifyFramed. cbv zeta.
  destruct (negb _); [cbn; auto|].
  change (sigType (with_raw ka (slice_from sig 2))) with (sigType ka).
  change (version (with_raw ka (slice_from sig 2))) with (version ka).
  destruct (hashForServerKeyExchange _ _ _ _) as [[dig hashFunc] [err|]]; [cbn; auto|].
  destruct (checkSignature _ _ _ _ _) as [err|]; cbn; auto.
Qed.


Lemma verifyParameters_frame (ka : t) (config : Config) (clientHello : clientHelloMsg)
    (serverHello : serverHelloMsg) (cert : x509_Certificate) (params sig : bytes) :
  let r := verifyParameters ka config clientHello serverHello cert params sig in
  version (fst r) = version ka /\ sigType (fst r) = sigType ka /\
  match snd (snd r) with
  | None => valid (fst r) = true /\ 2 <= len sig /\ len (raw (fst r)) < 65536
  | Some _ => valid (fst r) = valid ka /\ fst (snd r) = []
  end.
Proof.
  assert (Hraw : forall ka0 id s,
    snd (snd (verifyFramed ka0 clientHello serverHello cert params id s)) = None ->
    len (raw (fst (verifyFramed ka0 clientHello serverHello cert params id s))) < 65536).
  { intros ka0 id s. unfold verifyFramed. cbv zeta.
    destruct (Z.eqb_spec (be16 s + 2) (len s)) as [He|He]; cbn [negb]; [|discriminate].
    destruct (hashForServerKeyExchange _ _ _ _) as [[dig hashFunc] [err|]];
      [discriminate|].
    destruct (checkSignature _ _ _ _ _) as [err|]; [discriminate|].
    intros _. cbn [fst raw with_valid with_raw].
    pose proof (be16_range s) as Hb.
    unfold slice_from, len in *. rewrite length_skipn.
    change (Z.to_nat 2) with 2%nat. lia. }
  unfold verifyParameters. cbv zeta.
  destruct (Z.ltb_spec (len sig) 2) as [Hl|Hl]; [cbn; auto|].
  destruct (VersionTLS12 <=? version ka).
  - set (ka1 := with_signature _ _).
    change (sigType ka1) with (sigType ka).
    destruct (negb (_ =? _)); [cbn; auto|].
    destruct (_ <? 2); [cbn; auto|].
    destruct (negb (isSupportedSignatureAndHash _ _)); [cbn; auto|].
    pose proof (verifyFramed_frame ka1 clientHello serverHello cert params
                  (int (at_ (slice_to sig 2) 0)) (slice_from sig 2)) as Hf.
    pose proof (Hraw ka1 (int (at_ (slice_to sig 2) 0)) (slice_from sig 2)) as Hr.
    cbv zeta in Hf. destruct Hf as (Hv & Hs & _ & Hvalid).
    change (version ka1) with (version ka) in Hv.
    change (sigType ka1) with (sigType ka) in Hs.
    change (valid ka1) with (valid ka) in Hvalid.
    split; [exact Hv|]. split; [exact Hs|].
    destruct (snd (snd (verifyFramed _ _ _ _ _ _ _))); [exact Hvalid|].
    split; [exact Hvalid|]. split; [exact Hl|]. apply Hr. reflexivity.
  - pose proof (verifyFramed_frame ka clientHello serverHello cert params 0 sig) as Hf.
    pose proof (Hraw ka 0 sig) as Hr.
    cbv zeta in Hf. destruct Hf as (Hv & Hs & _ & Hvalid).
    split; [exact Hv|]. split; [exact Hs|].
    destruct (snd (snd (verifyFramed _ _ _ _ _ _ _))); [exact Hvalid|].
    split; [exact Hvalid|]. split; [exact Hl|]. apply Hr. reflexivity.
Qed.


Lemma verifyParameters_bad_length (ka : t) (config : Config) (clientHello : clientHelloMsg)
    (serverHello : serverHelloMsg) (cert : x509_Certificate) (params sig : bytes) :
  let body := if VersionTLS12 <=? version ka then slice_from sig 2 else sig in
  be16 body + 2 <> len body ->
  let r := verifyParameters ka config clientHello serverHello cert params sig in
  (snd (snd r) = Some errServerKeyExchange \/
   (VersionTLS12 <= version ka /\
    snd (snd r) =
    Some (errors_New "tls: unsupported hash function for ServerKeyExchange"))) /\
  fst (snd r) = [] /\ raw (fst r) = raw ka /\ valid (fst r) = valid ka.
Proof.
  intros body Hbad. unfold verifyParameters. cbv zeta.
  destruct (Z.ltb_spec (len sig) 2) as [Hl|Hl]; [cbn; auto|].
  subst body.
  destruct (Z.leb_spec VersionTLS12 (version ka)) as [Hv|Hv].
  - destruct (negb (_ =? _)); [cbn; auto|].
    destruct (_ <? 2); [cbn; auto|].
    destruct (negb (isSupportedSignatureAndHash _ _)); [cbn; auto|].
    unfold verifyFramed. cbv zeta.
    destruct (Z.eqb_spec (be16 (slice_from sig 2) + 2) (len (slice_from sig 2)));
      [contradiction|].
    cbn. auto.
  - unfold verifyFramed. cbv zeta.
    destruct (Z.eqb_spec (be16 sig + 2) (len sig)); [contradiction|].
    cbn. auto.
Qed.

Lemma hashForServerKeyExchange_old (sigType h h' version : Z) (slices : list bytes) :
  version < VersionTLS12 ->
  hashForServerKeyExchange sigType h version slices =
  hashForServerKeyExchange sigType h' version slices.
Proof.
  intros Hv. unfold hashForServerKeyExchange.
  destruct (Z.leb_spec VersionTLS12 version); [lia|reflexivity].
Qed.

Lemma checkSignature_sigType (ka ka0 : t) (cert : x509_Certificate)
    (hashFunc : crypto_Hash) (dig sig : bytes) :
  sigType ka = sigType ka0 ->
  checkSignature ka cert hashFunc dig sig = checkSignature ka0 cert hashFunc dig sig.
Proof. intros Hs. unfold checkSignature. rewrite Hs. reflexivity. Qed.

Lemma sign_then_verify (kaS kaC kaS' : t) (configS configC : Config)
    (cert : Certificate) (peer : x509_Certificate) (clientHello : clientHelloMsg)
    (hello : serverHelloMsg) (params : bytes) (rnd rnd' : RandReader)
    (skx : serverKeyExchangeMsg) :
  signParameters kaS configS cert clientHello hello params rnd = (kaS', rnd', Ok skx) ->
  version kaC = version kaS -> sigType kaC = sigType kaS ->
  len (raw kaS') < 65536 ->
  (VersionTLS12 <= version kaS ->
   isSupportedSignatureAndHash (sh kaS') (signatureAndHashesForClient configC) = true) ->
  exists blob,
    key skx = params ++ blob /\
    let hashFunc :=
      snd (fst (hashForServerKeyExchange (sigType kaS) (hash (sh kaS')) (version kaS)
                  [ch_random clientHello; sh_random hello; params])) in
    let r := verifyParameters kaC configC clientHello hello peer params blob in
    raw (fst r) = raw kaS' /\
    (VersionTLS12 <= version kaS -> sh (fst r) = sh kaS') /\
    snd (snd r) = checkSignature kaC peer hashFunc (digest skx) (raw kaS') /\
    (snd (snd r) = None -> fst (snd r) = digest skx /\ valid (fst r) = true).
Proof.
  intros Hrun Hv Hs Hlen Hsup.
  apply signParameters_success in Hrun.
  destruct Hrun as (id & dig & hashFunc & sig & Hid & Hhash & -> & -> & Hcase).
  exists (sigAndHashBytes (version kaS) (sigType kaS) id ++ put16 (len sig) ++ sig).
  split; [reflexivity|].
  cbn [raw signedState sh hash digest] in *.
  assert (Hsrange : 0 <= sigType kaS < 256).
  { destruct Hcase as [[-> _]|[-> _]]; unfold signatureECDSA, signatureRSA; lia. }
  assert (Hidrange : 0 <= id < 256 /\ (version kaS < VersionTLS12 -> id = 0)).
  { unfold chosenHash in Hid.
    destruct (Z.leb_spec VersionTLS12 (version kaS)) as [Hv12|Hv12].
    - split; [|lia].
      assert (Hk := hashForServerKeyExchange_known (sigType kaS) id (version kaS)
                      [ch_random clientHello; sh_random hello; params] Hv12).
      rewrite Hhash in Hk. specialize (Hk eq_refl).
      unfold hashMD5, hashSHA1, hashSHA224, hashSHA256, hashSHA384, hashSHA512 in Hk.
      simpl in Hk. lia.
    - subst id. split; [lia|reflexivity]. }
  destruct Hidrange as [Hidrange Hold].
  assert (Hhash' :
    hashForServerKeyExchange (sigType kaS)
      (if VersionTLS12 <=? version kaS then id else hash (sh kaS)) (version kaS)
      [ch_random clientHello; sh_random hello; params] = (dig, hashFunc, None)).
  { destruct (Z.leb_spec VersionTLS12 (version kaS)) as [Hv12|Hv12]; [exact Hhash|].
    rewrite (hashForServerKeyExchange_old _ _ id) by exact Hv12. exact Hhash. }
  rewrite Hhash'. cbn [fst snd]. cbv zeta.
  pose proof (verifyParameters_framed kaC configC clientHello hello peer params id sig
                Hlen Hidrange) as Hver.
  rewrite Hv, Hs in Hver.
  rewrite Hver; clear Hver.
  - rewrite Hhash.
    destruct (checkSignature kaC peer hashFunc dig sig) as [err|] eqn:Hcheck.
    + cbn [fst snd raw with_raw]. split; [reflexivity|].
      split; [|split; [reflexivity|discriminate]].
      intros Hv12. destruct (Z.leb_spec VersionTLS12 (version kaS)); [|lia].
      reflexivity.
    + cbn [fst snd raw with_raw with_valid valid]. split; [reflexivity|].
      split; [|split; [reflexivity|auto]].
      intros Hv12. destruct (Z.leb_spec VersionTLS12 (version kaS)); [|lia].
      reflexivity.
  - exact Hsrange.
  - intros Hv12. specialize (Hsup Hv12).
    destruct (Z.leb_spec VersionTLS12 (version kaS)); [|lia]. exact Hsup.
  - exact Hold.
Qed.


(** X13. [verifyParameters] reads back what [signParameters] wrote.  When the
    server signs [params] successfully with a signature shorter than 65536
    bytes and the client runs the same version and signature type (and, from
    TLS 1.2 on, supports the pair of signature and hash that the server
    chose), the server's message is [params] followed by a signature part on
    which the client recovers the same signature bytes in [raw] and the same
    hash identifier, computes the same digest and returns exactly the
    outcome of the signature check for its certificate: the digest and a
    set [valid] when the check passes. *)
Theorem signed_sign_then_verify (kaS kaC kaS' : t) (configS configC : Config)
    (cert : Certificate) (peer : x509_Certificate) (clientHello : clientHelloMsg)
    (hello : serverHelloMsg) (params : bytes) (rnd rnd' : RandReader)
    (skx : serverKeyExchangeMsg) :
  signParameters kaS configS cert clientHello hello params rnd = (kaS', rnd', Ok skx) ->
  version kaC = version kaS -> sigType kaC = sigType kaS ->
  len (raw kaS') < 65536 ->
  (VersionTLS12 <= version kaS ->
   isSupportedSignatureAndHash (sh kaS') (signatureAndHashesForClient configC) = true) ->
  exists blob,
    key skx = params ++ blob /\
    let hashFunc :=
      snd (fst (hashForServerKeyExchange (sigType kaS) (hash (sh kaS')) (version kaS)
                  [ch_random clientHello; sh_random hello; params])) in
    let r := verifyParameters kaC configC clientHello hello peer params blob in
    raw (fst r) = raw kaS' /\
    (VersionTLS12 <= version kaS -> sh (fst r) = sh kaS') /\
    snd (snd r) = checkSignature kaC peer hashFunc (digest skx) (raw kaS') /\
    (snd (snd r) = None -> fst (snd r) = digest skx /\ valid (fst r) = true).
Proof. exact (sign_then_verify kaS kaC kaS' configS configC cert peer clientHello hello
                params rnd rnd' skx). Qed.

End SignedAuthentication.

Lemma signed_sign_then_verify_witness :
  exists blob,
    key (snd Sample.signedRun) = Sample.counter 5 ++ blob /\
    let r := signedKeyAgreement.verifyParameters
               (Sample.signed0 VersionTLS12 signatureRSA)
               Sample.config12 Sample.hello12 Sample.serverHello12 Sample.peerCert
               (Sample.counter 5) blob in
    snd (snd r) = None /\ fst (snd r) = digest (snd Sample.signedRun) /\
    signedKeyAgreement.raw (fst r) = signedKeyAgreement.raw (fst (fst Sample.signedRun)).
Proof.
  assert (Hrun :
    signedKeyAgreement.signParameters (Sample.signed0 VersionTLS12 signatureRSA)
      Sample.config12 Sample.serverCert Sample.hello12 Sample.serverHello12
      (Sample.counter 5) [] =
    (fst (fst Sample.signedRun), snd (fst Sample.signedRun), Ok (snd Sample.signedRun)))
    by (vm_compute; reflexivity).
  assert (Hlen : len (signedKeyAgreement.raw (fst (fst Sample.signedRun))) < 65536)
    by (vm_compute; reflexivity).
  assert (Hsup : VersionTLS12 <= VersionTLS12 ->
    isSupportedSignatureAndHash (signedKeyAgreement.sh (fst (fst Sample.signedRun)))
      (signatureAndHashesForClient Sample.config12) = true)
    by (intros _; vm_compute; reflexivity).
  destruct (signed_sign_then_verify _ (Sample.signed0 VersionTLS12 signatureRSA) _ _
              Sample.config12 _ Sample.peerCert _ _ _ _ _ _ Hrun eq_refl eq_refl Hlen Hsup)
    as (blob & Hkey & Hraw & _ & Herr & Hdig).
  exists blob. split; [exact Hkey|]. cbv zeta.
  assert (Hnone :
    snd (snd (signedKeyAgreement.verifyParameters
                (Sample.signed0 VersionTLS12 signatureRSA)
                Sample.config12 Sample.hello12 Sample.serverHello12 Sample.peerCert
                (Sample.counter 5) blob)) = None).
  { rewrite Herr. vm_compute. reflexivity. }
  split; [exact Hnone|]. split; [exact (proj1 (Hdig Hnone))|exact Hraw].
Defined.

Section SignedAuthenticationOutcomes.
Context `{SignatureLib}.
Import signedKeyAgreement.

(** X14. What a successful [signedKeyAgreement.signParameters] has done.  The
    message is the signed parameters, then from TLS 1.2 on the hash
    identifier recorded in [sh] and the signature type, then the 16-bit
    length of the signature and the signature, which is also stored in
    [raw]; [valid] is set, [sh.signature] is the signature type, and
    [version] and [sigType] are unchanged.  It succeeds only for ECDSA with an
    ECDSA private key or RSA with an RSA private key: never for the DSA
    signature type, which [verifyParameters] does handle. *)
Theorem signed_signParameters_message (ka ka' : t) (config : Config) (cert : Certificate)
    (clientHello : clientHelloMsg) (hello : serverHelloMsg) (params : bytes)
    (rnd rnd' : RandReader) (skx : serverKeyExchangeMsg) :
  signParameters ka config cert clientHello hello params rnd = (ka', rnd', Ok skx) ->
  key skx = params ++ sigAndHashBytes (version ka) (sigType ka) (hash (sh ka')) ++
            put16 (len (raw ka')) ++ raw ka' /\
  valid ka' = true /\ signature (sh ka') = sigType ka /\
  version ka' = version ka /\ sigType ka' = sigType ka /\
  sigType ka <> signatureDSA /\
  ((sigType ka = signatureECDSA /\ exists d, PrivateKey cert = ECDSAPrivateKey d) \/
   (sigType ka = signatureRSA /\ exists k, PrivateKey cert = RSAPrivateKey k)).
Proof.
  intros Hrun. apply signParameters_success in Hrun.
  destruct Hrun as (id & dig & hashFunc & sig & Hid & Hhash & -> & -> & Hcase).
  cbn [key signedState raw valid sh signature hash version sigType].
  split.
  { unfold sigAndHashBytes. destruct (VersionTLS12 <=? version ka); reflexivity. }
  repeat (split; [reflexivity|]).
  split.
  { destruct Hcase as [[-> _]|[-> _]]; discriminate. }
  destruct Hcase as [[Hs (d & r & s & Hk & _)]|[Hs (k & Hk & _)]].
  - left. split; [exact Hs|]. exists d. exact Hk.
  - right. split; [exact Hs|]. exists k. exact Hk.
Qed.

(** X15. In the ECDSA case [signParameters] never looks at the error of
    [asn1.Marshal].  Once the hash is chosen and [ecdsa.Sign] has returned
    [r] and [s], the call succeeds with whatever bytes [asn1.Marshal]
    returned as the signature, also when it reported an error: the message
    then carries those bytes behind their length and [valid] is set. *)
Theorem signed_signParameters_ignores_marshal_error (ka : t) (config : Config)
    (cert : Certificate) (clientHello : clientHelloMsg) (hello : serverHelloMsg)
    (params : bytes) (rnd rnd' : RandReader) (d tls12HashId r s : Z)
    (dig sig : bytes) (hashFunc : crypto_Hash) (merr : option error) :
  sigType ka = signatureECDSA ->
  PrivateKey cert = ECDSAPrivateKey d ->
  chosenHash ka config clientHello tls12HashId ->
  hashForServerKeyExchange (sigType ka) tls12HashId (version ka)
    [ch_random clientHello; sh_random hello; params] = (dig, hashFunc, None) ->
  ecdsa_Sign rnd d dig = (rnd', Ok (r, s)) ->
  asn1_Marshal r s = (sig, merr) ->
  signParameters ka config cert clientHello hello params rnd =
  (signedState ka tls12HashId sig, rnd',
   Ok {| key := params ++ sigAndHashBytes (version ka) (sigType ka) tls12HashId ++
                put16 (len sig) ++ sig;
         digest := dig |}).
Proof.
  intros Hs Hk Hid Hhash Hsign Hm.
  unfold signParameters, chosenHash, signedState, sigAndHashBytes in *.
  assert (Hwith : forall ka0,
    version ka0 = version ka -> sigType ka0 = sigType ka ->
    signWith ka0 cert clientHello hello params tls12HashId rnd =
    (mk (version ka) (sigType ka) sig true
        {| signature := sigType ka; hash := hash (sh ka0) |}, rnd',
     Ok {| key := params ++ (if VersionTLS12 <=? version ka
                             then [byte.of_Z tls12HashId; byte.of_Z (sigType ka)]
                             else []) ++ put16 (len sig) ++ sig;
           digest := dig |})).
  { intros ka0 Hv0 Hs0. unfold signWith, finishSign.
    destruct ka0 as [v0 s0 raw0 valid0 [sg0 h0]]. cbn in Hv0, Hs0. subst v0 s0.
    cbn [with_signature with_raw with_valid version sigType raw valid sh hash signature].
    rewrite Hhash, Hs, Z.eqb_refl, Hk, Hsign, Hm. reflexivity. }
  destruct (VersionTLS12 <=? version ka).
  - rewrite Hid. rewrite Hwith by reflexivity. reflexivity.
  - subst tls12HashId. rewrite Hwith by reflexivity. reflexivity.
Qed.

(** X16. [signedKeyAgreement.verifyParameters] never changes [version] or
    [sigType].  When it returns no error it has set [valid], the input had at
    least two bytes and the signature left in [raw] is shorter than 65536
    bytes; when it returns an error it returns no digest and [valid] is what
    it was before the call. *)
Theorem signed_verifyParameters_valid_on_success (ka : t) (config : Config)
    (clientHello : clientHelloMsg) (serverHello : serverHelloMsg)
    (cert : x509_Certificate) (params sig : bytes) :
  let r := verifyParameters ka config clientHello serverHello cert params sig in
  version (fst r) = version ka /\ sigType (fst r) = sigType ka /\
  match snd (snd r) with
  | None => valid (fst r) = true /\ 2 <= len sig /\ len (raw (fst r)) < 65536
  | Some _ => valid (fst r) = valid ka /\ fst (snd r) = []
  end.
Proof. exact (verifyParameters_frame ka config clientHello serverHello cert params sig). Qed.

(** X17. [verifyParameters] rejects a signature part whose 16-bit length
    field does not count exactly the bytes behind it (from TLS 1.2 on, the
    field is read behind the two bytes of hash and signature identifier; a
    part too short to hold the field is rejected as well).  The error is the
    invalid-ServerKeyExchange error, or from TLS 1.2 on the unsupported-hash
    error when that check fails first; no digest is returned and [raw] and
    [valid] keep their values. *)
Theorem signed_verifyParameters_length_field (ka : t) (config : Config)
    (clientHello : clientHelloMsg) (serverHello : serverHelloMsg)
    (cert : x509_Certificate) (params sig : bytes) :
  let body := if VersionTLS12 <=? version ka then slice_from sig 2 else sig in
  be16 body + 2 <> len body ->
  let r := verifyParameters ka config clientHello serverHello cert params sig in
  (snd (snd r) = Some errServerKeyExchange \/
   (VersionTLS12 <= version ka /\
    snd (snd r) =
    Some (errors_New "tls: unsupported hash function for ServerKeyExchange"))) /\
  fst (snd r) = [] /\ raw (fst r) = raw ka /\ valid (fst r) = valid ka.
Proof. exact (verifyParameters_bad_length ka config clientHello serverHello cert params sig). Qed.

End SignedAuthenticationOutcomes.

Lemma signed_signParameters_message_witness :
  key (snd Sample.signedRun) =
  Sample.counter 5 ++ [byte.of_Z hashSHA256; byte.of_Z signatureRSA] ++
  put16 64 ++ signedKeyAgreement.raw (fst (fst Sample.signedRun)) /\
  signedKeyAgreement.valid (fst (fst Sample.signedRun)) = true.
Proof.
  assert (Hrun :
    signedKeyAgreement.signParameters (Sample.signed0 VersionTLS12 signatureRSA)
      Sample.config12 Sample.serverCert Sample.hello12 Sample.serverHello12
      (Sample.counter 5) [] =
    (fst (fst Sample.signedRun), snd (fst Sample.signedRun), Ok (snd Sample.signedRun)))
    by (vm_compute; reflexivity).
  destruct (signed_signParameters_message _ _ _ _ _ _ _ _ _ _ Hrun)
    as (Hkey & Hvalid & _).
  split; [|exact Hvalid]. rewrite Hkey. vm_compute. reflexivity.
Defined.

Lemma signed_signParameters_ignores_marshal_error_witness :
  signedKeyAgreement.signParameters (H := Sample.failingMarshal)
    (Sample.signed0 VersionTLS10 signatureECDSA)
    Sample.config12 Sample.ecdsaCert Sample.hello12 Sample.serverHello12
    (Sample.counter 5) (Sample.counter 1) =
  (signedKeyAgreement.mk VersionTLS10 signatureECDSA [] true
     {| signature := signatureECDSA; hash := 0 |}, [],
   Ok {| key := Sample.counter 5 ++ [Byte.x00; Byte.x00];
         digest := sha1Hash (H := Sample.failingMarshal)
                     [ch_random Sample.hello12; sh_random Sample.serverHello12;
                      Sample.counter 5] |}).
Proof.
  apply (signed_signParameters_ignores_marshal_error (H := Sample.failingMarshal)
           (Sample.signed0 VersionTLS10 signatureECDSA) Sample.config12 Sample.ecdsaCert
           Sample.hello12 Sample.serverHello12 (Sample.counter 5) (Sample.counter 1) []
           7 0 1
           (8 + big_SetBytes (sha1Hash (H := Sample.failingMarshal)
                     [ch_random Sample.hello12; sh_random Sample.serverHello12;
                      Sample.counter 5]))
           _ [] crypto_SHA1
           (Some (lib_error "asn1: structure error")));
    vm_compute; reflexivity.
Defined.

Lemma signed_verifyParameters_length_field_witness :
  let r := signedKeyAgreement.verifyParameters
             (Sample.signed0 VersionTLS12 signatureRSA)
             Sample.config12 Sample.hello12 Sample.serverHello12 Sample.peerCert
             (Sample.counter 5)
             [byte.of_Z hashSHA256; byte.of_Z signatureRSA;
              Byte.x00; Byte.x05; Byte.x01] in
  (snd (snd r) = Some errServerKeyExchange \/
   (VersionTLS12 <= VersionTLS12 /\
    snd (snd r) =
    Some (errors_New "tls: unsupported hash function for ServerKeyExchange"))) /\
  fst (snd r) = [] /\ signedKeyAgreement.raw (fst r) = [] /\
  signedKeyAgreement.valid (fst r) = false.
Proof.
  apply (signed_verifyParameters_length_field (H := Sample.siglib)
    (Sample.signed0 VersionTLS12 signatureRSA)
    Sample.config12 Sample.hello12 Sample.serverHello12 Sample.peerCert
    (Sample.counter 5)
    [byte.of_Z hashSHA256; byte.of_Z signatureRSA; Byte.x00; Byte.x05; Byte.x01]).
  vm_compute. discriminate.
Defined.

Section SignedIdentifiers.
Context `{SignatureLib}.
Import signedKeyAgreement.

(** X21. Which signature and hash identifiers [verifyParameters] records in
    [sh].  Below TLS 1.2 it never changes [sh].  From TLS 1.2 on, on any
    input of at least two bytes and whatever the outcome, [sh] holds the
    first byte of the input as hash and the second as signature, also when
    the message is rejected; and a second byte different from the signature
    type of the key agreement is answered with the invalid-ServerKeyExchange
    error before anything else is read. *)
Theorem signed_verifyParameters_records_identifiers (ka : t) (config : Config)
    (clientHello : clientHelloMsg) (serverHello : serverHelloMsg)
    (cert : x509_Certificate) (params sig : bytes) :
  let r := verifyParameters ka config clientHello serverHello cert params sig in
  (version ka < VersionTLS12 -> sh (fst r) = sh ka) /\
  (VersionTLS12 <= version ka -> 2 <= len sig ->
   sh (fst r) = {| signature := int (at_ sig 1); hash := int (at_ sig 0) |} /\
   (int (at_ sig 1) <> sigType ka ->
    snd r = ([], Some errServerKeyExchange) /\
    raw (fst r) = raw ka /\ valid (fst r) = valid ka)).
Proof.
  cbv zeta. unfold verifyParameters.
  destruct (Z.ltb_spec (len sig) 2) as [Hl|Hl].
  { split; [reflexivity|]. intros _ Hl'. lia. }
  assert (Hat : at_ (slice_to sig 2) 0 = at_ sig 0 /\ at_ (slice_to sig 2) 1 = at_ sig 1).
  { destruct sig as [|b0 [|b1 rest]].
    - unfold len in Hl. simpl in Hl. lia.
    - unfold len in Hl. simpl in Hl. lia.
    - split; reflexivity. }
  destruct Hat as [Hat0 Hat1].
  destruct (Z.leb_spec VersionTLS12 (version ka)) as [Hv|Hv].
  - split; [intros Hv'; lia|]. intros _ _. cbv zeta. rewrite Hat0, Hat1.
    set (ka1 := with_signature _ _).
    change (sigType ka1) with (sigType ka).
    assert (Hsh : sh ka1 = {| signature := int (at_ sig 1); hash := int (at_ sig 0) |})
      by reflexivity.
    destruct (Z.eqb_spec (int (at_ sig 1)) (sigType ka)) as [He|He]; cbn [negb].
    + split; [|intros Hne; contradiction].
      destruct (_ <? 2); [exact Hsh|].
      destruct (negb (isSupportedSignatureAndHash _ _)); [exact Hsh|].
      pose proof (verifyFramed_frame ka1 clientHello serverHello cert params
                    (int (at_ sig 0)) (slice_from sig 2)) as Hf.
      cbv zeta in Hf. destruct Hf as (_ & _ & Hs & _). rewrite Hs. exact Hsh.
    + split; [exact Hsh|]. intros _. split; [reflexivity|]. split; reflexivity.
  - split; [|intros Hv'; lia]. intros _.
    pose proof (verifyFramed_frame ka clientHello serverHello cert params 0 sig) as Hf.
    cbv zeta in Hf. destruct Hf as (_ & _ & Hs & _). exact Hs.
Qed.

End SignedIdentifiers.

Lemma signed_verifyParameters_records_identifiers_witness :
  let r := signedKeyAgreement.verifyParameters
             (Sample.signed0 VersionTLS12 signatureRSA)
             Sample.config12 Sample.hello12 Sample.serverHello12 Sample.peerCert
             (Sample.counter 5)
             [byte.of_Z hashSHA512; byte.of_Z signatureECDSA; Byte.x00; Byte.x00] in
  signedKeyAgreement.sh (fst r) = {| signature := signatureECDSA; hash := hashSHA512 |} /\
  snd r = ([], Some errServerKeyExchange) /\
  signedKeyAgreement.raw (fst r) = [] /\ signedKeyAgreement.valid (fst r) = false.
Proof.
  intros r.
  destruct (proj2 (signed_verifyParameters_records_identifiers (H := Sample.siglib)
                     (Sample.signed0 VersionTLS12 signatureRSA)
                     Sample.config12 Sample.hello12 Sample.serverHello12 Sample.peerCert
                     (Sample.counter 5)
                     [byte.of_Z hashSHA512; byte.of_Z signatureECDSA; Byte.x00; Byte.x00])
              ltac:(vm_compute; discriminate) ltac:(vm_compute; discriminate))
    as [Hsh Hrej].
  split; [exact Hsh|]. apply Hrej. vm_compute. discriminate.
Defined.

(** ** The export RSA exchange *)

Lemma put16_app_cons (n : Z) (s : bytes) :
  put16 n ++ s = byte.of_Z (Z.shiftr n 8) :: byte.of_Z n :: s.
Proof. reflexivity. Qed.

Lemma rsaParams_serverRSAParams (n e : Z) (sig : bytes) :
  0 <= n -> len (big_Bytes n) < 65536 -> 0 <= e < 2 ^ 32 ->
  rsaParams (rsaKeyAgreement.serverRSAParams (big_Bytes n) (big_Bytes e) ++ sig) =
  Some (n, e, len (rsaKeyAgreement.serverRSAParams (big_Bytes n) (big_Bytes e))).
Proof.
  intros Hn Hlen He.
  assert (Hel : len (big_Bytes e) <= 4).
  { apply Bytes_len_bound; [lia|]. change (256 ^ 4) with (2 ^ 32). exact He. }
  pose proof (len_nonneg (big_Bytes n)) as Hnn.
  pose proof (len_nonneg (big_Bytes e)) as Hen.
  unfold rsaKeyAgreement.serverRSAParams.
  rewrite <- !app_assoc. rewrite put16_app_cons. unfold rsaParams.
  rewrite put16_value by lia.
  assert (Hfit : (len (big_Bytes n) <=?
                 len (big_Bytes n ++ put16 (len (big_Bytes e)) ++ big_Bytes e ++ sig)) = true).
  { apply Z.leb_le. rewrite len_app.
    pose proof (len_nonneg (put16 (len (big_Bytes e)) ++ big_Bytes e ++ sig)). lia. }
  rewrite Hfit, slice_from_len_app, slice_to_len_app, put16_app_cons.
  rewrite put16_value by lia.
  assert (Hfit' : (len (big_Bytes e) <=? len (big_Bytes e ++ sig)) &&
                  (len (big_Bytes e) <=? 4) = true).
  { apply andb_true_intro. split; apply Z.leb_le; [|exact Hel].
    rewrite len_app. pose proof (len_nonneg sig). lia. }
  rewrite Hfit', slice_to_len_app, !SetBytes_Bytes by lia.
  do 3 f_equal.
  rewrite len_put16_app, len_app, len_put16_app. lia.
Qed.

Lemma rsaParams_long_exponent (n e : Z) (sig : bytes) :
  0 <= n -> len (big_Bytes n) < 65536 -> 2 ^ 32 <= e -> len (big_Bytes e) < 65536 ->
  rsaParams (rsaKeyAgreement.serverRSAParams (big_Bytes n) (big_Bytes e) ++ sig) = None.
Proof.
  intros Hn Hlen He Hel.
  assert (Hlong : 5 <= len (big_Bytes e)).
  { change 5 with (len (big_Bytes (2 ^ 32))). apply Bytes_len_mono. lia. }
  pose proof (len_nonneg (big_Bytes n)) as Hnn.
  unfold rsaKeyAgreement.serverRSAParams.
  rewrite <- !app_assoc. rewrite put16_app_cons. unfold rsaParams.
  rewrite put16_value by lia.
  assert (Hfit : (len (big_Bytes n) <=?
                 len (big_Bytes n ++ put16 (len (big_Bytes e)) ++ big_Bytes e ++ sig)) = true).
  { apply Z.leb_le. rewrite len_app.
    pose proof (len_nonneg (put16 (len (big_Bytes e)) ++ big_Bytes e ++ sig)). lia. }
  rewrite Hfit, slice_from_len_app, put16_app_cons.
  rewrite put16_value by lia.
  assert (Hno : (len (big_Bytes e) <=? 4) = false) by (apply Z.leb_gt; lia).
  rewrite Hno, andb_false_r. reflexivity.
Qed.

Section RsaExport.
Context {A : Type} `{keyAgreementAuthentication A} `{CryptoLib} `{SignatureLib}.
Import rsaKeyAgreement.

Lemma rsa_reads_serverRSAParams
    (ka : t A) (config : Config) (clientHello : clientHelloMsg)
    (serverHello : serverHelloMsg) (cert : x509_Certificate)
    (n e : Z) (sig dig : bytes) :
  ephemeral ka = true ->
  0 <= n -> len (big_Bytes n) < 65536 -> 0 <= e < 2 ^ 32 ->
  let params := serverRSAParams (big_Bytes n) (big_Bytes e) in
  let v := verifyParameters (auth ka) config clientHello serverHello cert params sig in
  processServerKeyExchange ka config clientHello serverHello cert
    {| key := params ++ sig; digest := dig |} =
  (mk (fst v) (version ka) (clientVersion ka) true (privateKey ka)
      (Some {| rsa_N := n; rsa_E := e |}) (snd (snd v)),
   {| key := params ++ sig; digest := fst (snd v) |},
   surfaced config (snd (snd v))).
Proof.
  intros Heph Hn Hlen He params v.
  apply (rsa_processServerKeyExchange_verified config clientHello serverHello cert
           {| key := params ++ sig; digest := dig |} ka n e (len params));
    [exact Heph | apply rsaParams_serverRSAParams; assumption |].
  cbn [key]. rewrite slice_to_len_app, slice_from_len_app.
  subst v. destruct (verifyParameters _ _ _ _ _ _ _) as [a [d verr]]. reflexivity.
Qed.

Lemma rsa_rejects_long_exponent
    (ka : t A) (config : Config) (clientHello : clientHelloMsg)
    (serverHello : serverHelloMsg) (cert : x509_Certificate)
    (n e : Z) (sig dig : bytes) :
  ephemeral ka = true ->
  0 <= n -> len (big_Bytes n) < 65536 -> 2 ^ 32 <= e -> len (big_Bytes e) < 65536 ->
  let skx := {| key := serverRSAParams (big_Bytes n) (big_Bytes e) ++ sig;
                digest := dig |} in
  processServerKeyExchange ka config clientHello serverHello cert skx =
  (ka, skx, Some errServerKeyExchange).
Proof.
  intros Heph Hn Hlen He Hel skx.
  apply rsa_processServerKeyExchange_malformed; [exact Heph|].
  apply rsaParams_long_exponent; assumption.
Qed.

Lemma rsa_generateServerKeyExchange_run
    (ka : t A) (rnd rnd1 : RandReader) (config : Config) (cert : Certificate)
    (clientHello : clientHelloMsg) (hello : serverHelloMsg) (k : rsa_PrivateKey) :
  ephemeral ka = true ->
  exportKey config rnd = (rnd1, Ok k) ->
  let params := serverRSAParams (big_Bytes (rsa_N (rsa_pub k)))
                  (big_Bytes (rsa_E (rsa_pub k))) in
  let signed := signParameters (auth ka) config cert clientHello hello params rnd1 in
  generateServerKeyExchange ka rnd config cert clientHello hello =
  (mk (fst (fst signed)) (version ka) (vers clientHello) true (Some k) (publicKey ka)
      (verifyError ka),
   snd (fst signed),
   match snd signed with
   | Ok skx => Ok (Some skx)
   | Err err => Err err
   | Panic msg => Panic msg
   end).
Proof.
  intros Heph Hkey params signed.
  destruct ka as [a0 v cv eph priv pub verr]. cbn [ephemeral] in Heph. subst eph.
  unfold generateServerKeyExchange. cbv zeta.
  cbn [with_privateKey with_clientVersion with_auth auth version clientVersion ephemeral
       privateKey publicKey verifyError negb] in *.
  unfold exportKey in Hkey. rewrite Hkey.
  fold params. fold signed.
  destruct signed as [[a rnd2] r]. reflexivity.
Qed.

Lemma rsa_generateServerKeyExchange_static
    (ka : t A) (rnd : RandReader) (config : Config) (cert : Certificate)
    (clientHello : clientHelloMsg) (hello : serverHelloMsg) :
  ephemeral ka = false ->
  generateServerKeyExchange ka rnd config cert clientHello hello =
  (with_clientVersion ka (vers clientHello), rnd, Ok None).
Proof.
  intros Heph. unfold generateServerKeyExchange. cbv zeta.
  change (ephemeral (with_clientVersion ka (vers clientHello))) with (ephemeral ka).
  rewrite Heph. reflexivity.
Qed.

End RsaExport.

(** X18. A complete export-RSA exchange without parameter authentication.
    The ephemeral server takes the key of the configuration or generates
    one, and sends its public half; the ephemeral client stores that public
    key and encrypts the pre-master secret under it, not under the key of
    the certificate; the server hands the client's ciphertext to
    [rsa.DecryptPKCS1v15SessionKey] with the ephemeral private key, not with
    the key of its certificate, and its outcome is the server's outcome. *)
Theorem rsa_export_exchange `{CryptoLib} `{SignatureLib}
    (kaS kaC : rsaKeyAgreement.t nilKeyAgreementAuthentication)
    (rndS rndS1 rndS2 rndS' rndC rndC' : RandReader) (configS configC : Config)
    (certS : Certificate) (certC : x509_Certificate)
    (clientHello : clientHelloMsg) (serverHello : serverHelloMsg)
    (k : rsa_PrivateKey) (encrypted out : bytes) (derr : option error) :
  rsaKeyAgreement.ephemeral kaS = true -> rsaKeyAgreement.ephemeral kaC = true ->
  rsaKeyAgreement.version kaS = rsaKeyAgreement.version kaC ->
  exportKey configS rndS = (rndS1, Ok k) ->
  0 <= rsa_N (rsa_pub k) -> len (big_Bytes (rsa_N (rsa_pub k))) < 65536 ->
  0 <= rsa_E (rsa_pub k) < 2 ^ 32 ->
  (46 <= List.length rndC)%nat -> (46 <= List.length rndS2)%nat ->
  let secret := put16 (vers clientHello) ++ firstn 46 rndC in
  rsa_EncryptPKCS1v15 (skipn 46 rndC) (rsa_pub k) secret = (rndC', Ok encrypted) ->
  (if rsaKeyAgreement.version kaC =? VersionSSL30 then 2 <= len encrypted
   else len encrypted < 65536) ->
  rsa_DecryptPKCS1v15SessionKey (skipn 46 rndS2) k encrypted
    ([Byte.x00; Byte.x00] ++ firstn 46 rndS2) = (rndS', out, derr) ->
  exists kaS1 skx kaC1 ckx,
    rsaKeyAgreement.generateServerKeyExchange kaS rndS configS certS clientHello
      serverHello = (kaS1, rndS1, Ok (Some skx)) /\
    rsaKeyAgreement.processServerKeyExchange kaC configC clientHello serverHello
      certC skx = (kaC1, skx, None) /\
    rsaKeyAgreement.publicKey kaC1 = Some (rsa_pub k) /\
    rsaKeyAgreement.generateClientKeyExchange kaC1 rndC configC clientHello certC =
      (rndC', Ok (secret, ckx)) /\
    rsaKeyAgreement.processClientKeyExchange kaS1 rndS2 configS certS ckx =
      (rndS', match derr with Some e => Err e | None => Ok out end).
Proof.
  intros HeS HeC Hv Hkey Hn Hlen He HrC HrS secret Henc Hel Hdec.
  pose proof (rsa_generateServerKeyExchange_run kaS rndS rndS1 configS certS clientHello
                serverHello k HeS Hkey) as HS.
  cbv zeta in HS. cbn [signParameters nil_auth fst snd] in HS.
  pose proof (rsa_reads_serverRSAParams kaC configC clientHello serverHello certC
                (rsa_N (rsa_pub k)) (rsa_E (rsa_pub k)) [] [] HeC Hn Hlen He) as HC.
  cbv zeta in HC. rewrite app_nil_r in HC. cbn [verifyParameters nil_auth fst snd] in HC.
  replace (surfaced configC None) with (@None error) in HC
    by (unfold surfaced; destruct (InsecureSkipVerify configC); reflexivity).
  replace {| rsa_N := rsa_N (rsa_pub k); rsa_E := rsa_E (rsa_pub k) |}
    with (rsa_pub k) in HC by (destruct (rsa_pub k); reflexivity).
  set (kaS1 := rsaKeyAgreement.mk (rsaKeyAgreement.auth kaS) (rsaKeyAgreement.version kaS)
                 (vers clientHello) true (Some k) (rsaKeyAgreement.publicKey kaS)
                 (rsaKeyAgreement.verifyError kaS)) in *.
  set (kaC1 := rsaKeyAgreement.mk (rsaKeyAgreement.auth kaC) (rsaKeyAgreement.version kaC)
                 (rsaKeyAgreement.clientVersion kaC) true (rsaKeyAgreement.privateKey kaC)
                 (Some (rsa_pub k)) None) in *.
  destruct (rsa_message_reaches_decryption kaC1 kaS1 rndC rndC' rndS2 rndS' configC configS
              clientHello certC certS (rsa_pub k) k encrypted out derr
              Hv HrC HrS (or_introl eq_refl) (or_introl eq_refl) Henc Hel Hdec)
    as (ckx & Hgen & _ & _ & Hproc).
  exists kaS1, {| key := rsaKeyAgreement.serverRSAParams
                           (big_Bytes (rsa_N (rsa_pub k))) (big_Bytes (rsa_E (rsa_pub k)));
                  digest := [] |}, kaC1, ckx.
  split; [exact HS|]. split; [exact HC|]. split; [reflexivity|].
  split; [exact Hgen|exact Hproc].
Qed.

Section RsaExportTheorems.
Context {A : Type} `{keyAgreementAuthentication A} `{CryptoLib}.
Import rsaKeyAgreement.

(** X19. The export-RSA client reads back the parameters that
    [rsaKeyAgreement.generateServerKeyExchange] serializes exactly when the
    exponent fits in four bytes.  On a message made of the serialized
    modulus [n] and exponent [e] and a signature part, an ephemeral client
    stores the public key [(n, e)] and hands the serialized parameters and
    the signature part to [verifyParameters] when [e < 2^32]; when
    [e >= 2^32] it answers with the invalid-ServerKeyExchange error and
    keeps its state. *)
Theorem rsa_processServerKeyExchange_reads_serverRSAParams
    (ka : t A) (config : Config) (clientHello : clientHelloMsg)
    (serverHello : serverHelloMsg) (cert : x509_Certificate)
    (n e : Z) (sig dig : bytes) :
  ephemeral ka = true ->
  0 <= n -> len (big_Bytes n) < 65536 -> 0 <= e -> len (big_Bytes e) < 65536 ->
  let params := serverRSAParams (big_Bytes n) (big_Bytes e) in
  let skx := {| key := params ++ sig; digest := dig |} in
  let v := verifyParameters (auth ka) config clientHello serverHello cert params sig in
  (e < 2 ^ 32 ->
   processServerKeyExchange ka config clientHello serverHello cert skx =
   (mk (fst v) (version ka) (clientVersion ka) true (privateKey ka)
       (Some {| rsa_N := n; rsa_E := e |}) (snd (snd v)),
    {| key := params ++ sig; digest := fst (snd v) |},
    surfaced config (snd (snd v)))) /\
  (2 ^ 32 <= e ->
   processServerKeyExchange ka config clientHello serverHello cert skx =
   (ka, skx, Some errServerKeyExchange)).
Proof.
  intros Heph Hn Hlen He Hel params skx v. split; intros Hsize.
  - apply rsa_reads_serverRSAParams; (assumption || lia).
  - apply rsa_rejects_long_exponent; assumption.
Qed.

End RsaExportTheorems.

Lemma rsa_processServerKeyExchange_reads_serverRSAParams_witness :
  let n := rsa_N (rsa_pub Sample.rsaKey) in
  let skx e := {| key := rsaKeyAgreement.serverRSAParams (big_Bytes n) (big_Bytes e) ++ [];
                  digest := [] |} in
  rsaKeyAgreement.processServerKeyExchange (Sample.rsa0 VersionTLS10 true)
    (Sample.config "" false) Sample.hello Sample.serverHello Sample.peerCert (skx 65537) =
  (rsaKeyAgreement.mk nilAuth VersionTLS10 0 true None
     (Some {| rsa_N := n; rsa_E := 65537 |}) None,
   skx 65537, None) /\
  rsaKeyAgreement.processServerKeyExchange (Sample.rsa0 VersionTLS10 true)
    (Sample.config "" false) Sample.hello Sample.serverHello Sample.peerCert
    (skx (2 ^ 32 + 1)) =
  (Sample.rsa0 VersionTLS10 true, skx (2 ^ 32 + 1), Some errServerKeyExchange).
Proof.
  intros n skx. split.
  - refine (proj1 (rsa_processServerKeyExchange_reads_serverRSAParams
                     (Sample.rsa0 VersionTLS10 true) (Sample.config "" false) Sample.hello
                     Sample.serverHello Sample.peerCert n 65537 [] [] eq_refl _ _ _ _) _);
      vm_compute; (reflexivity || discriminate).
  - refine (proj2 (rsa_processServerKeyExchange_reads_serverRSAParams
                     (Sample.rsa0 VersionTLS10 true) (Sample.config "" false) Sample.hello
                     Sample.serverHello Sample.peerCert n (2 ^ 32 + 1) [] [] eq_refl
                     _ _ _ _) _);
      vm_compute; (reflexivity || discriminate).
Defined.

Lemma rsa_export_exchange_witness :
  exists kaS1 skx kaC1 ckx,
    rsaKeyAgreement.generateServerKeyExchange (Sample.rsa0 VersionTLS12 true)
      (Sample.counter 1) (Sample.config "" false) Sample.ecdsaCert Sample.hello
      Sample.serverHello = (kaS1, [], Ok (Some skx)) /\
    rsaKeyAgreement.processServerKeyExchange (Sample.rsa0 VersionTLS12 true)
      (Sample.config "" false) Sample.hello Sample.serverHello Sample.ecdsaPeerCert skx =
      (kaC1, skx, None) /\
    rsaKeyAgreement.publicKey kaC1 = Some (rsa_pub Sample.rsaKey) /\
    rsaKeyAgreement.generateClientKeyExchange kaC1 (Sample.counter 70)
      (Sample.config "" false) Sample.hello Sample.ecdsaPeerCert =
      (skipn 59 (Sample.counter 70),
       Ok (put16 VersionTLS12 ++ firstn 46 (Sample.counter 70), ckx)) /\
    rsaKeyAgreement.processClientKeyExchange kaS1 (Sample.counter 50)
      (Sample.config "" false) Sample.ecdsaCert ckx =
      (skipn 46 (Sample.counter 50),
       Ok ([Byte.x00; Byte.x00] ++ firstn 46 (Sample.counter 50))).
Proof.
  refine (rsa_export_exchange (Sample.rsa0 VersionTLS12 true) (Sample.rsa0 VersionTLS12 true)
            (Sample.counter 1) [] (Sample.counter 50) (skipn 46 (Sample.counter 50))
            (Sample.counter 70) (skipn 59 (Sample.counter 70))
            (Sample.config "" false) (Sample.config "" false)
            Sample.ecdsaCert Sample.ecdsaPeerCert Sample.hello Sample.serverHello
            Sample.rsaKey
            (byte.of_Z 0 :: byte.of_Z 2 :: firstn 13 (skipn 46 (Sample.counter 70)) ++
             byte.of_Z 0 :: put16 VersionTLS12 ++ firstn 46 (Sample.counter 70))
            ([Byte.x00; Byte.x00] ++ firstn 46 (Sample.counter 50)) None
            eq_refl eq_refl eq_refl _ _ _ _ _ _ _ _ _).
  - vm_compute. reflexivity.
  - vm_compute. discriminate.
  - vm_compute. reflexivity.
  - vm_compute. split; [discriminate|reflexivity].
  - vm_compute. repeat constructor.
  - vm_compute. repeat constructor.
  - vm_compute. reflexivity.
  - vm_compute. reflexivity.
  - vm_compute. reflexivity.
Defined.

(** ** Signed ECDHE *)

(** X20. Signed ECDHE: the client verifies the server's parameters with the
    signature that the server made.  When the ECDHE server selects a
    registered curve, generates its key pair and [signedKeyAgreement]
    signs the parameters, the ECDHE client with the same version and
    signature type stores the server's point and the signature bytes, and
    its [verifyError] is exactly the outcome of checking that signature over
    the server's digest with the key of the certificate; when the check
    passes the client's message carries the server's digest and [valid] is
    set. *)
Theorem ecdhe_signed_server_message_verified `{CryptoLib} `{SignatureLib}
    (kaS kaC : ecdheKeyAgreement.t signedKeyAgreement.t)
    (rnd rnd1 rnd2 : RandReader) (configS configC : Config) (certS : Certificate)
    (certC : x509_Certificate) (clientHello : clientHelloMsg) (hello : serverHelloMsg)
    (id : CurveID) (c : NamedCurve) (priv : ECDHPrivateKey)
    (pub pub' : option ECDHPublicKey) (a : signedKeyAgreement.t)
    (skx : serverKeyExchangeMsg) :
  let authS := ecdheKeyAgreement.auth kaS in
  let authC := ecdheKeyAgreement.auth kaC in
  ecdheKeyAgreement.selectCurve (curvePreferences configS) (supportedCurves clientHello)
    = id ->
  0 < id < 65536 -> curveForCurveID id = (Some c, true) ->
  GenerateKey (ecdh_curve c) rnd = (rnd1, (Some priv, pub, None)) ->
  let m := Marshal (ecdh_curve c) pub false in
  len m < 256 -> Unmarshal (ecdh_curve c) m = (pub', true) ->
  signParameters authS configS certS clientHello hello (serverECDHParams id m) rnd1 =
    (a, rnd2, Ok skx) ->
  signedKeyAgreement.version authC = signedKeyAgreement.version authS ->
  signedKeyAgreement.sigType authC = signedKeyAgreement.sigType authS ->
  len (signedKeyAgreement.raw a) < 65536 ->
  (VersionTLS12 <= signedKeyAgreement.version authS ->
   isSupportedSignatureAndHash (signedKeyAgreement.sh a)
     (signatureAndHashesForClient configC) = true) ->
  let hashFunc :=
    snd (fst (hashForServerKeyExchange (signedKeyAgreement.sigType authS)
                (hash (signedKeyAgreement.sh a)) (signedKeyAgreement.version authS)
                [ch_random clientHello; sh_random hello; serverECDHParams id m])) in
  let verr := signedKeyAgreement.checkSignature authC certC hashFunc (digest skx)
                (signedKeyAgreement.raw a) in
  exists kaS1 kaC1 skx',
    ecdheKeyAgreement.generateServerKeyExchange kaS rnd configS certS clientHello hello =
      (kaS1, rnd2, Ok skx) /\
    ecdheKeyAgreement.auth kaS1 = a /\
    ecdheKeyAgreement.processServerKeyExchange kaC configC clientHello hello certC skx =
      (kaC1, skx', surfaced configC verr) /\
    ecdheKeyAgreement.verifyError kaC1 = verr /\
    ecdheKeyAgreement.serverPublicKey kaC1 = pub' /\
    signedKeyAgreement.raw (ecdheKeyAgreement.auth kaC1) = signedKeyAgreement.raw a /\
    key skx' = key skx /\
    (verr = None ->
     digest skx' = digest skx /\
     signedKeyAgreement.valid (ecdheKeyAgreement.auth kaC1) = true).
Proof.
  intros authS authC Hsel Hid Hc Hgen m Hm Hun Hsign Hver Hsig Hraw Hsup hashFunc verr.
  destruct (sign_then_verify authS authC a configS configC certS certC clientHello hello
              (serverECDHParams id m) rnd1 rnd2 skx Hsign Hver Hsig Hraw Hsup)
    as (blob & Hkey & Hr).
  cbv zeta in Hr. fold hashFunc in Hr. destruct Hr as (Hrr & _ & Herr & Hok).
  fold verr in Herr.
  destruct (signedKeyAgreement.verifyParameters authC configC clientHello hello certC
              (serverECDHParams id m) blob) as [a' [dig e]] eqn:Hv.
  cbn [fst snd] in Hrr, Herr, Hok. subst e.
  eexists _, _, _. split.
  { rewrite (ecdhe_generateServerKeyExchange_run kaS rnd rnd1 configS certS clientHello
               hello id c priv pub Hsel ltac:(lia) Hc Hgen).
    fold m. fold authS.
    change (@signParameters signedKeyAgreement.t signed_auth) with
      signedKeyAgreement.signParameters.
    change (@signParameters signedKeyAgreement.t signed_auth) with
      signedKeyAgreement.signParameters in Hsign.
    rewrite Hsign. reflexivity. }
  split; [reflexivity|]. split.
  { apply (ecdhe_processServerKeyExchange_verified configC clientHello hello certC skx kaC
             id c pub' (len m) a' dig verr).
    + rewrite Hkey. apply ecdheParams_serverECDHParams; (lia || assumption).
    + rewrite Hkey.
      assert (Hp : 4 + len m = len (serverECDHParams id m)).
      { unfold serverECDHParams. rewrite len_app, !len_cons.
        change (len (@nil byte)) with 0. lia. }
      rewrite Hp, slice_to_len_app, slice_from_len_app. exact Hv. }
  cbn [ecdheKeyAgreement.verifyError ecdheKeyAgreement.serverPublicKey
       ecdheKeyAgreement.auth key digest].
  split; [reflexivity|]. split; [reflexivity|]. split; [exact Hrr|].
  split; [reflexivity|]. exact Hok.
Qed.

Lemma ecdhe_signed_server_message_verified_witness :
  exists kaS1 kaC1 skx',
    ecdheKeyAgreement.generateServerKeyExchange Sample.ecdheSigned0 [Byte.x07; Byte.x09]
      Sample.config12 Sample.ecdsaCert Sample.hello12 Sample.serverHello12 =
      (kaS1, [], Ok (snd Sample.ecdheSignedRun)) /\
    ecdheKeyAgreement.auth kaS1 = fst (fst Sample.ecdheSignedRun) /\
    ecdheKeyAgreement.processServerKeyExchange Sample.ecdheSigned0 Sample.config12
      Sample.hello12 Sample.serverHello12 Sample.ecdsaPeerCert (snd Sample.ecdheSignedRun) =
      (kaC1, skx', None) /\
    ecdheKeyAgreement.verifyError kaC1 = None /\
    ecdheKeyAgreement.serverPublicKey kaC1 = Some {| X := Some 7; Y := None |} /\
    signedKeyAgreement.valid (ecdheKeyAgreement.auth kaC1) = true.
Proof.
  destruct (ecdhe_signed_server_message_verified (H0 := Sample.siglib)
              Sample.ecdheSigned0 Sample.ecdheSigned0 [Byte.x07; Byte.x09]
              [Byte.x09] [] Sample.config12 Sample.config12 Sample.ecdsaCert
              Sample.ecdsaPeerCert Sample.hello12 Sample.serverHello12 CurveP256r1 P256r1
              {| D := [Byte.x07] |} (Some {| X := Some 7; Y := None |})
              (Some {| X := Some 7; Y := None |})
              (fst (fst Sample.ecdheSignedRun)) (snd Sample.ecdheSignedRun)
              ltac:(vm_compute; reflexivity) ltac:(vm_compute; split; reflexivity)
              ltac:(vm_compute; reflexivity) ltac:(vm_compute; reflexivity)
              ltac:(vm_compute; reflexivity) ltac:(vm_compute; reflexivity)
              ltac:(vm_compute; reflexivity) eq_refl eq_refl
              ltac:(vm_compute; reflexivity) ltac:(intros _; vm_compute; reflexivity))
    as (kaS1 & kaC1 & skx' & Hgen & Hauth & Hproc & Hverr & Hpub & _ & _ & Hok).
  assert (Hnone :
    signedKeyAgreement.checkSignature (H := Sample.siglib)
      (ecdheKeyAgreement.auth Sample.ecdheSigned0) Sample.ecdsaPeerCert
      (snd (fst (hashForServerKeyExchange (H := Sample.siglib)
                   (signedKeyAgreement.sigType (ecdheKeyAgreement.auth Sample.ecdheSigned0))
                   (hash (signedKeyAgreement.sh (fst (fst Sample.ecdheSignedRun))))
                   (signedKeyAgreement.version (ecdheKeyAgreement.auth Sample.ecdheSigned0))
                   [ch_random Sample.hello12; sh_random Sample.serverHello12;
                    serverECDHParams CurveP256r1
                      (Marshal (ecdh_curve P256r1) (Some {| X := Some 7; Y := None |})
                         false)])))
      (digest (snd Sample.ecdheSignedRun))
      (signedKeyAgreement.raw (fst (fst Sample.ecdheSignedRun))) = None)
    by (vm_compute; reflexivity).
  rewrite Hnone in Hproc, Hverr. specialize (Hok Hnone).
  exists kaS1, kaC1, skx'.
  split; [exact Hgen|]. split; [exact Hauth|]. split; [exact Hproc|].
  split; [exact Hverr|]. split; [exact Hpub|]. exact (proj2 Hok).
Defined.
